(** * OCI launcher scripts and the vanilla-oracle tool server

    A shallow embedding of the three Python programs of the repository

      - [oci-control.py]      (module [OciControl])
      - [launch_staging.py]   (module [LaunchStaging])
      - [oci_oracle_mcp.py]   (module [VanillaOracleMCP])

    Every program is glue around the provider SDK.  The SDK and the Python
    runtime are not part of the repository; they are a [World] of oracles that
    answer the calls the programs make.  A program is a computation in a state
    and exception monad whose state is the ordered log of provider calls, the
    lines printed so far, and (for the server class) the attributes of [self].

    Conventions of the model:
      - text is ASCII: [str.lower] and [str.strip] act on the ASCII range;
      - an exception is an instance of Python's [Exception]; interrupts of the
        process ([KeyboardInterrupt], [SystemExit]) are not modelled, so a
        bare [except:] and [except Exception] catch the same exceptions;
      - [json.dumps], [base64.b64encode], [repr] of a non-string value and the
        parsing of a string by [float] are functions of the world;
      - a loop that polls the provider takes [fuel], the number of iterations
        it may make; a run that needs more has no result ([None]). *)

From Stdlib Require Import ZArith Lia Ascii QArith.QArith_base DecimalString.
From stdpp Require Import gmap strings list.

(** ** Python strings *)

Module Py.

(** [chr(10)], written [\n] in the sources. *)
Definition nl : string := String "010"%char "".

(** [str.lower] on the ASCII range; bytes outside [A-Z] are kept. *)
Definition lower_ascii (c : ascii) : ascii :=
  let n := nat_of_ascii c in
  if (65 <=? n) && (n <=? 90) then ascii_of_nat (n + 32) else c.

Fixpoint lower (s : string) : string :=
  match s with
  | EmptyString => EmptyString
  | String c s' => String (lower_ascii c) (lower s')
  end.

(** [s.startswith(p)] *)
Fixpoint startswith (p s : string) : bool :=
  match p, s with
  | EmptyString, _ => true
  | String a p', String b s' => if Ascii.eqb a b then startswith p' s' else false
  | String _ _, EmptyString => false
  end.

(** [needle in hay] *)
Fixpoint contains (needle hay : string) : bool :=
  startswith needle hay ||
  match hay with
  | EmptyString => false
  | String _ hay' => contains needle hay'
  end.

(** [s.endswith(suffix)] *)
Definition endswith (suffix s : string) : bool :=
  let n := String.length s in
  let m := String.length suffix in
  if m <=? n then String.eqb (String.substring (n - m) m s) suffix else false.

(** Python whitespace as recognised by [str.strip()] on ASCII text. *)
Definition is_space (c : ascii) : bool :=
  let n := nat_of_ascii c in
  (n =? 32) || ((9 <=? n) && (n <=? 13)) || ((28 <=? n) && (n <=? 31)).

Fixpoint lstrip (s : string) : string :=
  match s with
  | EmptyString => EmptyString
  | String c s' => if is_space c then lstrip s' else s
  end.

Fixpoint rstrip (s : string) : string :=
  match s with
  | EmptyString => EmptyString
  | String c s' =>
      match rstrip s' with
      | EmptyString => if is_space c then EmptyString else String c EmptyString
      | r => String c r
      end
  end.

Definition strip (s : string) : string := rstrip (lstrip s).

(** [s[:n]] *)
Definition take (n : nat) (s : string) : string := String.substring 0 n s.

(** Values that travel through [Dict[str, Any]] arguments, environment
    variables and configuration dictionaries. *)
Inductive value :=
| VNone
| VBool (b : bool)
| VInt (z : Z)
| VFloat (q : Q)
| VStr (s : string).

(** [type(v).__name__], as Python's error messages print it. *)
Definition type_name (v : value) : string :=
  match v with
  | VNone => "NoneType"
  | VBool _ => "bool"
  | VInt _ => "int"
  | VFloat _ => "float"
  | VStr _ => "str"
  end.

(** Truthiness, as tested by [if x:] and [not x]. *)
Definition truthy (v : value) : bool :=
  match v with
  | VNone => false
  | VBool b => b
  | VInt z => negb (Z.eqb z 0)
  | VFloat q => negb (Z.eqb (Qnum q) 0)
  | VStr s => negb (String.eqb s "")
  end.

(** [a == v] for a string [a] and an arbitrary value [v]: a string is equal
    only to the same string. *)
Definition str_eq (a : string) (v : value) : bool :=
  match v with
  | VStr s => String.eqb a s
  | _ => false
  end.

(** Exceptions.  [ServiceError] is the SDK's; [text] is what [str(e)] renders
    for it (the SDK formats status, code, message and request ids).  Any other
    instance of [Exception] is [Error cls msg] with [msg = str(e)]. *)
Inductive exn :=
| ServiceError (status : Z) (code message text : string)
| Error (cls msg : string).

Definition str_exn (e : exn) : string :=
  match e with
  | ServiceError _ _ _ text => text
  | Error _ msg => msg
  end.

Inductive res (A : Type) :=
| Ok (a : A)
| Raise (e : exn).
Arguments Ok {A} a.
Arguments Raise {A} e.

(** [float(z)] for an [int]: exact below 2^53, rounded to the nearest binary64
    value (ties to even) above, OverflowError when the result does not fit. *)
Definition float_of_int (z : Z) : res Q :=
  let m := Z.abs z in
  if (m <? 2 ^ 53)%Z then Ok (inject_Z z)
  else
    let e := (Z.log2 m - 52)%Z in
    let q := Z.shiftr m e in
    let r := (m - Z.shiftl q e)%Z in
    let half := Z.shiftl 1 (e - 1) in
    let q := if ((half <? r) || ((r =? half) && Z.odd q))%Z then (q + 1)%Z else q in
    let rounded := Z.shiftl q e in
    if (2 ^ 1024 <=? rounded)%Z then
      Raise (Error "OverflowError" "int too large to convert to float")
    else Ok (inject_Z (Z.sgn z * rounded)).

(** JSON documents handed to [json.dumps] / [json.dump]. *)
#[local] Unset Elimination Schemes.
Inductive json :=
| JNull
| JInt (z : Z)
| JStr (s : string)
| JVal (v : value)
| JArr (l : list json)
| JObj (fields : list (string * json)).
#[local] Set Elimination Schemes.

Definition of_option (o : option string) : value :=
  match o with Some s => VStr s | None => VNone end.

End Py.
Export Py.

(** ** Provider data model (the SDK objects the programs read) *)

Record datetime := { isoformat : string; dt_str : string }.

Record Image := { image_id : string; image_display_name : string }.

Record Vcn := {
  vcn_id : string;
  vcn_display_name : string;
  vcn_cidr_block : string;
  vcn_lifecycle_state : string }.

Record Subnet := {
  subnet_id : string;
  subnet_display_name : string;
  subnet_cidr_block : string;
  subnet_availability_domain : string }.

Record Instance := {
  id : string;
  display_name : string;
  lifecycle_state : string;
  shape : string;
  time_created : option datetime;
  availability_domain : string;
  region : string }.

Record VnicAttachment := { vnic_id : string }.

Record Vnic := { public_ip : option string; private_ip : option string }.

(** [oci.core.models.LaunchInstanceShapeConfigDetails] *)
Record LaunchInstanceShapeConfigDetails := { ocpus : Q; memory_in_gbs : Q }.

(** [oci.core.models.CreateVnicDetails] *)
Record CreateVnicDetails := { cv_subnet_id : string; assign_public_ip : bool }.

(** [oci.core.models.LaunchInstanceDetails]; a keyword the caller does not pass
    is [None]. *)
Record LaunchInstanceDetails := {
  ld_availability_domain : string;
  ld_compartment_id : value;
  ld_display_name : value;
  ld_image_id : option string;
  ld_source_image_id : option string;
  ld_subnet_id : option string;
  ld_shape : value;
  ld_shape_config : option LaunchInstanceShapeConfigDetails;
  ld_create_vnic_details : CreateVnicDetails;
  ld_metadata : list (string * string) }.

(** ** The world outside the repository

    One oracle per SDK call or runtime service.  [compute_get_instance n i] is
    the answer to the [n]-th [get_instance] call of the run (counted from 0),
    so that successive polls of one instance may see different states.  Every
    [list_images] call of the repository asks for [sort_by="TIMECREATED"],
    [sort_order="DESC"]; the oracle returns the list in the order served. *)
Record World := {
  compute_list_images : value -> value -> value -> option value -> res (list Image);
  compute_launch_instance : LaunchInstanceDetails -> res Instance;
  compute_get_instance : nat -> value -> res Instance;
  compute_list_instances : value -> option Z -> res (list Instance);
  compute_list_vnic_attachments : value -> value -> res (list VnicAttachment);
  compute_terminate_instance : value -> res unit;
  network_list_vcns : value -> res (list Vcn);
  network_list_subnets : value -> option string -> res (list Subnet);
  network_get_vnic : string -> res Vnic;
  identity_list_availability_domains : value -> res (list string);
  (** [oci.wait_until]: how many further fetches fit into [max_wait_seconds] *)
  wait_until_fetches : Z -> nat;
  (** [oci.config.from_file()], [ComputeClient(config)], [VirtualNetworkClient(config)] *)
  config_from_file : res (gmap string value);
  new_compute_client : gmap string value -> res unit;
  new_network_client : gmap string value -> res unit;
  (** runtime services *)
  os_getenv : string -> option string;
  os_path_expanduser : value -> res string;
  home : string;
  path_exists : string -> bool;
  read_text : string -> res string;
  write_text : string -> json -> res unit;
  json_dumps : json -> string;
  b64encode : string -> string;
  repr : value -> string;
  float_of_str : string -> option Q }.

(** ** Program state and the monad of the programs *)

Inductive call :=
| ListImages (compartment os version : value) (shape : option value)
| LaunchInstance (details : LaunchInstanceDetails)
| GetInstance (instance_id : value)
| ListInstances (compartment : value) (limit : option Z)
| ListVnicAttachments (compartment : value) (instance_id : value)
| TerminateInstance (instance_id : value)
| ListVcns (compartment : value)
| ListSubnets (compartment : value) (vcn : option string)
| GetVnic (vnic : string)
| ListAvailabilityDomains (compartment : value)
| Sleep (seconds : Z)
| ReadText (path : string)
| WriteText (path : string) (doc : json).

Record state := {
  calls : list call;
  stdout : list string;
  (** attributes of the [VanillaOracleMCP] object *)
  config : option (gmap string value);
  compute_client : bool;
  network_client : bool }.

Definition initial : state :=
  {| calls := []; stdout := []; config := None;
     compute_client := false; network_client := false |}.

Definition log (c : call) (s : state) : state :=
  {| calls := calls s ++ [c]; stdout := stdout s; config := config s;
     compute_client := compute_client s; network_client := network_client s |}.

Definition emit (line : string) (s : state) : state :=
  {| calls := calls s; stdout := stdout s ++ [line]; config := config s;
     compute_client := compute_client s; network_client := network_client s |}.

Definition set_config (c : gmap string value) (s : state) : state :=
  {| calls := calls s; stdout := stdout s; config := Some c;
     compute_client := compute_client s; network_client := network_client s |}.

Definition set_compute_client (s : state) : state :=
  {| calls := calls s; stdout := stdout s; config := config s;
     compute_client := true; network_client := network_client s |}.

Definition set_network_client (s : state) : state :=
  {| calls := calls s; stdout := stdout s; config := config s;
     compute_client := compute_client s; network_client := true |}.

(** A computation either runs out of fuel ([None]: a loop that is still
    spinning), returns, or raises; the state survives an exception. *)
Definition M (A : Type) : Type := state -> option (res A * state).

#[global] Instance M_ret : MRet M := fun A a s => Some (Ok a, s).

#[global] Instance M_bind : MBind M := fun A B k m s =>
  match m s with
  | None => None
  | Some (Ok a, s') => k a s'
  | Some (Raise e, s') => Some (Raise e, s')
  end.

Definition raise {A} (e : exn) : M A := fun s => Some (Raise e, s).

Definition spinning {A} : M A := fun _ => None.

(** [try: m  except <anything>: h] *)
Definition try_except {A} (m : M A) (h : exn -> M A) : M A := fun s =>
  match m s with
  | Some (Raise e, s') => h e s'
  | r => r
  end.

(** A state update, and an answer of the world that is not a logged call. *)
Definition modify (f : state -> state) : M unit := fun s => Some (Ok tt, f s).

Definition answer {A} (r : res A) : M A := fun s => Some (r, s).

Definition gets {A} (f : state -> A) : M A := fun s => Some (Ok (f s), s).

(** [print(line)] *)
Definition print (line : string) : M unit := modify (emit line).

(** An SDK call: logged, then answered by the world. *)
Definition invoke {A} (c : call) (r : res A) : M A := fun s => Some (r, log c s).

Definition is_get_instance (c : call) : bool :=
  match c with GetInstance _ => true | _ => false end.

(** Number of [get_instance] calls issued so far. *)
Definition polls (l : list call) : nat := length (List.filter is_get_instance l).

Definition is_mutation (c : call) : bool :=
  match c with
  | LaunchInstance _ | TerminateInstance _ => true
  | _ => false
  end.

Module Sdk.
Section Sdk.
Variable w : World.

Definition list_images (compartment os version : value) (shape : option value) : M (list Image) :=
  invoke (ListImages compartment os version shape)
         (compute_list_images w compartment os version shape).

Definition launch_instance (d : LaunchInstanceDetails) : M Instance :=
  invoke (LaunchInstance d) (compute_launch_instance w d).

Definition get_instance (i : value) : M Instance := fun s =>
  Some (compute_get_instance w (polls (calls s)) i, log (GetInstance i) s).

Definition list_instances (compartment : value) (limit : option Z) : M (list Instance) :=
  invoke (ListInstances compartment limit) (compute_list_instances w compartment limit).

Definition list_vnic_attachments (compartment : value) (i : value) : M (list VnicAttachment) :=
  invoke (ListVnicAttachments compartment i) (compute_list_vnic_attachments w compartment i).

Definition terminate_instance (i : value) : M unit :=
  invoke (TerminateInstance i) (compute_terminate_instance w i).

Definition list_vcns (compartment : value) : M (list Vcn) :=
  invoke (ListVcns compartment) (network_list_vcns w compartment).

Definition list_subnets (compartment : value) (vcn : option string) : M (list Subnet) :=
  invoke (ListSubnets compartment vcn) (network_list_subnets w compartment vcn).

Definition get_vnic (v : string) : M Vnic :=
  invoke (GetVnic v) (network_get_vnic w v).

Definition list_availability_domains (compartment : value) : M (list string) :=
  invoke (ListAvailabilityDomains compartment) (identity_list_availability_domains w compartment).

(** [time.sleep(n)] *)
Definition sleep (n : Z) : M unit := invoke (Sleep n) (Ok tt).

Definition read (path : string) : M string := invoke (ReadText path) (read_text w path).

Definition write (path : string) (doc : json) : M unit :=
  invoke (WriteText path doc) (write_text w path doc).

(** [str(v)] inside an f-string *)
Definition str (v : value) : string :=
  match v with
  | VStr s => s
  | _ => repr w v
  end.

(** [l[0]] *)
Definition first {A} (l : list A) : M A :=
  match l with
  | x :: _ => mret x
  | [] => raise (Error "IndexError" "list index out of range")
  end.

End Sdk.
End Sdk.

(** [f"{x}"] for an attribute that may be [None] *)
Definition str_opt (o : option string) : string := default "None" o.

(** ** [oci-control.py] *)

Module OciControl.
Section OciControl.
Variable w : World.

(** Module-level [compartment_id = config["tenancy"]], read from the
    environment. *)
Definition compartment_id : value := of_option (os_getenv w "OCI_TENANCY_OCID").

(** Lines 32-49: the filtered image query and the fallback without [shape]. *)
Definition find_images : M (list Image) :=
  images ← Sdk.list_images w compartment_id (VStr "Canonical Ubuntu") (VStr "22.04")
             (Some (VStr "VM.Standard.A1.Flex"));
  match images with
  | [] =>
      print "   Trying x86 images...";;
      Sdk.list_images w compartment_id (VStr "Canonical Ubuntu") (VStr "22.04") None
  | _ => mret images
  end.

(** Lines 120-123: [while instance.lifecycle_state != "RUNNING"]. *)
Fixpoint wait_running (fuel : nat) (instance : Instance) : M Instance :=
  if String.eqb (lifecycle_state instance) "RUNNING" then mret instance
  else
    match fuel with
    | 0 => spinning
    | S fuel' =>
        Sdk.sleep 5;;
        instance ← Sdk.get_instance w (VStr (id instance));
        print ("   State: " +:+ lifecycle_state instance);;
        wait_running fuel' instance
    end.

(** Lines 145-155: [except oci.exceptions.ServiceError as e]. *)
Definition on_service_error (e : exn) : M unit :=
  match e with
  | ServiceError status code message _ =>
      print (nl +:+ "❌ Failed to launch: " +:+ message);;
      print ("   Status: " +:+ Sdk.str w (VInt status));;
      print ("   Code: " +:+ code);;
      if Z.eqb status 404 then
        print (nl +:+ "💡 Try using the root compartment (tenancy OCID)")
      else if contains "quota" (lower message) then
        print (nl +:+ "💡 You may have hit quota limits for this shape")
      else if contains "shape" (lower message) then
        print (nl +:+ "💡 This shape might not be available in this AD")
      else mret tt
  | _ => raise e
  end.

(** Lines 113-155: the [try] block with its handler. *)
Definition launch_and_report (fuel : nat) (launch_details : LaunchInstanceDetails) : M unit :=
  try_except
    (response ← Sdk.launch_instance w launch_details;
     let instance := response in
     print ("   ✓ Instance created: " +:+ id instance);;
     print (nl +:+ "5️⃣  Waiting for instance to start...");;
     instance ← wait_running fuel instance;
     print (nl +:+ "6️⃣  Getting public IP...");;
     vnics ← Sdk.list_vnic_attachments w compartment_id (VStr (id instance));
     match vnics with
     | [] => mret tt
     | a :: _ =>
         vnic ← Sdk.get_vnic w (vnic_id a);
         print ("   ✓ Public IP: " +:+ str_opt (public_ip vnic));;
         print (nl +:+ "==================================================");;
         print "✅ SUCCESS! Ubuntu 22.04 is running!";;
         print "==================================================";;
         print (nl +:+ "SSH into it with:");;
         print ("  ssh ubuntu@" +:+ str_opt (public_ip vnic));;
         print (nl +:+ "Instance ID: " +:+ id instance);;
         print (nl +:+ "To terminate later:");;
         print ("  python3 oci-simple.py --terminate " +:+ id instance)
     end)
    on_service_error.

Definition launch_details (image : Image) (subnet : Subnet) (ad ssh_key : string)
  : LaunchInstanceDetails :=
  {| ld_availability_domain := ad;
     ld_compartment_id := compartment_id;
     ld_display_name := VStr "ubuntu-vanilla-test";
     ld_image_id := Some (image_id image);
     ld_source_image_id := None;
     ld_subnet_id := Some (subnet_id subnet);
     ld_shape := VStr "VM.Standard.A1.Flex";
     ld_shape_config := Some {| ocpus := Qmake 1 1; memory_in_gbs := Qmake 6 1 |};
     ld_create_vnic_details :=
       {| cv_subnet_id := subnet_id subnet; assign_public_ip := true |};
     ld_metadata := [("ssh_authorized_keys", ssh_key)] |}.

(** Lines 56-155: what [launch_ubuntu] does once [image = images[0]] is bound. *)
Definition launch_with (image : Image) (fuel : nat) : M unit :=
  print ("   ✓ Found: " +:+ image_display_name image);;
  print (nl +:+ "2️⃣  Using existing network...");;
  vcns ← Sdk.list_vcns w compartment_id;
  match vcns with
  | [] => print "❌ No VCN found"
  | vcn :: _ =>
      print ("   ✓ VCN: " +:+ vcn_display_name vcn);;
      subnets ← Sdk.list_subnets w compartment_id (Some (vcn_id vcn));
      match subnets with
      | [] => print "❌ No subnet found"
      | subnet :: _ =>
          print ("   ✓ Subnet: " +:+ subnet_display_name subnet);;
          ads ← Sdk.list_availability_domains w compartment_id;
          ad ← Sdk.first ads;
          print ("   ✓ AD: " +:+ ad);;
          print (nl +:+ "3️⃣  Setting up SSH...");;
          ssh_key_path ← answer (os_path_expanduser w (VStr "~/.ssh/id_rsa.pub"));
          text ← Sdk.read w ssh_key_path;
          let ssh_key := strip text in
          print ("   ✓ Using key from " +:+ ssh_key_path);;
          print (nl +:+ "4️⃣  Launching instance...");;
          launch_and_report fuel (launch_details image subnet ad ssh_key)
      end
  end.

(** [launch_ubuntu()]; [fuel] bounds the iterations of the poll loop. *)
Definition launch_ubuntu (fuel : nat) : M unit :=
  print ("🚀 Launching Ubuntu 22.04 on OCI" +:+ nl);;
  print "1️⃣  Finding Ubuntu 22.04 image...";;
  images ← find_images;
  match images with
  | [] => print "❌ No Ubuntu images found"
  | image :: _ => launch_with image fuel
  end.

(** [terminate(instance_id)] *)
Definition terminate (instance_id : string) : M unit :=
  print ("🗑️  Terminating " +:+ instance_id +:+ "...");;
  try_except
    (Sdk.terminate_instance w (VStr instance_id);;
     print "✓ Termination started")
    (fun e => print ("❌ Failed: " +:+ str_exn e)).

(** [list_all()] *)
Fixpoint print_instances (instances : list Instance) : M unit :=
  match instances with
  | [] => mret tt
  | i :: rest =>
      print ("• " +:+ display_name i);;
      print ("  ID: " +:+ id i);;
      print ("  State: " +:+ lifecycle_state i);;
      print ("  Shape: " +:+ shape i);;
      print "";;
      print_instances rest
  end.

Definition list_all : M unit :=
  print ("📋 Your instances:" +:+ nl);;
  instances ← Sdk.list_instances w compartment_id None;
  print_instances instances.

(** The [if __name__ == "__main__":] block (lines 177-188); [argv] is
    [sys.argv], the script name first. *)
Definition main (argv : list string) (fuel : nat) : M unit :=
  if 1 <? length argv then
    if String.eqb (nth 1 argv "") "--list" then list_all
    else if String.eqb (nth 1 argv "") "--terminate" && (2 <? length argv) then
      terminate (nth 2 argv "")
    else print "Usage: python3 oci-simple.py [--list | --terminate <id>]"
  else launch_ubuntu fuel.

End OciControl.
End OciControl.

(** ** [launch_staging.py] *)

Module LaunchStaging.
Section LaunchStaging.
Variable w : World.

(** Module-level [compartment_id = config["tenancy"]], bound when the module
    is imported. *)
Variable compartment_id : value.

Definition dq : string := String "034"%char "".

(** The [cloud_init] script literal (lines 78-104). *)
Definition cloud_init : string :=
  "#!/bin/bash" +:+ nl +:+
  "# Staging Server Setup" +:+ nl +:+ nl +:+
  "apt-get update" +:+ nl +:+
  "apt-get install -y python3-pip git tmux supervisor curl" +:+ nl +:+ nl +:+
  "# Install Poetry" +:+ nl +:+
  "curl -sSL https://install.python-poetry.org | python3 -" +:+ nl +:+ nl +:+
  "# Install Cloudflared" +:+ nl +:+
  "wget -q https://github.com/cloudflare/cloudflared/releases/latest/download/cloudflared-linux-amd64.deb" +:+ nl +:+
  "dpkg -i cloudflared-linux-amd64.deb" +:+ nl +:+ nl +:+
  "# Create namespaces directory" +:+ nl +:+
  "mkdir -p /home/ubuntu/namespaces" +:+ nl +:+
  "chown ubuntu:ubuntu /home/ubuntu/namespaces" +:+ nl +:+ nl +:+
  "# Clone tamara and mariana" +:+ nl +:+
  "su - ubuntu -c " +:+ dq +:+ "cd ~/namespaces && git clone https://github.com/ldraney/tamara.git" +:+ dq +:+ nl +:+
  "su - ubuntu -c " +:+ dq +:+ "cd ~/namespaces && git clone https://github.com/ldraney/mariana.git" +:+ dq +:+ nl +:+ nl +:+
  "# Checkout staging branches" +:+ nl +:+
  "su - ubuntu -c " +:+ dq +:+ "cd ~/namespaces/tamara && git checkout staging || git checkout -b staging origin/staging || git checkout -b staging" +:+ dq +:+ nl +:+
  "su - ubuntu -c " +:+ dq +:+ "cd ~/namespaces/mariana && git checkout staging || git checkout -b staging origin/staging || git checkout -b staging" +:+ dq +:+ nl +:+ nl +:+
  "echo " +:+ dq +:+ "✅ Staging setup complete!" +:+ dq +:+ nl.

(** Lines 52-56: the [for] loop with its [break]; [None] when no display name
    contains ["public"]. *)
Fixpoint find_public (subnets : list Subnet) : option Subnet :=
  match subnets with
  | [] => None
  | subnet :: rest =>
      if contains "public" (lower (subnet_display_name subnet)) then Some subnet
      else find_public rest
  end.

(** Lines 52-59: the subnet the launch will use. *)
Definition public_subnet (subnets : list Subnet) : option Subnet :=
  match find_public subnets with
  | Some subnet => Some subnet
  | None => match subnets with subnet :: _ => Some subnet | [] => None end
  end.

(** Lines 139-144: one fetch, then [while instance.lifecycle_state != "RUNNING"]. *)
Fixpoint poll_until_running (fuel : nat) (instance : Instance) : M Instance :=
  if String.eqb (lifecycle_state instance) "RUNNING" then mret instance
  else
    match fuel with
    | 0 => spinning
    | S fuel' =>
        Sdk.sleep 5;;
        instance ← Sdk.get_instance w (VStr (id instance));
        print ("   Status: " +:+ lifecycle_state instance +:+ "...");;
        poll_until_running fuel' instance
    end.

Definition wait_running (fuel : nat) (instance : Instance) : M Instance :=
  instance ← Sdk.get_instance w (VStr (id instance));
  poll_until_running fuel instance.

Definition deployment_info (instance : Instance) (public_ip : option string) : json :=
  JObj [ ("type", JStr "staging");
         ("instance_id", JStr (id instance));
         ("public_ip", JVal (of_option public_ip));
         ("shape", JStr "VM.Standard.E2.1.Micro");
         ("status", JStr "running");
         ("created_at", JStr (str_opt (dt_str <$> time_created instance))) ].

(** Lines 150-190: IP discovery after the instance is running. *)
Definition discover_ip (instance : Instance) : M (option string) :=
  vnic_attachments ← Sdk.list_vnic_attachments w compartment_id (VStr (id instance));
  match vnic_attachments with
  | a :: _ =>
      vnic ← Sdk.get_vnic w (vnic_id a);
      let public_ip := public_ip vnic in
      print ("   ✅ Public IP: " +:+ str_opt public_ip);;
      Sdk.write w (home w +:+ "/namespaces/oci/staging_deployment.json")
                (deployment_info instance public_ip);;
      print (nl +:+ "✅ STAGING SERVER READY!");;
      print (nl +:+ "📋 Details:");;
      print ("   Instance ID: " +:+ id instance);;
      print ("   Public IP: " +:+ str_opt public_ip);;
      print ("   SSH: ssh ubuntu@" +:+ str_opt public_ip);;
      print (nl +:+ "📝 Next Steps:");;
      print "1. Wait 2-3 minutes for setup to complete";;
      print ("2. SSH in: ssh ubuntu@" +:+ str_opt public_ip);;
      print "3. Setup staging tunnels:";;
      print "   cd ~/namespaces/devy";;
      print "   ./setup_staging_tunnels.sh";;
      print ("4. Update devy/deployment_config.py with IP: " +:+ str_opt public_ip);;
      mret public_ip
  | [] =>
      print "❌ Could not get public IP";;
      mret None
  end.

(** Lines 192-197: [except oci.exceptions.ServiceError as e]. *)
Definition on_service_error (e : exn) : M (option string) :=
  match e with
  | ServiceError _ _ message _ =>
      print ("❌ Error launching instance: " +:+ message);;
      (if contains "QuotaExceeded" (str_exn e) then
         print "   You may have reached your free tier limit";;
         print "   Try terminating unused instances first"
       else mret tt);;
      mret None
  | _ => raise e
  end.

(** Lines 132-197: the [try] block with its handler. *)
Definition launch_and_report (fuel : nat) (instance_details : LaunchInstanceDetails)
  : M (option string) :=
  try_except
    (response ← Sdk.launch_instance w instance_details;
     let instance := response in
     print ("   ✅ Instance launching: " +:+ id instance);;
     print (nl +:+ "4️⃣  Waiting for instance to start...");;
     instance ← wait_running fuel instance;
     print "   ✅ Instance is running!";;
     print (nl +:+ "5️⃣  Getting public IP...");;
     discover_ip instance)
    on_service_error.

Definition instance_details (image : Image) (subnet : Subnet) (ssh_key : string)
  : LaunchInstanceDetails :=
  {| ld_availability_domain := subnet_availability_domain subnet;
     ld_compartment_id := compartment_id;
     ld_display_name := VStr "staging-server";
     ld_image_id := None;
     ld_source_image_id := Some (image_id image);
     ld_subnet_id := None;
     ld_shape := VStr "VM.Standard.A1.Flex";
     ld_shape_config := Some {| ocpus := Qmake 2 1; memory_in_gbs := Qmake 12 1 |};
     ld_create_vnic_details :=
       {| cv_subnet_id := subnet_id subnet; assign_public_ip := true |};
     ld_metadata := [("ssh_authorized_keys", ssh_key);
                     ("user_data", b64encode w cloud_init)] |}.

(** Lines 42-197: what [launch_staging_server] does once [images[0]] exists. *)
Definition launch_with (image : Image) (fuel : nat) : M (option string) :=
  print ("   ✅ Found: " +:+ image_display_name image);;
  print (nl +:+ "2️⃣  Finding subnet...");;
  subnets ← Sdk.list_subnets w compartment_id None;
  match public_subnet subnets with
  | None =>
      print "❌ No subnet found";;
      mret None
  | Some subnet =>
      print ("   ✅ Using subnet: " +:+ subnet_display_name subnet);;
      let ssh_key_path := home w +:+ "/.ssh/staging_deploy.pub" in
      if negb (path_exists w ssh_key_path) then
        print "❌ SSH key not found at ~/.ssh/staging_deploy.pub";;
        print "   Key should have been created by secret-vault";;
        mret None
      else
        text ← Sdk.read w ssh_key_path;
        let ssh_key := strip text in
        print "   ✅ SSH key loaded";;
        print (nl +:+ "3️⃣  Launching instance...");;
        launch_and_report fuel (instance_details image subnet ssh_key)
  end.

(** [launch_staging_server()]; [fuel] bounds the iterations of the poll loop. *)
Definition launch_staging_server (fuel : nat) : M (option string) :=
  print ("🚀 Launching Staging Server on OCI" +:+ nl);;
  print "1️⃣  Finding Ubuntu 22.04 image for ARM...";;
  images ← Sdk.list_images w compartment_id (VStr "Canonical Ubuntu") (VStr "22.04")
             (Some (VStr "VM.Standard.A1.Flex"));
  match images with
  | [] =>
      print "❌ No Ubuntu 22.04 images found for E2.1.Micro";;
      mret None
  | image :: _ => launch_with image fuel
  end.

(** The [if __name__ == "__main__":] block (lines 199-204). *)
Definition main (fuel : nat) : M unit :=
  public_ip ← launch_staging_server fuel;
  if truthy (of_option public_ip) then
    print (nl +:+ "🎉 Success! Your staging server is at: " +:+ str_opt public_ip)
  else print (nl +:+ "❌ Failed to launch staging server").

End LaunchStaging.
End LaunchStaging.

(** ** [oci_oracle_mcp.py] *)

(** [mcp.types.TextContent] *)
Record TextContent := { type : string; text : string }.

Module VanillaOracleMCP.
Section VanillaOracleMCP.
Variable w : World.

(** Module-level [HAS_OCI]: whether [import oci] succeeded. *)
Variable HAS_OCI : bool.

Definition no_attribute (attr : string) : exn :=
  Error "AttributeError" ("'NoneType' object has no attribute '" +:+ attr +:+ "'").

(** [self.compute_client.<attr>(...)]: the attribute lookup fails while the
    client is still [None]. *)
Definition via_compute {A} (attr : string) (m : M A) : M A := fun s =>
  if compute_client s then m s else raise (no_attribute attr) s.

(** [self.network_client.<attr>(...)] *)
Definition via_network {A} (attr : string) (m : M A) : M A := fun s =>
  if network_client s then m s else raise (no_attribute attr) s.

(** [self.config[key]] *)
Definition config_item (key : string) : M value := fun s =>
  match config s with
  | None => raise (Error "TypeError" "'NoneType' object is not subscriptable") s
  | Some c =>
      match c !! key with
      | Some v => Some (Ok v, s)
      | None => raise (Error "KeyError" ("'" +:+ key +:+ "'")) s
      end
  end.

(** [self.config.get(key, default)] *)
Definition config_get (key : string) (d : value) : M value := fun s =>
  match config s with
  | None => raise (no_attribute "get") s
  | Some c => Some (Ok (default d (c !! key)), s)
  end.

(** [args[key]] *)
Definition item (args : gmap string value) (key : string) : M value :=
  match args !! key with
  | Some v => mret v
  | None => raise (Error "KeyError" ("'" +:+ key +:+ "'"))
  end.

(** [args.get(key, default)] *)
Definition get (args : gmap string value) (key : string) (d : value) : value :=
  default d (args !! key).

(** [float(v)] *)
Definition float (v : value) : res Q :=
  match v with
  | VInt z => float_of_int z
  | VFloat q => Ok q
  | VBool b => Ok (inject_Z (if b then 1 else 0))
  | VStr s =>
      match float_of_str w s with
      | Some q => Ok q
      | None => Raise (Error "ValueError" ("could not convert string to float: '" +:+ s +:+ "'"))
      end
  | VNone => Raise (Error "TypeError" "float() argument must be a string or a real number, not 'NoneType'")
  end.

(** [v.endswith(suffix)] *)
Definition str_endswith (v : value) (suffix : string) : res bool :=
  match v with
  | VStr s => Ok (endswith suffix s)
  | _ => Raise (Error "AttributeError"
                  ("'" +:+ type_name v +:+ "' object has no attribute 'endswith'"))
  end.

(** [v[:n]] *)
Definition slice (n : nat) (v : value) : res string :=
  match v with
  | VStr s => Ok (take n s)
  | _ => Raise (Error "TypeError" ("'" +:+ type_name v +:+ "' object is not subscriptable"))
  end.

(** [x or "N/A"] *)
Definition or_na (o : option string) : string :=
  match o with
  | Some s => if String.eqb s "" then "N/A" else s
  | None => "N/A"
  end.

(** [oci.wait_until(client, response, 'lifecycle_state', state, max_wait_seconds=n)]
    of the SDK: return the response once the property has the wanted value,
    fetch again while the wait budget lasts, raise
    [MaximumWaitTimeExceeded] when it is used up. *)
Fixpoint wait_until_loop (fetches : nat) (fetch : M Instance) (wanted : string)
    (response : Instance) : M Instance :=
  if String.eqb (lifecycle_state response) wanted then mret response
  else
    match fetches with
    | 0 => raise (Error "MaximumWaitTimeExceeded" "Maximum wait time has been exceeded")
    | S fetches' =>
        response ← fetch;
        wait_until_loop fetches' fetch wanted response
    end.

Definition wait_until (fetch : M Instance) (response : Instance) (wanted : string)
    (max_wait_seconds : Z) : M Instance :=
  wait_until_loop (wait_until_fetches w max_wait_seconds) fetch wanted response.

(** [initialize_oci] (lines 158-180) *)
Definition env_config : list (string * value) :=
  [ ("user", of_option (os_getenv w "OCI_USER_OCID"));
    ("key_file", of_option (os_getenv w "OCI_KEY_FILE"));
    ("fingerprint", of_option (os_getenv w "OCI_FINGERPRINT"));
    ("tenancy", of_option (os_getenv w "OCI_TENANCY_OCID"));
    ("region", VStr (default "us-phoenix-1" (os_getenv w "OCI_REGION"))) ].

Definition missing : list string :=
  (List.filter (fun kv => negb (truthy kv.2)) env_config).*1.

(** Lines 170-176: the configuration the clients are built from. *)
Definition load_config : M (gmap string value) :=
  match missing with
  | [] => mret (list_to_map env_config)
  | _ =>
      match config_from_file w with
      | Ok c => modify (set_config c);; mret c
      | Raise _ =>
          raise (Error "ValueError"
                   ("Missing OCI configuration: " +:+ String.concat ", " missing))
      end
  end.

Definition initialize_oci : M unit :=
  modify (set_config (list_to_map env_config));;
  cfg ← load_config;
  answer (new_compute_client w cfg);;
  modify set_compute_client;;
  answer (new_network_client w cfg);;
  modify set_network_client.

(** The launch specification of [launch_instance] (lines 234-251); keyword
    arguments are evaluated left to right. *)
Definition launch_details (name shape ocpus memory_gb compartment_id : value)
    (ad image_id : string) (subnets : list Subnet) (ssh_key : string)
  : M LaunchInstanceDetails :=
  flex ← answer (str_endswith shape ".Flex");
  shape_config ← (if flex : bool then
                    o ← answer (float ocpus);
                    m ← answer (float memory_gb);
                    mret (Some {| ocpus := o; memory_in_gbs := m |})
                  else mret None);
  subnet ← Sdk.first subnets;
  mret {| ld_availability_domain := ad;
          ld_compartment_id := compartment_id;
          ld_display_name := name;
          ld_image_id := Some image_id;
          ld_source_image_id := None;
          ld_subnet_id := None;
          ld_shape := shape;
          ld_shape_config := shape_config;
          ld_create_vnic_details :=
            {| cv_subnet_id := subnet_id subnet; assign_public_ip := true |};
          ld_metadata := [("ssh_authorized_keys", ssh_key)] |}.

(** [launch_instance] (lines 182-282) *)
Definition launch_instance (args : gmap string value) : M string :=
  name ← item args "name";
  let shape := get args "shape" (VStr "VM.Standard.A1.Flex") in
  let ocpus := get args "ocpus" (VInt 1) in
  let memory_gb := get args "memory_gb" (VInt 6) in
  compartment_id ← config_item "tenancy";
  images ← via_compute "list_images"
             (Sdk.list_images w compartment_id
                (get args "image_os" (VStr "Canonical Ubuntu"))
                (get args "image_version" (VStr "22.04"))
                (Some shape));
  match images with
  | [] => mret "Error: No suitable image found"
  | image :: _ =>
      let image_id := image_id image in
      ads ← Sdk.list_availability_domains w compartment_id;
      ad ← Sdk.first ads;
      vcns ← via_network "list_vcns" (Sdk.list_vcns w compartment_id);
      match vcns with
      | [] => mret "Error: No VCN found"
      | vcn :: _ =>
          subnets ← via_network "list_subnets"
                      (Sdk.list_subnets w compartment_id (Some (vcn_id vcn)));
          match subnets with
          | [] => mret "Error: No subnet found"
          | _ :: _ =>
              ssh_key_path ← answer (os_path_expanduser w
                                       (get args "ssh_key_path" (VStr "~/.ssh/id_rsa.pub")));
              key ← try_except (text ← Sdk.read w ssh_key_path; mret (Some (strip text)))
                               (fun _ => mret None);
              match key with
              | None => mret ("Error: Cannot read SSH key from " +:+ ssh_key_path)
              | Some ssh_key =>
                  details ← launch_details name shape ocpus memory_gb compartment_id
                              ad image_id subnets ssh_key;
                  response ← via_compute "launch_instance" (Sdk.launch_instance w details);
                  let instance := response in
                  let fetch := via_compute "get_instance"
                                 (Sdk.get_instance w (VStr (id instance))) in
                  first_response ← fetch;
                  instance ← wait_until fetch first_response "RUNNING" 300;
                  vnic_attachments ← via_compute "list_vnic_attachments"
                      (Sdk.list_vnic_attachments w compartment_id (VStr (id instance)));
                  a ← Sdk.first vnic_attachments;
                  vnic ← via_network "get_vnic" (Sdk.get_vnic w (vnic_id a));
                  mret (json_dumps w (JObj
                    [ ("status", JStr "success");
                      ("instance_id", JStr (id instance));
                      ("name", JVal name);
                      ("public_ip", JVal (of_option (public_ip vnic)));
                      ("private_ip", JVal (of_option (private_ip vnic)));
                      ("shape", JVal shape);
                      ("state", JStr (lifecycle_state instance));
                      ("ssh_command", JStr ("ssh ubuntu@" +:+ str_opt (public_ip vnic))) ]))
              end
          end
      end
  end.

(** Lines 299-309 of [list_instances]: best-effort public IP of one instance. *)
Definition lookup_public_ip (compartment_id : value) (instance : Instance) : M string :=
  try_except
    (vnic_attachments ← via_compute "list_vnic_attachments"
        (Sdk.list_vnic_attachments w compartment_id (VStr (id instance)));
     match vnic_attachments with
     | a :: _ =>
         vnic ← via_network "get_vnic" (Sdk.get_vnic w (vnic_id a));
         mret (or_na (public_ip vnic))
     | [] => mret "N/A"
     end)
    (fun _ => mret "N/A").

Definition created (instance : Instance) : string :=
  match time_created instance with
  | Some t => isoformat t
  | None => "N/A"
  end.

(** One element of [result] in [list_instances] (lines 311-318). *)
Definition summary (instance : Instance) (public_ip : string) : json :=
  JObj [ ("id", JStr (id instance));
         ("name", JStr (display_name instance));
         ("state", JStr (lifecycle_state instance));
         ("shape", JStr (shape instance));
         ("public_ip", JStr public_ip);
         ("created", JStr (created instance)) ].

(** The [for instance in instances] loop of [list_instances]. *)
Fixpoint summaries (compartment_id : value) (instances : list Instance) : M (list json) :=
  match instances with
  | [] => mret []
  | instance :: rest =>
      public_ip ← lookup_public_ip compartment_id instance;
      result ← summaries compartment_id rest;
      mret (summary instance public_ip :: result)
  end.

(** Lines 293-294: [if state_filter: instances = [i for i in instances if ...]]. *)
Definition apply_state_filter (state_filter : option value) (instances : list Instance)
  : list Instance :=
  match state_filter with
  | Some f =>
      if truthy f then List.filter (fun i => str_eq (lifecycle_state i) f) instances
      else instances
  | None => instances
  end.

(** The document [list_instances] serialises. *)
Definition listing (result : list json) : json :=
  JObj [ ("total", JInt (Z.of_nat (length result))); ("instances", JArr result) ].

(** [list_instances] (lines 284-323) *)
Definition list_instances (args : gmap string value) : M string :=
  compartment_id ← config_item "tenancy";
  let state_filter := args !! "state" in
  instances ← via_compute "list_instances" (Sdk.list_instances w compartment_id None);
  let instances := apply_state_filter state_filter instances in
  result ← summaries compartment_id instances;
  mret (json_dumps w (listing result)).

(** The receipt [terminate_instance] serialises. *)
Definition receipt (name : string) (instance_id : value) (previous_state : string) : json :=
  JObj [ ("status", JStr "success");
         ("message", JStr ("Instance " +:+ name +:+ " (" +:+ Sdk.str w instance_id
                           +:+ ") is being terminated"));
         ("instance_id", JVal instance_id);
         ("previous_state", JStr previous_state) ].

(** [terminate_instance] (lines 325-344) *)
Definition terminate_instance (args : gmap string value) : M string :=
  instance_id ← item args "instance_id";
  found ← try_except
            (instance ← via_compute "get_instance" (Sdk.get_instance w instance_id);
             mret (Some instance))
            (fun _ => mret None);
  match found with
  | None => mret ("Error: Instance " +:+ Sdk.str w instance_id +:+ " not found")
  | Some instance =>
      let name := display_name instance in
      via_compute "terminate_instance" (Sdk.terminate_instance w instance_id);;
      mret (json_dumps w (receipt name instance_id (lifecycle_state instance)))
  end.

(** Lines 358-370 of [get_instance]: best-effort addresses of one instance. *)
Definition lookup_ips (compartment_id : value) (instance_id : value) : M (string * string) :=
  try_except
    (vnic_attachments ← via_compute "list_vnic_attachments"
        (Sdk.list_vnic_attachments w compartment_id instance_id);
     match vnic_attachments with
     | a :: _ =>
         vnic ← via_network "get_vnic" (Sdk.get_vnic w (vnic_id a));
         mret (or_na (public_ip vnic), or_na (private_ip vnic))
     | [] => mret ("N/A", "N/A")
     end)
    (fun _ => mret ("N/A", "N/A")).

(** [get_instance] (lines 346-383) *)
Definition get_instance (args : gmap string value) : M string :=
  instance_id ← item args "instance_id";
  found ← try_except
            (instance ← via_compute "get_instance" (Sdk.get_instance w instance_id);
             mret (Some instance))
            (fun _ => mret None);
  match found with
  | None => mret ("Error: Instance " +:+ Sdk.str w instance_id +:+ " not found")
  | Some instance =>
      compartment_id ← config_item "tenancy";
      ips ← lookup_ips compartment_id instance_id;
      let public_ip := ips.1 in
      let private_ip := ips.2 in
      mret (json_dumps w (JObj
        [ ("id", JStr (id instance));
          ("name", JStr (display_name instance));
          ("state", JStr (lifecycle_state instance));
          ("shape", JStr (shape instance));
          ("public_ip", JStr public_ip);
          ("private_ip", JStr private_ip);
          ("availability_domain", JStr (availability_domain instance));
          ("created", JStr (created instance));
          ("region", JStr (region instance));
          ("ssh_command",
            JStr (if String.eqb public_ip "N/A" then "N/A" else "ssh ubuntu@" +:+ public_ip)) ]))
  end.

Definition subnet_entry (subnet : Subnet) : json :=
  JObj [ ("id", JStr (subnet_id subnet));
         ("name", JStr (subnet_display_name subnet));
         ("cidr_block", JStr (subnet_cidr_block subnet));
         ("availability_domain", JStr (subnet_availability_domain subnet)) ].

(** The [for vcn in vcns] loop of [list_networks]. *)
Fixpoint networks (compartment_id : value) (vcns : list Vcn) : M (list json) :=
  match vcns with
  | [] => mret []
  | vcn :: rest =>
      subnets ← via_network "list_subnets"
                  (Sdk.list_subnets w compartment_id (Some (vcn_id vcn)));
      result ← networks compartment_id rest;
      mret (JObj [ ("vcn_id", JStr (vcn_id vcn));
                   ("vcn_name", JStr (vcn_display_name vcn));
                   ("cidr_block", JStr (vcn_cidr_block vcn));
                   ("state", JStr (vcn_lifecycle_state vcn));
                   ("subnets", JArr (subnet_entry <$> subnets)) ] :: result)
  end.

(** [list_networks] (lines 385-417) *)
Definition list_networks (args : gmap string value) : M string :=
  compartment_id ← config_item "tenancy";
  vcns ← via_network "list_vcns" (Sdk.list_vcns w compartment_id);
  result ← networks compartment_id vcns;
  mret (json_dumps w (JObj [ ("total_vcns", JInt (Z.of_nat (length result)));
                             ("networks", JArr result) ])).

(** [check_config] (lines 419-438) *)
Definition check_config (args : gmap string value) : M string :=
  let config_source :=
    if truthy (of_option (os_getenv w "OCI_USER_OCID")) then "environment" else "file" in
  region ← config_get "region" (VStr "not set");
  tenancy ← config_get "tenancy" (VStr "not set");
  tenancy_id ← answer (slice 50 tenancy);
  user ← config_get "user" (VStr "not set");
  user_id ← answer (slice 50 user);
  key_file ← config_get "key_file" (VStr "not set");
  has_fingerprint ← config_get "fingerprint" VNone;
  fingerprint ← (if truthy has_fingerprint then
                   f ← config_get "fingerprint" (VStr "not set");
                   f20 ← answer (slice 20 f);
                   mret (f20 +:+ "...")
                 else mret "not set");
  api_access ← try_except
                 (compartment_id ← config_item "tenancy";
                  via_compute "list_instances"
                    (Sdk.list_instances w compartment_id (Some 1%Z));;
                  mret "✅ Working")
                 (fun e => mret ("❌ Error: " +:+ take 100 (str_exn e)));
  mret (json_dumps w (JObj
    [ ("config_source", JStr config_source);
      ("region", JVal region);
      ("tenancy_id", JStr (tenancy_id +:+ "..."));
      ("user_id", JStr (user_id +:+ "..."));
      ("key_file", JVal key_file);
      ("fingerprint", JStr fingerprint);
      ("api_access", JStr api_access) ])).

(** The [handlers] dictionary of [call_tool] (lines 133-140). *)
Definition handlers (name : string) : option (gmap string value -> M string) :=
  if String.eqb name "oci_instance_launch" then Some launch_instance
  else if String.eqb name "oci_instance_list" then Some list_instances
  else if String.eqb name "oci_instance_terminate" then Some terminate_instance
  else if String.eqb name "oci_instance_get" then Some get_instance
  else if String.eqb name "oci_network_list" then Some list_networks
  else if String.eqb name "oci_config_check" then Some check_config
  else None.

Definition text_content (t : string) : list TextContent := [ {| type := "text"; text := t |} ].

(** [call_tool] (lines 112-156) *)
Definition call_tool (name : string) (arguments : gmap string value) : M (list TextContent) :=
  if negb HAS_OCI then
    mret (text_content "Error: OCI SDK not installed. Run: pip install oci")
  else
    ready ← gets compute_client;
    failed ← (if ready : bool then mret None
              else try_except (initialize_oci;; mret None)
                              (fun e => mret (Some (text_content
                                 ("Error initializing OCI: " +:+ str_exn e)))));
    match failed with
    | Some r => mret r
    | None =>
        match handlers name with
        | None => mret (text_content ("Unknown tool: " +:+ name))
        | Some handler =>
            try_except
              (result ← handler arguments;
               mret (text_content result))
              (fun e => mret (text_content
                 ("Error executing " +:+ name +:+ ": " +:+ str_exn e)))
        end
    end.

(** [mcp.types.Tool] *)
Record Tool := { tool_name : string; tool_description : string; inputSchema : json }.

Definition property (type description : string) : json :=
  JObj [ ("type", JStr type); ("description", JStr description) ].

Definition property_with_default (type description : string) (d : json) : json :=
  JObj [ ("type", JStr type); ("description", JStr description); ("default", d) ].

(** [list_tools] (lines 41-110) *)
Definition list_tools : list Tool :=
  [ {| tool_name := "oci_instance_launch";
       tool_description := "Launch a new OCI compute instance";
       inputSchema := JObj
         [ ("type", JStr "object");
           ("properties", JObj
              [ ("name", property "string" "Instance name");
                ("shape", property "string" "Instance shape (e.g., VM.Standard.A1.Flex)");
                ("ocpus", property_with_default "number" "Number of OCPUs" (JInt 1));
                ("memory_gb", property_with_default "number" "Memory in GB" (JInt 6));
                ("image_os", property_with_default "string" "OS type" (JStr "Canonical Ubuntu"));
                ("image_version", property_with_default "string" "OS version" (JStr "22.04"));
                ("ssh_key_path", property_with_default "string" "Path to SSH public key"
                                   (JStr "~/.ssh/id_rsa.pub")) ]);
           ("required", JArr [JStr "name"]) ] |};
    {| tool_name := "oci_instance_list";
       tool_description := "List all OCI compute instances";
       inputSchema := JObj
         [ ("type", JStr "object");
           ("properties", JObj
              [ ("state", property "string" "Filter by state (RUNNING, STOPPED, etc.)") ]) ] |};
    {| tool_name := "oci_instance_terminate";
       tool_description := "Terminate an OCI compute instance";
       inputSchema := JObj
         [ ("type", JStr "object");
           ("properties", JObj
              [ ("instance_id", property "string" "Instance OCID to terminate") ]);
           ("required", JArr [JStr "instance_id"]) ] |};
    {| tool_name := "oci_instance_get";
       tool_description := "Get details of a specific OCI instance";
       inputSchema := JObj
         [ ("type", JStr "object");
           ("properties", JObj [ ("instance_id", property "string" "Instance OCID") ]);
           ("required", JArr [JStr "instance_id"]) ] |};
    {| tool_name := "oci_network_list";
       tool_description := "List VCNs and subnets";
       inputSchema := JObj [ ("type", JStr "object"); ("properties", JObj []) ] |};
    {| tool_name := "oci_config_check";
       tool_description := "Check OCI configuration and credentials";
       inputSchema := JObj [ ("type", JStr "object"); ("properties", JObj []) ] |} ].

(** The ["required"] list of an input schema; empty when the key is absent. *)
Definition required (schema : json) : list string :=
  match schema with
  | JObj fields =>
      match List.find (fun kv => String.eqb (fst kv) "required") fields with
      | Some (_, JArr names) =>
          omap (fun j => match j with JStr n => Some n | _ => None end) names
      | _ => []
      end
  | _ => []
  end.

End VanillaOracleMCP.
End VanillaOracleMCP.

(** ** Mock providers used to run the programs on concrete inputs *)

Module Mock.

Definition tenancy : string := "ocid1.tenancy.oc1..demo".

Definition arm_image : Image :=
  {| image_id := "ocid1.image.oc1..arm"; image_display_name := "Canonical-Ubuntu-22.04-aarch64" |}.

Definition x86_image : Image :=
  {| image_id := "ocid1.image.oc1..x86"; image_display_name := "Canonical-Ubuntu-22.04" |}.

Definition vcn : Vcn :=
  {| vcn_id := "ocid1.vcn.oc1..demo"; vcn_display_name := "demo-vcn";
     vcn_cidr_block := "10.0.0.0/16"; vcn_lifecycle_state := "AVAILABLE" |}.

Definition private_subnet : Subnet :=
  {| subnet_id := "ocid1.subnet.oc1..private"; subnet_display_name := "private-subnet";
     subnet_cidr_block := "10.0.1.0/24"; subnet_availability_domain := "AD-1" |}.

Definition public_subnet : Subnet :=
  {| subnet_id := "ocid1.subnet.oc1..public"; subnet_display_name := "Public-Subnet";
     subnet_cidr_block := "10.0.0.0/24"; subnet_availability_domain := "AD-2" |}.

Definition instance (name lifecycle : string) : Instance :=
  {| id := "ocid1.instance.oc1.." +:+ name; display_name := name;
     lifecycle_state := lifecycle; shape := "VM.Standard.A1.Flex";
     time_created := Some {| isoformat := "2024-05-01T10:00:00+00:00";
                             dt_str := "2024-05-01 10:00:00+00:00" |};
     availability_domain := "AD-1"; region := "us-phoenix-1" |}.

Definition not_found : exn :=
  ServiceError 404 "NotAuthorizedOrNotFound" "instance not found"
    "{'status': 404, 'code': 'NotAuthorizedOrNotFound', 'message': 'instance not found'}".

Record scenario := {
  images_for_shape : list Image;
  images_any_shape : list Image;
  subnets : list Subnet;
  launch_response : res Instance;
  (** lifecycle states served by successive [get_instance] calls; the last one
      is served from then on *)
  poll_states : list string;
  attachments : value -> res (list VnicAttachment);
  vnic : string -> res Vnic;
  instances : list Instance;
  terminate_response : res unit }.

Definition render_value (v : value) : string :=
  match v with
  | VNone => "None"
  | VBool true => "True"
  | VBool false => "False"
  | VInt z => NilZero.string_of_int (Z.to_int z)
  | VFloat _ => "<float>"
  | VStr s => s
  end.

Definition quote (s : string) : string := String "039"%char s +:+ String "039"%char "".

Fixpoint render (j : json) : string :=
  match j with
  | JNull => "null"
  | JInt z => NilZero.string_of_int (Z.to_int z)
  | JStr s => quote s
  | JVal (VStr s) => quote s
  | JVal v => render_value v
  | JArr l => "[" +:+ String.concat ", " (List.map render l) +:+ "]"
  | JObj fields =>
      "{" +:+ String.concat ", "
               (List.map (fun kv => quote (fst kv) +:+ ": " +:+ render (snd kv)) fields)
          +:+ "}"
  end.

Definition world (sc : scenario) : World :=
  {| compute_list_images := fun _ _ _ shape =>
       Ok (match shape with Some _ => images_for_shape sc | None => images_any_shape sc end);
     compute_launch_instance := fun _ => launch_response sc;
     compute_get_instance := fun n i =>
       if str_eq "ocid1.instance.oc1..test-1" i
       then Ok (instance "test-1" (nth n (poll_states sc) (List.last (poll_states sc) "RUNNING")))
       else Raise not_found;
     compute_list_instances := fun _ _ => Ok (instances sc);
     compute_list_vnic_attachments := fun _ i => attachments sc i;
     compute_terminate_instance := fun _ => terminate_response sc;
     network_list_vcns := fun _ => Ok [vcn];
     network_list_subnets := fun _ _ => Ok (subnets sc);
     network_get_vnic := vnic sc;
     identity_list_availability_domains := fun _ => Ok ["AD-1"; "AD-2"];
     wait_until_fetches := fun seconds => Z.to_nat (seconds / 30);
     config_from_file := Raise (Error "ConfigFileNotFound" "Could not find config file");
     new_compute_client := fun _ => Ok tt;
     new_network_client := fun _ => Ok tt;
     os_getenv := fun k =>
       if String.eqb k "OCI_TENANCY_OCID" then Some tenancy
       else if String.eqb k "OCI_REGION" then None
       else Some ("value-of-" +:+ k);
     os_path_expanduser := fun p =>
       match p with
       | VStr s => Ok ("/home/demo" +:+ String.substring 1 (String.length s) s)
       | _ => Raise (Error "TypeError" "expected str, bytes or os.PathLike object")
       end;
     home := "/home/demo";
     path_exists := fun _ => true;
     read_text := fun _ => Ok ("ssh-rsa AAAA demo@host" +:+ nl);
     write_text := fun _ _ => Ok tt;
     json_dumps := render;
     b64encode := fun _ => "IyEvYmluL2Jhc2g=";
     repr := render_value;
     float_of_str := fun _ => None |}.

Definition one_vnic : value -> res (list VnicAttachment) :=
  fun _ => Ok [ {| vnic_id := "ocid1.vnic.oc1..demo" |} ].

Definition demo_vnic : string -> res Vnic :=
  fun _ => Ok {| public_ip := Some "203.0.113.7"; private_ip := Some "10.0.0.5" |}.

(** Everything works: one ARM image, two subnets, the instance is RUNNING on
    the third poll. *)
Definition healthy : scenario :=
  {| images_for_shape := [arm_image];
     images_any_shape := [x86_image; arm_image];
     subnets := [private_subnet; public_subnet];
     launch_response := Ok (instance "test-1" "PROVISIONING");
     poll_states := ["PROVISIONING"; "PROVISIONING"; "RUNNING"];
     attachments := one_vnic;
     vnic := demo_vnic;
     instances := [instance "test-1" "RUNNING"; instance "old" "STOPPED"];
     terminate_response := Ok tt |}.

(** No image for the ARM shape, images for other shapes exist. *)
Definition arm_missing : scenario :=
  {| images_for_shape := [];
     images_any_shape := [x86_image];
     subnets := subnets healthy;
     launch_response := launch_response healthy;
     poll_states := poll_states healthy;
     attachments := one_vnic;
     vnic := demo_vnic;
     instances := instances healthy;
     terminate_response := Ok tt |}.

(** No image at all. *)
Definition no_image : scenario :=
  {| images_for_shape := [];
     images_any_shape := [];
     subnets := subnets healthy;
     launch_response := launch_response healthy;
     poll_states := poll_states healthy;
     attachments := one_vnic;
     vnic := demo_vnic;
     instances := instances healthy;
     terminate_response := Ok tt |}.

(** The instance is reported TERMINATED on the second poll and RUNNING on the
    third. *)
Definition terminated_then_running : scenario :=
  {| images_for_shape := [arm_image];
     images_any_shape := [arm_image];
     subnets := subnets healthy;
     launch_response := launch_response healthy;
     poll_states := ["PROVISIONING"; "TERMINATED"; "RUNNING"];
     attachments := one_vnic;
     vnic := demo_vnic;
     instances := instances healthy;
     terminate_response := Ok tt |}.

(** A provider whose every [get_instance] answer is the same instance. *)
Definition frozen (answer : Instance) (w : World) : World :=
  {| compute_list_images := compute_list_images w;
     compute_launch_instance := compute_launch_instance w;
     compute_get_instance := fun _ _ => Ok answer;
     compute_list_instances := compute_list_instances w;
     compute_list_vnic_attachments := compute_list_vnic_attachments w;
     compute_terminate_instance := compute_terminate_instance w;
     network_list_vcns := network_list_vcns w;
     network_list_subnets := network_list_subnets w;
     network_get_vnic := network_get_vnic w;
     identity_list_availability_domains := identity_list_availability_domains w;
     wait_until_fetches := wait_until_fetches w;
     config_from_file := config_from_file w;
     new_compute_client := new_compute_client w;
     new_network_client := new_network_client w;
     os_getenv := os_getenv w;
     os_path_expanduser := os_path_expanduser w;
     home := home w;
     path_exists := path_exists w;
     read_text := read_text w;
     write_text := write_text w;
     json_dumps := json_dumps w;
     b64encode := b64encode w;
     repr := repr w;
     float_of_str := float_of_str w |}.

(** Three instances; the attachment lookup of the second raises, the
    interface fetch of the third raises. *)
Definition flaky : scenario :=
  {| images_for_shape := [arm_image];
     images_any_shape := [arm_image];
     subnets := subnets healthy;
     launch_response := launch_response healthy;
     poll_states := ["RUNNING"];
     attachments := fun i =>
       if str_eq "ocid1.instance.oc1..b" i
       then Raise (ServiceError 500 "InternalError" "try again" "{'status': 500}")
       else if str_eq "ocid1.instance.oc1..c" i
       then Ok [ {| vnic_id := "ocid1.vnic.oc1..gone" |} ]
       else Ok [ {| vnic_id := "ocid1.vnic.oc1..demo" |} ];
     vnic := fun v =>
       if String.eqb v "ocid1.vnic.oc1..gone" then Raise not_found
       else Ok {| public_ip := Some "203.0.113.7"; private_ip := Some "10.0.0.5" |};
     instances := [instance "a" "RUNNING"; instance "b" "RUNNING"; instance "c" "RUNNING";
                   instance "d" "STOPPED"];
     terminate_response := Ok tt |}.

(** The server object after a successful [initialize_oci]. *)
Definition ready (w : World) : state :=
  {| calls := []; stdout := [];
     config := Some (list_to_map (VanillaOracleMCP.env_config w));
     compute_client := true; network_client := true |}.

Definition conflict : exn :=
  ServiceError 409 "Conflict" "instance is being modified"
    "{'status': 409, 'code': 'Conflict', 'message': 'instance is being modified'}".

(** The provider knows the instance and rejects its termination. *)
Definition rejecting : scenario :=
  {| images_for_shape := [arm_image];
     images_any_shape := [arm_image];
     subnets := subnets healthy;
     launch_response := launch_response healthy;
     poll_states := ["RUNNING"];
     attachments := one_vnic;
     vnic := demo_vnic;
     instances := instances healthy;
     terminate_response := Raise conflict |}.

Definition quota_exceeded : exn :=
  ServiceError 400 "QuotaExceeded"
    "The following service limits were exceeded: standard-a1-core-count."
    "{'status': 400, 'code': 'QuotaExceeded', 'message': 'The following service limits were exceeded: standard-a1-core-count.'}".

(** The provider rejects the launch for lack of quota. *)
Definition out_of_quota : scenario :=
  {| images_for_shape := [arm_image];
     images_any_shape := [arm_image];
     subnets := subnets healthy;
     launch_response := Raise quota_exceeded;
     poll_states := ["RUNNING"];
     attachments := one_vnic;
     vnic := demo_vnic;
     instances := instances healthy;
     terminate_response := Ok tt |}.

Definition quota_in_message : exn :=
  ServiceError 400 "QuotaExceeded" "Compartment Quota exceeded for standard-a1-core-count"
    "{'status': 400, 'code': 'QuotaExceeded', 'message': 'Compartment Quota exceeded for standard-a1-core-count'}".

(** The same rejection, with a message that names the quota. *)
Definition over_quota : scenario :=
  {| images_for_shape := [arm_image];
     images_any_shape := [arm_image];
     subnets := subnets healthy;
     launch_response := Raise quota_in_message;
     poll_states := ["RUNNING"];
     attachments := one_vnic;
     vnic := demo_vnic;
     instances := instances healthy;
     terminate_response := Ok tt |}.

(** The instance is RUNNING at once and has no network interface attached yet. *)
Definition unattached : scenario :=
  {| images_for_shape := [arm_image];
     images_any_shape := [arm_image];
     subnets := subnets healthy;
     launch_response := launch_response healthy;
     poll_states := ["RUNNING"];
     attachments := fun _ => Ok [];
     vnic := demo_vnic;
     instances := instances healthy;
     terminate_response := Ok tt |}.

(** A fixed shape; the instance is RUNNING at once. *)
Definition quick : scenario :=
  {| images_for_shape := [x86_image];
     images_any_shape := [x86_image];
     subnets := subnets healthy;
     launch_response := Ok (instance "test-1" "RUNNING");
     poll_states := ["RUNNING"];
     attachments := one_vnic;
     vnic := demo_vnic;
     instances := instances healthy;
     terminate_response := Ok tt |}.

(** A provider whose [VirtualNetworkClient] cannot be built. *)
Definition network_client_fails (w : World) : World :=
  {| compute_list_images := compute_list_images w;
     compute_launch_instance := compute_launch_instance w;
     compute_get_instance := compute_get_instance w;
     compute_list_instances := compute_list_instances w;
     compute_list_vnic_attachments := compute_list_vnic_attachments w;
     compute_terminate_instance := compute_terminate_instance w;
     network_list_vcns := network_list_vcns w;
     network_list_subnets := network_list_subnets w;
     network_get_vnic := network_get_vnic w;
     identity_list_availability_domains := identity_list_availability_domains w;
     wait_until_fetches := wait_until_fetches w;
     config_from_file := config_from_file w;
     new_compute_client := new_compute_client w;
     new_network_client := fun _ => Raise (Error "ConfigError" "invalid key file");
     os_getenv := os_getenv w;
     os_path_expanduser := os_path_expanduser w;
     home := home w;
     path_exists := path_exists w;
     read_text := read_text w;
     write_text := write_text w;
     json_dumps := json_dumps w;
     b64encode := b64encode w;
     repr := repr w;
     float_of_str := float_of_str w |}.

(** The same provider seen from a process with an empty environment. *)
Definition without_environment (w : World) : World :=
  {| compute_list_images := compute_list_images w;
     compute_launch_instance := compute_launch_instance w;
     compute_get_instance := compute_get_instance w;
     compute_list_instances := compute_list_instances w;
     compute_list_vnic_attachments := compute_list_vnic_attachments w;
     compute_terminate_instance := compute_terminate_instance w;
     network_list_vcns := network_list_vcns w;
     network_list_subnets := network_list_subnets w;
     network_get_vnic := network_get_vnic w;
     identity_list_availability_domains := identity_list_availability_domains w;
     wait_until_fetches := wait_until_fetches w;
     config_from_file := config_from_file w;
     new_compute_client := new_compute_client w;
     new_network_client := new_network_client w;
     os_getenv := fun _ => None;
     os_path_expanduser := os_path_expanduser w;
     home := home w;
     path_exists := path_exists w;
     read_text := read_text w;
     write_text := write_text w;
     json_dumps := json_dumps w;
     b64encode := b64encode w;
     repr := repr w;
     float_of_str := float_of_str w |}.

(** A provider that answers every [get_vnic] with [answer]. *)
Definition with_vnic (answer : res Vnic) (w : World) : World :=
  {| compute_list_images := compute_list_images w;
     compute_launch_instance := compute_launch_instance w;
     compute_get_instance := compute_get_instance w;
     compute_list_instances := compute_list_instances w;
     compute_list_vnic_attachments := compute_list_vnic_attachments w;
     compute_terminate_instance := compute_terminate_instance w;
     network_list_vcns := network_list_vcns w;
     network_list_subnets := network_list_subnets w;
     network_get_vnic := fun _ => answer;
     identity_list_availability_domains := identity_list_availability_domains w;
     wait_until_fetches := wait_until_fetches w;
     config_from_file := config_from_file w;
     new_compute_client := new_compute_client w;
     new_network_client := new_network_client w;
     os_getenv := os_getenv w;
     os_path_expanduser := os_path_expanduser w;
     home := home w;
     path_exists := path_exists w;
     read_text := read_text w;
     write_text := write_text w;
     json_dumps := json_dumps w;
     b64encode := b64encode w;
     repr := repr w;
     float_of_str := float_of_str w |}.

(** A provider whose VCNs and subnets are listed by [vcns] and [subnets_of]. *)
Definition with_subnets (vcns : res (list Vcn)) (subnets_of : option string -> res (list Subnet)) (w : World) : World :=
  {| compute_list_images := compute_list_images w;
     compute_launch_instance := compute_launch_instance w;
     compute_get_instance := compute_get_instance w;
     compute_list_instances := compute_list_instances w;
     compute_list_vnic_attachments := compute_list_vnic_attachments w;
     compute_terminate_instance := compute_terminate_instance w;
     network_list_vcns := fun _ => vcns;
     network_list_subnets := fun _ v => subnets_of v;
     network_get_vnic := network_get_vnic w;
     identity_list_availability_domains := identity_list_availability_domains w;
     wait_until_fetches := wait_until_fetches w;
     config_from_file := config_from_file w;
     new_compute_client := new_compute_client w;
     new_network_client := new_network_client w;
     os_getenv := os_getenv w;
     os_path_expanduser := os_path_expanduser w;
     home := home w;
     path_exists := path_exists w;
     read_text := read_text w;
     write_text := write_text w;
     json_dumps := json_dumps w;
     b64encode := b64encode w;
     repr := repr w;
     float_of_str := float_of_str w |}.

(** A provider host on which no file can be read and no path exists. *)
Definition unreadable (w : World) : World :=
  {| compute_list_images := compute_list_images w;
     compute_launch_instance := compute_launch_instance w;
     compute_get_instance := compute_get_instance w;
     compute_list_instances := compute_list_instances w;
     compute_list_vnic_attachments := compute_list_vnic_attachments w;
     compute_terminate_instance := compute_terminate_instance w;
     network_list_vcns := network_list_vcns w;
     network_list_subnets := network_list_subnets w;
     network_get_vnic := network_get_vnic w;
     identity_list_availability_domains := identity_list_availability_domains w;
     wait_until_fetches := wait_until_fetches w;
     config_from_file := config_from_file w;
     new_compute_client := new_compute_client w;
     new_network_client := new_network_client w;
     os_getenv := os_getenv w;
     os_path_expanduser := os_path_expanduser w;
     home := home w;
     path_exists := fun _ => false;
     read_text := fun _ => Raise (Error "FileNotFoundError" "No such file or directory");
     write_text := write_text w;
     json_dumps := json_dumps w;
     b64encode := b64encode w;
     repr := repr w;
     float_of_str := float_of_str w |}.

Definition broken_vcn : Vcn :=
  {| vcn_id := "ocid1.vcn.oc1..broken"; vcn_display_name := "broken-vcn";
     vcn_cidr_block := "10.1.0.0/16"; vcn_lifecycle_state := "AVAILABLE" |}.

(** Three VCNs; the subnets of the second cannot be listed. *)
Definition second_vcn_fails : World :=
  with_subnets (Ok [vcn; broken_vcn; vcn])
    (fun v => match v with
              | Some i => if String.eqb i "ocid1.vcn.oc1..broken" then Raise conflict
                          else Ok [private_subnet]
              | None => Ok [private_subnet]
              end)
    (world healthy).

(** The launch is accepted, and the provider does not find the instance when
    asked about it. *)
Definition lost : scenario :=
  {| images_for_shape := [arm_image];
     images_any_shape := [arm_image];
     subnets := subnets healthy;
     launch_response := Ok (instance "lost" "PROVISIONING");
     poll_states := ["RUNNING"];
     attachments := one_vnic;
     vnic := demo_vnic;
     instances := instances healthy;
     terminate_response := Ok tt |}.

(** A host whose files cannot be written. *)
Definition read_only (w : World) : World :=
  {| compute_list_images := compute_list_images w;
     compute_launch_instance := compute_launch_instance w;
     compute_get_instance := compute_get_instance w;
     compute_list_instances := compute_list_instances w;
     compute_list_vnic_attachments := compute_list_vnic_attachments w;
     compute_terminate_instance := compute_terminate_instance w;
     network_list_vcns := network_list_vcns w;
     network_list_subnets := network_list_subnets w;
     network_get_vnic := network_get_vnic w;
     identity_list_availability_domains := identity_list_availability_domains w;
     wait_until_fetches := wait_until_fetches w;
     config_from_file := config_from_file w;
     new_compute_client := new_compute_client w;
     new_network_client := new_network_client w;
     os_getenv := os_getenv w;
     os_path_expanduser := os_path_expanduser w;
     home := home w;
     path_exists := path_exists w;
     read_text := read_text w;
     write_text := fun _ _ => Raise (Error "FileNotFoundError" "No such file or directory");
     json_dumps := json_dumps w;
     b64encode := b64encode w;
     repr := repr w;
     float_of_str := float_of_str w |}.

Definition not_authenticated : exn :=
  ServiceError 401 "NotAuthenticated" "The required information to complete authentication was not provided."
    "{'status': 401, 'code': 'NotAuthenticated'}".

(** A provider that rejects the credentials at every image query. *)
Definition unauthenticated (w : World) : World :=
  {| compute_list_images := fun _ _ _ _ => Raise not_authenticated;
     compute_launch_instance := compute_launch_instance w;
     compute_get_instance := compute_get_instance w;
     compute_list_instances := compute_list_instances w;
     compute_list_vnic_attachments := compute_list_vnic_attachments w;
     compute_terminate_instance := compute_terminate_instance w;
     network_list_vcns := network_list_vcns w;
     network_list_subnets := network_list_subnets w;
     network_get_vnic := network_get_vnic w;
     identity_list_availability_domains := identity_list_availability_domains w;
     wait_until_fetches := wait_until_fetches w;
     config_from_file := config_from_file w;
     new_compute_client := new_compute_client w;
     new_network_client := new_network_client w;
     os_getenv := os_getenv w;
     os_path_expanduser := os_path_expanduser w;
     home := home w;
     path_exists := path_exists w;
     read_text := read_text w;
     write_text := write_text w;
     json_dumps := json_dumps w;
     b64encode := b64encode w;
     repr := repr w;
     float_of_str := float_of_str w |}.

Definition db_subnet : Subnet :=
  {| subnet_id := "ocid1.subnet.oc1..db"; subnet_display_name := "db-net";
     subnet_cidr_block := "10.0.3.0/24"; subnet_availability_domain := "AD-1" |}.

End Mock.

(** ** Vocabulary of the properties *)

(** State of [launch_ubuntu] after the filtered query came back empty and the
    query without [shape] was issued. *)
Definition after_retry (w : World) (st : state) : state :=
  let c := OciControl.compartment_id w in
  log (ListImages c (VStr "Canonical Ubuntu") (VStr "22.04") None)
    (emit "   Trying x86 images..."
       (log (ListImages c (VStr "Canonical Ubuntu") (VStr "22.04") (Some (VStr "VM.Standard.A1.Flex")))
          (emit "1️⃣  Finding Ubuntu 22.04 image..."
             (emit ("🚀 Launching Ubuntu 22.04 on OCI" +:+ nl) st)))).

(** State of [launch_staging_server] after its only image query. *)
Definition after_query (c : value) (st : state) : state :=
  log (ListImages c (VStr "Canonical Ubuntu") (VStr "22.04") (Some (VStr "VM.Standard.A1.Flex")))
    (emit "1️⃣  Finding Ubuntu 22.04 image for ARM..."
       (emit ("🚀 Launching Staging Server on OCI" +:+ nl) st)).

(** [terminal s]: the lifecycle states C2 calls terminal. *)
Definition terminal (s : string) : bool :=
  String.eqb s "RUNNING" || String.eqb s "TERMINATED" || String.eqb s "FAILED".

(** The lifecycle states the [get_instance] calls of a log were answered with,
    the first call being the [n]-th of the run. *)
Fixpoint polled_states (w : World) (n : nat) (tr : list call) : list (res string) :=
  match tr with
  | [] => []
  | GetInstance i :: tr' =>
      match compute_get_instance w n i with
      | Ok r => Ok (lifecycle_state r)
      | Raise e => Raise e
      end :: polled_states w (S n) tr'
  | _ :: tr' => polled_states w n tr'
  end.

(** C2's middle sentence about a sequence of poll answers: an answer in a
    terminal state is the last one. *)
Definition no_poll_after_terminal (answers : list (res string)) : Prop :=
  forall k s, answers !! k = Some (Ok s) -> terminal s = true -> S k = length answers.

(** [served w n current pending]: from the [n]-th [get_instance] call on, a loop
    that holds [current] and polls by the id of the instance it last saw is
    answered with the instances of [pending], in this order. *)
Fixpoint served (w : World) (n : nat) (current : Instance) (pending : list Instance) : Prop :=
  match pending with
  | [] => True
  | r :: rest =>
      compute_get_instance w n (VStr (id current)) = Ok r /\ served w (S n) r rest
  end.

(** The state after a loop has slept, polled and printed once per element of
    [pending]; [line] is the progress line of the script. *)
Fixpoint polled (line : Instance -> string) (current : Instance) (pending : list Instance)
    (st : state) : state :=
  match pending with
  | [] => st
  | r :: rest =>
      polled line r rest
        (emit (line r) (log (GetInstance (VStr (id current))) (log (Sleep 5) st)))
  end.

Definition staging_line (i : Instance) : string := "   Status: " +:+ lifecycle_state i +:+ "...".
Definition ubuntu_line (i : Instance) : string := "   State: " +:+ lifecycle_state i.

(** [contains_ci selector name]: [name] contains [selector], letter case
    ignored on both sides. *)
Definition contains_ci (selector name : string) : bool :=
  contains (lower selector) (lower name).

(** The value [lookup_public_ip] computes: it depends on the instance, on the
    world's answers about that instance and on which clients exist. *)
Definition ip_of (w : World) (compute network : bool) (compartment_id : value) (instance : Instance)
  : string :=
  if compute then
    match compute_list_vnic_attachments w compartment_id (VStr (id instance)) with
    | Ok (a :: _) =>
        if network then
          match network_get_vnic w (vnic_id a) with
          | Ok vnic => VanillaOracleMCP.or_na (public_ip vnic)
          | Raise _ => "N/A"
          end
        else "N/A"
    | Ok [] => "N/A"
    | Raise _ => "N/A"
    end
  else "N/A".

(** [self] and the printed lines are the same in both states. *)
Definition same_self (st st' : state) : Prop :=
  config st' = config st /\ compute_client st' = compute_client st
  /\ network_client st' = network_client st /\ stdout st' = stdout st.

(** The hint lines [launch_ubuntu] prints after the provider's message, status
    and code. *)
Definition ubuntu_hint (status : Z) (message : string) : list string :=
  if Z.eqb status 404 then [nl +:+ "💡 Try using the root compartment (tenancy OCID)"]
  else if contains "quota" (lower message) then
    [nl +:+ "💡 You may have hit quota limits for this shape"]
  else if contains "shape" (lower message) then
    [nl +:+ "💡 This shape might not be available in this AD"]
  else [].

(** The hint lines [launch_staging_server] prints after the provider's message;
    [text] is the rendering [str(e)] of the error. *)
Definition staging_hint (text : string) : list string :=
  if contains "QuotaExceeded" text then
    ["   You may have reached your free tier limit";
     "   Try terminating unused instances first"]
  else [].

(** [total m]: from every state, [m] returns or raises; it never spins. *)
Definition total {A} (m : M A) : Prop := forall s, exists r s', m s = Some (r, s').

(** [launches P m]: every launch request [m] adds to the log satisfies [P]. *)
Definition launches (P : LaunchInstanceDetails -> Prop) {A} (m : M A) : Prop :=
  forall s r s', m s = Some (r, s') ->
  forall d, LaunchInstance d ∈ calls s' -> LaunchInstance d ∈ calls s \/ P d.

(** The rule C10 states, for the launch specification [d] of a call with
    arguments [args]. *)
Definition shape_config_rule (w : World) (args : gmap string value)
    (d : LaunchInstanceDetails) : Prop :=
  exists shape,
    VanillaOracleMCP.get args "shape" (VStr "VM.Standard.A1.Flex") = VStr shape
    /\ ld_shape d = VStr shape
    /\ (ld_shape_config d <> None <-> endswith ".Flex" shape = true)
    /\ (endswith ".Flex" shape = true ->
        exists o m,
          VanillaOracleMCP.float w (VanillaOracleMCP.get args "ocpus" (VInt 1)) = Ok o
          /\ VanillaOracleMCP.float w (VanillaOracleMCP.get args "memory_gb" (VInt 6)) = Ok m
          /\ ld_shape_config d = Some {| ocpus := o; memory_in_gbs := m |}).

(** [adds P k m]: [m] only appends to the call log; every call it appends
    satisfies [P], and at most [k] of them are launch or termination requests. *)
Definition adds (P : call -> Prop) (k : nat) {A} (m : M A) : Prop :=
  forall s r s', m s = Some (r, s') ->
  exists new, calls s' = calls s ++ new /\ Forall P new
              /\ length (List.filter is_mutation new) <= k.

(** [silent m]: [m] prints nothing and leaves the attributes of [self] alone. *)
Definition silent {A} (m : M A) : Prop :=
  forall s r s', m s = Some (r, s') -> same_self s s'.

Definition is_terminate (c : call) : bool :=
  match c with TerminateInstance _ => true | _ => false end.

Definition is_launch (c : call) : bool :=
  match c with LaunchInstance _ => true | _ => false end.

(** The public key at [path] ([~] still to be expanded) cannot be read. *)
Definition key_unreadable (w : World) (path : value) : Prop :=
  forall expanded, os_path_expanduser w path = Ok expanded ->
  exists e, read_text w expanded = Raise e.

(** Calls that neither change the provider's resources nor read a file. *)
Definition is_query (c : call) : bool :=
  match c with
  | LaunchInstance _ | TerminateInstance _ | ReadText _ | WriteText _ _ => false
  | _ => true
  end.

(** The launch request [launch_ubuntu] composes: the first image of the
    filtered query, or of the query without [shape] when the filtered one came
    back empty; the first subnet of the first VCN; the first availability
    domain; the content of the key file, stripped. *)
Definition ubuntu_request (w : World) (d : LaunchInstanceDetails) : Prop :=
  let c := OciControl.compartment_id w in
  let images_of := compute_list_images w c (VStr "Canonical Ubuntu") (VStr "22.04") in
  exists image vcn vcns subnet subnets ad ads path text,
    ((exists images, images_of (Some (VStr "VM.Standard.A1.Flex")) = Ok (image :: images))
     \/ (images_of (Some (VStr "VM.Standard.A1.Flex")) = Ok []
         /\ exists images, images_of None = Ok (image :: images)))
    /\ network_list_vcns w c = Ok (vcn :: vcns)
    /\ network_list_subnets w c (Some (vcn_id vcn)) = Ok (subnet :: subnets)
    /\ identity_list_availability_domains w c = Ok (ad :: ads)
    /\ os_path_expanduser w (VStr "~/.ssh/id_rsa.pub") = Ok path
    /\ read_text w path = Ok text
    /\ d = OciControl.launch_details w image subnet ad (strip text).

(** The launch request [launch_staging_server] composes: the first image of
    its query, the subnet chosen by [public_subnet] among all subnets of the
    compartment, the content of the key file, stripped. *)
Definition staging_request (w : World) (c : value) (d : LaunchInstanceDetails) : Prop :=
  exists image images subnets subnet text,
    compute_list_images w c (VStr "Canonical Ubuntu") (VStr "22.04")
      (Some (VStr "VM.Standard.A1.Flex")) = Ok (image :: images)
    /\ network_list_subnets w c None = Ok subnets
    /\ LaunchStaging.public_subnet subnets = Some subnet
    /\ path_exists w (home w +:+ "/.ssh/staging_deploy.pub") = true
    /\ read_text w (home w +:+ "/.ssh/staging_deploy.pub") = Ok text
    /\ d = LaunchStaging.instance_details w c image subnet (strip text).

(** The launch request the tool handler [launch_instance] composes from the
    arguments [args] of the call. *)
Definition tool_request (w : World) (args : gmap string value) (d : LaunchInstanceDetails)
  : Prop :=
  exists name c image images ad ads vcn vcns subnet subnets path text,
    args !! "name" = Some name
    /\ compute_list_images w c
         (VanillaOracleMCP.get args "image_os" (VStr "Canonical Ubuntu"))
         (VanillaOracleMCP.get args "image_version" (VStr "22.04"))
         (Some (VanillaOracleMCP.get args "shape" (VStr "VM.Standard.A1.Flex")))
       = Ok (image :: images)
    /\ identity_list_availability_domains w c = Ok (ad :: ads)
    /\ network_list_vcns w c = Ok (vcn :: vcns)
    /\ network_list_subnets w c (Some (vcn_id vcn)) = Ok (subnet :: subnets)
    /\ os_path_expanduser w (VanillaOracleMCP.get args "ssh_key_path" (VStr "~/.ssh/id_rsa.pub"))
       = Ok path
    /\ read_text w path = Ok text
    /\ ld_display_name d = name
    /\ ld_compartment_id d = c
    /\ ld_availability_domain d = ad
    /\ ld_image_id d = Some (image_id image)
    /\ ld_create_vnic_details d = {| cv_subnet_id := subnet_id subnet; assign_public_ip := true |}
    /\ ld_metadata d = [("ssh_authorized_keys", strip text)].

(** [handled_after_launch m]: when [m] ends by raising a provider error, it
    has sent no launch or termination request. *)
Definition handled_after_launch {A} (m : M A) : Prop :=
  forall s s' status code message text,
    m s = Some (Raise (ServiceError status code message text), s') ->
    exists new, calls s' = calls s ++ new /\ Forall (fun c => is_mutation c = false) new.

(** [field key j]: the value of [key] in the JSON object [j]. *)
Definition field (key : string) (j : json) : option json :=
  match j with
  | JObj fields => snd <$> List.find (fun kv => String.eqb (fst kv) key) fields
  | _ => None
  end.

(** The arguments for which a tool's input schema advertises a default, each
    with that default. *)
Definition advertised_defaults (schema : json) : list (string * json) :=
  match field "properties" schema with
  | Some (JObj properties) =>
      omap (fun kv => pair (fst kv) <$> field "default" (snd kv)) properties
  | _ => []
  end.

(** A JSON scalar as the argument value the handler receives. *)
Definition argument_of (j : json) : value :=
  match j with
  | JInt z => VInt z
  | JStr s => VStr s
  | JVal v => v
  | _ => VNone
  end.

(** The input schema [list_tools] advertises for the tool [name]. *)
Definition schema_of (name : string) : option json :=
  VanillaOracleMCP.inputSchema
    <$> List.find (fun t => String.eqb (VanillaOracleMCP.tool_name t) name)
          VanillaOracleMCP.list_tools.

(** The calls of a poll loop that holds [current] and is answered with the
    instances of [pending]: a sleep and a status query per answer. *)
Fixpoint poll_calls (current : Instance) (pending : list Instance) : list call :=
  match pending with
  | [] => []
  | r :: rest => Sleep 5 :: GetInstance (VStr (id current)) :: poll_calls r rest
  end.

(** * Properties *)

(** ** Python string helpers on examples *)

Example lower_public : lower "My-PUBLIC-Subnet" = "my-public-subnet".
Proof. reflexivity. Qed.

Example contains_public : contains "public" (lower "My-PUBLIC-Subnet") = true.
Proof. reflexivity. Qed.

Example endswith_flex :
  endswith ".Flex" "VM.Standard.A1.Flex" = true /\
  endswith ".Flex" "VM.Standard.E2.1.Micro" = false /\
  endswith ".Flex" "VM.Standard.A1.flex" = false /\
  endswith ".Flex" "Flex" = false.
Proof. repeat split; reflexivity. Qed.

(** [float] of an integer is exact up to 2^53, rounds to even above, and
    overflows from 2^1024 - 2^970 on. *)
Example float_of_int_rounds :
  float_of_int 6 = Ok (inject_Z 6)
  /\ float_of_int (2 ^ 53 + 1) = Ok (inject_Z (2 ^ 53))
  /\ float_of_int (2 ^ 53 + 3) = Ok (inject_Z (2 ^ 53 + 4))
  /\ float_of_int (- (2 ^ 53 + 3)) = Ok (inject_Z (- (2 ^ 53 + 4)))
  /\ float_of_int (2 ^ 1024 - 1)
       = Raise (Error "OverflowError" "int too large to convert to float").
Proof. repeat split; vm_compute; reflexivity. Qed.

Example strip_key : strip (" ssh-rsa AAAA user@host" +:+ nl) = "ssh-rsa AAAA user@host".
Proof. reflexivity. Qed.

(** ** The monad *)

Lemma bind_ok {A B} (m : M A) (k : A -> M B) s a s' :
  m s = Some (Ok a, s') -> (m ≫= k) s = k a s'.
Proof. intros H. unfold mbind, M_bind. now rewrite H. Qed.

Lemma bind_raise {A B} (m : M A) (k : A -> M B) s e s' :
  m s = Some (Raise e, s') -> (m ≫= k) s = Some (Raise e, s').
Proof. intros H. unfold mbind, M_bind. now rewrite H. Qed.

Lemma bind_spinning {A B} (m : M A) (k : A -> M B) s :
  m s = None -> (m ≫= k) s = None.
Proof. intros H. unfold mbind, M_bind. now rewrite H. Qed.

Lemma calls_log c s : calls (log c s) = calls s ++ [c].
Proof. reflexivity. Qed.

Lemma calls_emit l s : calls (emit l s) = calls s.
Proof. reflexivity. Qed.

Lemma polls_app l1 l2 : polls (l1 ++ l2) = polls l1 + polls l2.
Proof. unfold polls. now rewrite List.filter_app, length_app. Qed.

(** Unfolds the monadic plumbing of a goal down to the answers of the world. *)
Ltac run :=
  unfold Sdk.list_images, Sdk.launch_instance, Sdk.list_instances,
    Sdk.list_vnic_attachments, Sdk.terminate_instance, Sdk.list_vcns, Sdk.list_subnets,
    Sdk.get_vnic, Sdk.list_availability_domains, Sdk.sleep, Sdk.read, Sdk.write,
    Sdk.get_instance, Sdk.first in *;
  unfold print, try_except, invoke, modify, answer, gets, raise in *;
  unfold mbind, M_bind, mret, M_ret in *;
  cbv beta iota.

(** Closes a goal saying that the calls logged on top of a state are no
    mutations. *)
Ltac quiet :=
  cbn [calls log emit]; rewrite ?List.filter_app; cbn [List.filter is_mutation];
  rewrite ?app_nil_r; reflexivity.

(** ** C1: the image fallback *)

Section ImageFallback.
Variable w : World.

Local Abbreviation ubuntu := (VStr "Canonical Ubuntu").
Local Abbreviation jammy := (VStr "22.04").
Local Abbreviation arm := (Some (VStr "VM.Standard.A1.Flex")).

Lemma find_images_retries st :
  compute_list_images w (OciControl.compartment_id w) ubuntu jammy arm = Ok [] ->
  OciControl.find_images w st =
    Some (compute_list_images w (OciControl.compartment_id w) ubuntu jammy None,
          log (ListImages (OciControl.compartment_id w) ubuntu jammy None)
            (emit "   Trying x86 images..."
               (log (ListImages (OciControl.compartment_id w) ubuntu jammy arm) st))).
Proof.
  intros H. unfold OciControl.find_images. run.
  rewrite H. reflexivity.
Qed.

Lemma find_images_no_retry st image rest :
  compute_list_images w (OciControl.compartment_id w) ubuntu jammy arm = Ok (image :: rest) ->
  OciControl.find_images w st =
    Some (Ok (image :: rest),
          log (ListImages (OciControl.compartment_id w) ubuntu jammy arm) st).
Proof.
  intros H. unfold OciControl.find_images. run.
  rewrite H. reflexivity.
Qed.

(** C1 (amended).  When the query filtered by OS family, OS version and shape
    returns no image, [launch_ubuntu] of oci-control.py repeats the query
    exactly once without the shape filter and reports "No Ubuntu images found"
    only if that second answer is empty too (it continues with the first image
    of a non-empty answer); [launch_staging_server] of launch_staging.py
    issues the filtered query only and gives up at once, returning [None]. *)
Theorem C1_image_fallback (c : value) (fuel : nat) (st : state) :
  compute_list_images w (OciControl.compartment_id w) ubuntu jammy arm = Ok [] ->
  compute_list_images w c ubuntu jammy arm = Ok [] ->
  OciControl.launch_ubuntu w fuel st =
    match compute_list_images w (OciControl.compartment_id w) ubuntu jammy None with
    | Ok [] => Some (Ok tt, emit "❌ No Ubuntu images found" (after_retry w st))
    | Ok (image :: _) => OciControl.launch_with w image fuel (after_retry w st)
    | Raise e => Some (Raise e, after_retry w st)
    end
  /\ LaunchStaging.launch_staging_server w c fuel st =
       Some (Ok None,
             emit "❌ No Ubuntu 22.04 images found for E2.1.Micro" (after_query c st)).
Proof.
  intros Hu Hs. split.
  - unfold OciControl.launch_ubuntu.
    rewrite (bind_ok _ _ st tt (emit ("🚀 Launching Ubuntu 22.04 on OCI" +:+ nl) st)) by reflexivity.
    erewrite bind_ok by reflexivity.
    unfold mbind at 1, M_bind at 1. rewrite (find_images_retries _ Hu).
    fold (after_retry w st).
    destruct (compute_list_images w (OciControl.compartment_id w) ubuntu jammy None)
      as [[|image rest]|e]; reflexivity.
  - unfold LaunchStaging.launch_staging_server. run.
    rewrite Hs. reflexivity.
Qed.

End ImageFallback.

Lemma C1_image_fallback_witness :
  let w := Mock.world Mock.no_image in
  let c := VStr Mock.tenancy in
  let arm := Some (VStr "VM.Standard.A1.Flex") in
  compute_list_images w (OciControl.compartment_id w) (VStr "Canonical Ubuntu") (VStr "22.04") arm = Ok []
  /\ compute_list_images w c (VStr "Canonical Ubuntu") (VStr "22.04") arm = Ok []
  /\ OciControl.launch_ubuntu w 0 initial =
       Some (Ok tt, emit "❌ No Ubuntu images found" (after_retry w initial))
  /\ LaunchStaging.launch_staging_server w c 0 initial =
       Some (Ok None,
             emit "❌ No Ubuntu 22.04 images found for E2.1.Micro" (after_query c initial)).
Proof.
  cbv zeta.
  assert (H1 : compute_list_images (Mock.world Mock.no_image)
                 (OciControl.compartment_id (Mock.world Mock.no_image))
                 (VStr "Canonical Ubuntu") (VStr "22.04")
                 (Some (VStr "VM.Standard.A1.Flex")) = Ok []) by reflexivity.
  assert (H2 : compute_list_images (Mock.world Mock.no_image) (VStr Mock.tenancy)
                 (VStr "Canonical Ubuntu") (VStr "22.04")
                 (Some (VStr "VM.Standard.A1.Flex")) = Ok []) by reflexivity.
  destruct (C1_image_fallback (Mock.world Mock.no_image) (VStr Mock.tenancy) 0 initial H1 H2)
    as [Hu Hs].
  repeat split; assumption.
Defined.

(** C1, as stated, fails on launch_staging.py: the ARM query is empty, a query
    without the shape would find an image, and [launch_staging_server] returns
    [None] after the single filtered query. *)
Lemma C1_staging_gives_up_without_retry :
  let w := Mock.world Mock.arm_missing in
  let c := VStr Mock.tenancy in
  compute_list_images w c (VStr "Canonical Ubuntu") (VStr "22.04")
    (Some (VStr "VM.Standard.A1.Flex")) = Ok []
  /\ compute_list_images w c (VStr "Canonical Ubuntu") (VStr "22.04") None = Ok [Mock.x86_image]
  /\ exists st,
       LaunchStaging.launch_staging_server w c 5 initial = Some (Ok None, st)
       /\ calls st = [ListImages c (VStr "Canonical Ubuntu") (VStr "22.04")
                        (Some (VStr "VM.Standard.A1.Flex"))].
Proof.
  cbv zeta. split; [reflexivity|]. split; [reflexivity|].
  eexists. split; reflexivity.
Qed.

(** The third resolver, [launch_instance] of the tool server, does not widen
    either: an empty filtered answer ends the call with an error text. *)
Lemma mcp_launch_no_image (w : World) (args : gmap string value) (st : state)
    (name tenancy : value) (cfg : gmap string value) :
  args !! "name" = Some name ->
  config st = Some cfg ->
  cfg !! "tenancy" = Some tenancy ->
  compute_client st = true ->
  compute_list_images w tenancy
    (VanillaOracleMCP.get args "image_os" (VStr "Canonical Ubuntu"))
    (VanillaOracleMCP.get args "image_version" (VStr "22.04"))
    (Some (VanillaOracleMCP.get args "shape" (VStr "VM.Standard.A1.Flex"))) = Ok [] ->
  VanillaOracleMCP.launch_instance w args st =
    Some (Ok "Error: No suitable image found",
          log (ListImages tenancy
                 (VanillaOracleMCP.get args "image_os" (VStr "Canonical Ubuntu"))
                 (VanillaOracleMCP.get args "image_version" (VStr "22.04"))
                 (Some (VanillaOracleMCP.get args "shape" (VStr "VM.Standard.A1.Flex")))) st).
Proof.
  intros Hn Hc Ht Hcl Himg.
  unfold VanillaOracleMCP.launch_instance, VanillaOracleMCP.item,
    VanillaOracleMCP.config_item, VanillaOracleMCP.via_compute.
  run. rewrite Hn, Hc, Ht. cbn. rewrite Hcl, Himg. reflexivity.
Qed.

(** ** C2: the poll loops of the launcher scripts *)

Section Polling.
Variable w : World.

Lemma polls_log_get i st : polls (calls (log (GetInstance i) st)) = S (polls (calls st)).
Proof. rewrite calls_log, polls_app. cbn. lia. Qed.

Lemma polls_log_sleep n st : polls (calls (log (Sleep n) st)) = polls (calls st).
Proof. rewrite calls_log, polls_app. cbn. lia. Qed.

Lemma polls_polled line pending : forall current st,
  polls (calls (polled line current pending st)) = polls (calls st) + length pending.
Proof.
  induction pending as [|r rest IH]; intros current st; cbn [polled length].
  - lia.
  - rewrite IH. rewrite calls_emit, polls_log_get, polls_log_sleep. lia.
Qed.

Lemma last_cons {A} (rest : list A) : forall r d, List.last (r :: rest) d = List.last rest r.
Proof.
  induction rest as [|a rest IH]; intros r d; [reflexivity|].
  change (List.last (r :: a :: rest) d) with (List.last (a :: rest) d).
  now rewrite !IH.
Qed.

Lemma eqb_running_false s : s <> "RUNNING" -> String.eqb s "RUNNING" = false.
Proof. intros H. now apply String.eqb_neq. Qed.

(** The loop of launch_staging.py stops at the first RUNNING instance it sees. *)
Lemma staging_loop_stops (pending : list Instance) : forall current st fuel,
  served w (polls (calls st)) current pending ->
  Forall (fun i => lifecycle_state i <> "RUNNING") (removelast (current :: pending)) ->
  lifecycle_state (List.last pending current) = "RUNNING" ->
  length pending <= fuel ->
  LaunchStaging.poll_until_running w fuel current st =
    Some (Ok (List.last pending current), polled staging_line current pending st).
Proof.
  induction pending as [|r rest IH]; intros current st fuel Hs Hn Hr Hf.
  - cbn in Hr. destruct fuel; cbn; rewrite Hr; reflexivity.
  - destruct Hs as [Hget Hs]. cbn [removelast] in Hn.
    apply Forall_cons in Hn as [Hcur Hn].
    destruct fuel as [|fuel]; [cbn in Hf; lia|].
    cbn [LaunchStaging.poll_until_running]. rewrite (eqb_running_false _ Hcur).
    run. rewrite polls_log_sleep, Hget.
    rewrite last_cons in Hr |- *.
    cbn [polled]. unfold staging_line at 2.
    apply IH.
    + now rewrite calls_emit, polls_log_get, polls_log_sleep.
    + exact Hn.
    + exact Hr.
    + cbn in Hf. lia.
Qed.

(** The loop of oci-control.py likewise. *)
Lemma ubuntu_loop_stops (pending : list Instance) : forall current st fuel,
  served w (polls (calls st)) current pending ->
  Forall (fun i => lifecycle_state i <> "RUNNING") (removelast (current :: pending)) ->
  lifecycle_state (List.last pending current) = "RUNNING" ->
  length pending <= fuel ->
  OciControl.wait_running w fuel current st =
    Some (Ok (List.last pending current), polled ubuntu_line current pending st).
Proof.
  induction pending as [|r rest IH]; intros current st fuel Hs Hn Hr Hf.
  - cbn in Hr. destruct fuel; cbn; rewrite Hr; reflexivity.
  - destruct Hs as [Hget Hs]. cbn [removelast] in Hn.
    apply Forall_cons in Hn as [Hcur Hn].
    destruct fuel as [|fuel]; [cbn in Hf; lia|].
    cbn [OciControl.wait_running]. rewrite (eqb_running_false _ Hcur).
    run. rewrite polls_log_sleep, Hget.
    rewrite last_cons in Hr |- *.
    cbn [polled]. unfold ubuntu_line at 2.
    apply IH.
    + now rewrite calls_emit, polls_log_get, polls_log_sleep.
    + exact Hn.
    + exact Hr.
    + cbn in Hf. lia.
Qed.

(** Neither loop has a wait limit: while every answer is an instance that is
    not RUNNING, no amount of fuel makes the loop return or raise. *)
Lemma staging_loop_spins (fuel : nat) : forall current st,
  (forall n i, exists r, compute_get_instance w n i = Ok r /\ lifecycle_state r <> "RUNNING") ->
  lifecycle_state current <> "RUNNING" ->
  LaunchStaging.poll_until_running w fuel current st = None.
Proof.
  induction fuel as [|fuel IH]; intros current st Hw Hc; cbn;
    rewrite (eqb_running_false _ Hc); [reflexivity|].
  run. destruct (Hw (polls (calls (log (Sleep 5) st))) (VStr (id current))) as (r & -> & Hr).
  now apply IH.
Qed.

Lemma ubuntu_loop_spins (fuel : nat) : forall current st,
  (forall n i, exists r, compute_get_instance w n i = Ok r /\ lifecycle_state r <> "RUNNING") ->
  lifecycle_state current <> "RUNNING" ->
  OciControl.wait_running w fuel current st = None.
Proof.
  induction fuel as [|fuel IH]; intros current st Hw Hc; cbn;
    rewrite (eqb_running_false _ Hc); [reflexivity|].
  run. destruct (Hw (polls (calls (log (Sleep 5) st))) (VStr (id current))) as (r & -> & Hr).
  now apply IH.
Qed.

End Polling.

(** C2 (amended).  The poll loops of launch_staging.py and oci-control.py stop
    at the first instance they see in state RUNNING and poll no further; every
    earlier answer, whatever its state (TERMINATED and FAILED included), is
    followed by a sleep of 5 seconds and another poll.  launch_staging.py
    fetches the instance once before it looks at any state, oci-control.py
    starts from the launch response.  The loops have no wait limit: while the
    provider never reports RUNNING they neither return nor raise. *)
Theorem C2_poll_loops (w : World) :
  (forall launched first rest st fuel,
     served w (polls (calls st)) launched (first :: rest) ->
     Forall (fun i => lifecycle_state i <> "RUNNING") (removelast (first :: rest)) ->
     lifecycle_state (List.last rest first) = "RUNNING" ->
     length rest <= fuel ->
     let st' := polled staging_line first rest (log (GetInstance (VStr (id launched))) st) in
     LaunchStaging.wait_running w fuel launched st = Some (Ok (List.last rest first), st')
     /\ polls (calls st') = polls (calls st) + S (length rest))
  /\ (forall launched pending st fuel,
     served w (polls (calls st)) launched pending ->
     Forall (fun i => lifecycle_state i <> "RUNNING") (removelast (launched :: pending)) ->
     lifecycle_state (List.last pending launched) = "RUNNING" ->
     length pending <= fuel ->
     let st' := polled ubuntu_line launched pending st in
     OciControl.wait_running w fuel launched st = Some (Ok (List.last pending launched), st')
     /\ polls (calls st') = polls (calls st) + length pending)
  /\ (forall current st fuel,
     (forall n i, exists r, compute_get_instance w n i = Ok r /\ lifecycle_state r <> "RUNNING") ->
     lifecycle_state current <> "RUNNING" ->
     LaunchStaging.poll_until_running w fuel current st = None
     /\ OciControl.wait_running w fuel current st = None).
Proof.
  split; [|split].
  - intros launched first rest st fuel [Hget Hs] Hn Hr Hf. cbv zeta. split.
    + unfold LaunchStaging.wait_running. run. rewrite Hget.
      apply staging_loop_stops; try assumption.
      now rewrite polls_log_get.
    + rewrite polls_polled, polls_log_get. lia.
  - intros launched pending st fuel Hs Hn Hr Hf. cbv zeta. split.
    + now apply ubuntu_loop_stops.
    + now rewrite polls_polled.
  - intros current st fuel Hw Hc. split.
    + now apply staging_loop_spins.
    + now apply ubuntu_loop_spins.
Qed.

Lemma C2_poll_loops_witness :
  let w := Mock.world Mock.healthy in
  let launched := Mock.instance "test-1" "PROVISIONING" in
  let running := Mock.instance "test-1" "RUNNING" in
  (exists st, LaunchStaging.wait_running w 2 launched initial = Some (Ok running, st)
              /\ polls (calls st) = 3)
  /\ (exists st, OciControl.wait_running w 3 launched initial = Some (Ok running, st)
              /\ polls (calls st) = 3)
  /\ LaunchStaging.poll_until_running (Mock.frozen (Mock.instance "test-1" "TERMINATED") w)
       7 launched initial = None.
Proof.
  cbv zeta.
  destruct (C2_poll_loops (Mock.world Mock.healthy)) as (Hstaging & Hubuntu & _).
  destruct (C2_poll_loops
              (Mock.frozen (Mock.instance "test-1" "TERMINATED") (Mock.world Mock.healthy)))
    as (_ & _ & Hspin).
  split; [|split].
  - destruct (Hstaging (Mock.instance "test-1" "PROVISIONING")
                (Mock.instance "test-1" "PROVISIONING")
                [Mock.instance "test-1" "PROVISIONING"; Mock.instance "test-1" "RUNNING"]
                initial 2) as [Hrun Hpolls].
    + repeat split.
    + repeat constructor; discriminate.
    + reflexivity.
    + cbn; lia.
    + eexists. split; [exact Hrun | exact Hpolls].
  - destruct (Hubuntu (Mock.instance "test-1" "PROVISIONING")
                [Mock.instance "test-1" "PROVISIONING";
                 Mock.instance "test-1" "PROVISIONING";
                 Mock.instance "test-1" "RUNNING"] initial 3) as [Hrun Hpolls].
    + repeat split.
    + repeat constructor; discriminate.
    + reflexivity.
    + cbn; lia.
    + eexists. split; [exact Hrun | exact Hpolls].
  - apply Hspin.
    + intros n i. eexists. split; [reflexivity|discriminate].
    + discriminate.
Defined.

(** C2, as stated, fails on launch_staging.py: the second poll is answered
    TERMINATED and a third poll is issued all the same. *)
Lemma C2_polls_after_terminated :
  let w := Mock.world Mock.terminated_then_running in
  let i := VStr "ocid1.instance.oc1..test-1" in
  exists st,
    LaunchStaging.wait_running w 5 (Mock.instance "test-1" "PROVISIONING") initial
      = Some (Ok (Mock.instance "test-1" "RUNNING"), st)
    /\ calls st = [GetInstance i; Sleep 5; GetInstance i; Sleep 5; GetInstance i]
    /\ polled_states w 0 (calls st) = [Ok "PROVISIONING"; Ok "TERMINATED"; Ok "RUNNING"]
    /\ ~ no_poll_after_terminal (polled_states w 0 (calls st)).
Proof.
  cbv zeta. eexists. split; [reflexivity|]. split; [reflexivity|]. split; [reflexivity|].
  intros H. specialize (H 1 "TERMINATED" eq_refl eq_refl). discriminate H.
Qed.

(** ** C3: the subnet chosen by launch_staging.py *)

Lemma find_public_none (subnets : list Subnet) :
  (forall s, s ∈ subnets -> contains_ci "public" (subnet_display_name s) = false) ->
  LaunchStaging.find_public subnets = None.
Proof.
  induction subnets as [|s rest IH]; intros H; [reflexivity|].
  cbn [LaunchStaging.find_public].
  assert (Hs : contains "public" (lower (subnet_display_name s)) = false)
    by (apply (H s); left).
  rewrite Hs. apply IH. intros x Hx. apply H. now right.
Qed.

Lemma find_public_split (before after : list Subnet) (subnet : Subnet) :
  contains_ci "public" (subnet_display_name subnet) = true ->
  (forall s, s ∈ before -> contains_ci "public" (subnet_display_name s) = false) ->
  LaunchStaging.find_public (before ++ subnet :: after) = Some subnet.
Proof.
  intros Hm. induction before as [|s rest IH]; intros H; cbn [app LaunchStaging.find_public].
  - change (contains "public" (lower (subnet_display_name subnet))) with
      (contains_ci "public" (subnet_display_name subnet)).
    now rewrite Hm.
  - assert (Hs : contains "public" (lower (subnet_display_name s)) = false)
      by (apply (H s); left).
    rewrite Hs. apply IH. intros x Hx. apply H. now right.
Qed.

(** C3 (amended).  The resolver of launch_staging.py takes no selector: it
    looks for the literal "public".  In every enumeration of the subnets in
    which exactly one display name contains "public", letter case ignored,
    the script chooses that subnet, wherever it stands in the list; when no
    display name contains "public", the script falls back to the first subnet
    of the list as returned. *)
Theorem C3_public_subnet :
  (forall (before after listed : list Subnet) (subnet : Subnet),
     listed ≡ₚ before ++ subnet :: after ->
     contains_ci "public" (subnet_display_name subnet) = true ->
     (forall s, s ∈ before ++ after -> contains_ci "public" (subnet_display_name s) = false) ->
     LaunchStaging.public_subnet listed = Some subnet)
  /\ (forall listed : list Subnet,
     (forall s, s ∈ listed -> contains_ci "public" (subnet_display_name s) = false) ->
     LaunchStaging.public_subnet listed = head listed).
Proof.
  split.
  - intros before after listed subnet Hp Hm Hothers.
    assert (Hin : subnet ∈ listed).
    { rewrite Hp. apply elem_of_app. right. left. }
    apply list_elem_of_split in Hin as (b & a & ->).
    assert (Hrest : b ++ a ≡ₚ before ++ after).
    { apply (Permutation_cons_inv (a := subnet)).
      now rewrite !Permutation_middle. }
    unfold LaunchStaging.public_subnet.
    rewrite find_public_split; [reflexivity|assumption|].
    intros s Hs. apply Hothers. rewrite <- Hrest. apply elem_of_app. now left.
  - intros listed Hnone. unfold LaunchStaging.public_subnet.
    rewrite find_public_none by assumption. now destruct listed.
Qed.

Lemma C3_public_subnet_witness :
  LaunchStaging.public_subnet [Mock.public_subnet; Mock.private_subnet] = Some Mock.public_subnet
  /\ LaunchStaging.public_subnet [Mock.private_subnet; Mock.public_subnet] = Some Mock.public_subnet
  /\ LaunchStaging.public_subnet [Mock.private_subnet] = Some Mock.private_subnet.
Proof.
  destruct C3_public_subnet as [Hone Hnone].
  split; [|split].
  - apply (Hone [] [Mock.private_subnet]); [reflexivity|reflexivity|].
    intros s Hs. apply list_elem_of_singleton in Hs as ->. reflexivity.
  - apply (Hone [Mock.private_subnet] []); [reflexivity|reflexivity|].
    intros s Hs. apply list_elem_of_singleton in Hs as ->. reflexivity.
  - apply (Hnone [Mock.private_subnet]).
    intros s Hs. apply list_elem_of_singleton in Hs as ->. reflexivity.
Defined.

(** C3, as stated for a given selector, fails: the resolver never consults
    one.  With the selector "db", the only subnet whose name contains it is
    passed over for the subnet named "Public-Subnet"; and where no name
    contains "db", the resolver does not fall back to the first subnet listed
    but again picks "Public-Subnet". *)
Lemma C3_selector_is_ignored :
  let selector := "db" in
  (contains_ci selector (subnet_display_name Mock.db_subnet) = true
   /\ contains_ci selector (subnet_display_name Mock.public_subnet) = false
   /\ LaunchStaging.public_subnet [Mock.db_subnet; Mock.public_subnet]
        = Some Mock.public_subnet
   /\ Mock.public_subnet <> Mock.db_subnet)
  /\ (contains_ci selector (subnet_display_name Mock.private_subnet) = false
      /\ contains_ci selector (subnet_display_name Mock.public_subnet) = false
      /\ LaunchStaging.public_subnet [Mock.private_subnet; Mock.public_subnet]
           = Some Mock.public_subnet
      /\ head [Mock.private_subnet; Mock.public_subnet] = Some Mock.private_subnet
      /\ Mock.public_subnet <> Mock.private_subnet).
Proof.
  cbv zeta. unfold Mock.db_subnet, Mock.public_subnet, Mock.private_subnet.
  repeat split; try reflexivity; discriminate.
Qed.

(** The launch of launch_staging.py goes to the subnet so chosen. *)
Example staging_launches_in_public_subnet :
  exists st d,
    LaunchStaging.launch_staging_server (Mock.world Mock.healthy) (VStr Mock.tenancy) 5 initial
      = Some (Ok (Some "203.0.113.7"), st)
    /\ List.filter is_mutation (calls st) = [LaunchInstance d]
    /\ cv_subnet_id (ld_create_vnic_details d) = subnet_id Mock.public_subnet
    /\ ld_availability_domain d = subnet_availability_domain Mock.public_subnet.
Proof.
  do 2 eexists. split; [vm_compute; reflexivity|].
  split; [reflexivity|]. split; reflexivity.
Qed.

(** ** C4, C5: [list_instances] of the tool server *)

Section Listing.
Variable w : World.

Lemma same_self_refl st : same_self st st.
Proof. now repeat split. Qed.

Lemma same_self_log c st st' : same_self (log c st) st' -> same_self st st'.
Proof. intros H. exact H. Qed.

Lemma lookup_public_ip_total (c : value) (i : Instance) (st : state) :
  exists st',
    VanillaOracleMCP.lookup_public_ip w c i st
      = Some (Ok (ip_of w (compute_client st) (network_client st) c i), st')
    /\ same_self st st'
    /\ List.filter is_mutation (calls st') = List.filter is_mutation (calls st).
Proof.
  unfold VanillaOracleMCP.lookup_public_ip, VanillaOracleMCP.via_compute,
    VanillaOracleMCP.via_network, ip_of.
  run.
  destruct (compute_client st) eqn:Hc; cbn.
  2:{ eexists. split; [reflexivity|]. split; [apply same_self_refl|reflexivity]. }
  destruct (compute_list_vnic_attachments w c (VStr (id i))) as [[|a rest]|e]; cbn.
  - eexists. split; [reflexivity|]. split; [now repeat split|quiet].
  - destruct (network_client st) eqn:Hn; cbn.
    + destruct (network_get_vnic w (vnic_id a)) as [v|e]; cbn;
        (eexists; split; [reflexivity|]; split; [now repeat split|quiet]).
    + eexists. split; [reflexivity|]. split; [now repeat split|quiet].
  - eexists. split; [reflexivity|]. split; [now repeat split|quiet].
Qed.

(** The loop over the instances returns one summary per instance, in order,
    and never raises. *)
Lemma summaries_total (c : value) (instances : list Instance) : forall st,
  exists st',
    VanillaOracleMCP.summaries w c instances st
      = Some (Ok ((fun i => VanillaOracleMCP.summary i
                              (ip_of w (compute_client st) (network_client st) c i))
                  <$> instances), st')
    /\ same_self st st'
    /\ List.filter is_mutation (calls st') = List.filter is_mutation (calls st).
Proof.
  induction instances as [|i rest IH]; intros st; cbn [VanillaOracleMCP.summaries fmap list_fmap].
  - eexists. split; [reflexivity|]. split; [apply same_self_refl|reflexivity].
  - destruct (lookup_public_ip_total c i st) as (st1 & H1 & (Hcfg & Hcc & Hnc & Hout) & Hm1).
    destruct (IH st1) as (st2 & H2 & (Hcfg2 & Hcc2 & Hnc2 & Hout2) & Hm2).
    exists st2. split; [|split].
    + erewrite bind_ok by exact H1. erewrite bind_ok by exact H2.
      rewrite Hcc, Hnc. reflexivity.
    + repeat split; congruence.
    + congruence.
Qed.

Lemma filter_bool_prop {A} (p : A -> bool) (P : A -> Prop) `{!forall x, Decision (P x)}
    (l : list A) :
  (forall x, p x = true <-> P x) -> List.filter p l = filter P l.
Proof.
  intros Hp. induction l as [|a l IH]; [reflexivity|].
  rewrite filter_cons. cbn [List.filter].
  destruct (p a) eqn:Ha.
  - rewrite decide_True by now apply Hp. now rewrite IH.
  - rewrite decide_False; [exact IH|]. intros HP. apply Hp in HP. congruence.
Qed.

(** What the state filter keeps when it is a non-empty string: the instances
    whose state is that very string. *)
Lemma apply_state_filter_exact (f : string) (listed : list Instance) :
  f <> "" ->
  VanillaOracleMCP.apply_state_filter (Some (VStr f)) listed
    = filter (fun i => lifecycle_state i = f) listed.
Proof.
  intros Hf. unfold VanillaOracleMCP.apply_state_filter. cbn [truthy].
  apply String.eqb_neq in Hf. rewrite Hf. cbn [negb].
  apply filter_bool_prop. intros i. cbn [str_eq]. apply String.eqb_eq.
Qed.

(** [list_instances], once the provider has listed the instances. *)
Lemma list_instances_result (args cfg : gmap string value) (tenancy : value)
    (listed : list Instance) (st : state) :
  config st = Some cfg ->
  cfg !! "tenancy" = Some tenancy ->
  compute_client st = true ->
  compute_list_instances w tenancy None = Ok listed ->
  exists st',
    VanillaOracleMCP.list_instances w args st
      = Some (Ok (json_dumps w (VanillaOracleMCP.listing
                    ((fun i => VanillaOracleMCP.summary i
                                 (ip_of w true (network_client st) tenancy i))
                     <$> VanillaOracleMCP.apply_state_filter (args !! "state") listed))), st')
    /\ List.filter is_mutation (calls st') = List.filter is_mutation (calls st).
Proof.
  intros Hcfg Ht Hcc Hl.
  destruct (summaries_total tenancy
              (VanillaOracleMCP.apply_state_filter (args !! "state") listed)
              (log (ListInstances tenancy None) st)) as (st' & Hs & _ & Hm).
  exists st'. split.
  - unfold VanillaOracleMCP.list_instances, VanillaOracleMCP.config_item,
      VanillaOracleMCP.via_compute.
    unfold mbind at 1, M_bind at 1. rewrite Hcfg, Ht.
    unfold mbind at 1, M_bind at 1. rewrite Hcc.
    unfold Sdk.list_instances, invoke. rewrite Hl.
    erewrite bind_ok by exact Hs.
    cbn [compute_client network_client log]. rewrite Hcc. reflexivity.
  - rewrite Hm. quiet.
Qed.

End Listing.

(** The entries [list_instances] builds, read field by field. *)
Lemma summaries_fields (ip : Instance -> string) (selected : list Instance) :
  Forall2 (fun i e =>
             field "id" e = Some (JStr (id i))
             /\ field "name" e = Some (JStr (display_name i))
             /\ field "state" e = Some (JStr (lifecycle_state i))
             /\ field "shape" e = Some (JStr (shape i))
             /\ field "public_ip" e = Some (JStr (ip i)))
    selected ((fun i => VanillaOracleMCP.summary i (ip i)) <$> selected).
Proof.
  induction selected as [|i rest IH]; cbn [fmap list_fmap]; constructor; [|exact IH].
  repeat split; reflexivity.
Qed.

(** C4 (amended).  Once the provider has listed the instances,
    [list_instances] reports, in the provider's order, exactly the instances
    whose [lifecycle_state] is equal to the state filter as a string (the same
    characters in the same letter case: a prefix, a substring or another
    casing does not match) when the filter is a non-empty string; without a
    filter, and with the empty string as filter, it reports all instances.
    Reporting is read off the returned document: its [instances] array has
    one entry per selected instance, in order, whose [id], [name] and [state]
    are those of the instance, and [total] is their number. *)
Theorem C4_state_filter (w : World) (args cfg : gmap string value) (tenancy : value)
    (listed : list Instance) (st : state) :
  config st = Some cfg ->
  cfg !! "tenancy" = Some tenancy ->
  compute_client st = true ->
  compute_list_instances w tenancy None = Ok listed ->
  exists selected doc entries st',
    VanillaOracleMCP.list_instances w args st = Some (Ok (json_dumps w doc), st')
    /\ field "instances" doc = Some (JArr entries)
    /\ field "total" doc = Some (JInt (Z.of_nat (length selected)))
    /\ Forall2 (fun i e =>
                  field "id" e = Some (JStr (id i))
                  /\ field "name" e = Some (JStr (display_name i))
                  /\ field "state" e = Some (JStr (lifecycle_state i)))
         selected entries
    /\ (args !! "state" = None -> selected = listed)
    /\ (args !! "state" = Some (VStr "") -> selected = listed)
    /\ (forall f, args !! "state" = Some (VStr f) -> f <> "" ->
          selected = filter (fun i => lifecycle_state i = f) listed)
    /\ doc = VanillaOracleMCP.listing
               ((fun i => VanillaOracleMCP.summary i
                            (ip_of w true (network_client st) tenancy i))
                <$> selected).
Proof.
  intros Hcfg Ht Hcc Hl.
  destruct (list_instances_result w args cfg tenancy listed st Hcfg Ht Hcc Hl)
    as (st' & Hrun & _).
  exists (VanillaOracleMCP.apply_state_filter (args !! "state") listed).
  eexists. eexists. exists st'.
  split; [exact Hrun|]. split; [reflexivity|]. split; [|split; [|split; [|split; [|split]]]].
  - cbn. now rewrite length_fmap.
  - eapply Forall2_impl; [apply summaries_fields|]. cbn. tauto.
  - intros ->. reflexivity.
  - intros ->. reflexivity.
  - intros f -> Hf. now apply apply_state_filter_exact.
  - reflexivity.
Qed.

Lemma C4_state_filter_witness :
  let w := Mock.world Mock.healthy in
  let args : gmap string value := {[ "state" := VStr "RUNNING" ]} in
  config (Mock.ready w) = Some (list_to_map (VanillaOracleMCP.env_config w))
  /\ (list_to_map (VanillaOracleMCP.env_config w) : gmap string value) !! "tenancy"
       = Some (VStr Mock.tenancy)
  /\ compute_client (Mock.ready w) = true
  /\ compute_list_instances w (VStr Mock.tenancy) None
       = Ok [Mock.instance "test-1" "RUNNING"; Mock.instance "old" "STOPPED"]
  /\ exists st',
       VanillaOracleMCP.list_instances w args (Mock.ready w)
         = Some (Ok "{'total': 1, 'instances': [{'id': 'ocid1.instance.oc1..test-1', 'name': 'test-1', 'state': 'RUNNING', 'shape': 'VM.Standard.A1.Flex', 'public_ip': '203.0.113.7', 'created': '2024-05-01T10:00:00+00:00'}]}",
                 st').
Proof.
  cbv zeta.
  assert (H1 : config (Mock.ready (Mock.world Mock.healthy))
               = Some (list_to_map (VanillaOracleMCP.env_config (Mock.world Mock.healthy))))
    by reflexivity.
  assert (H2 : (list_to_map (VanillaOracleMCP.env_config (Mock.world Mock.healthy))
                : gmap string value) !! "tenancy" = Some (VStr Mock.tenancy))
    by (vm_compute; reflexivity).
  assert (H3 : compute_client (Mock.ready (Mock.world Mock.healthy)) = true) by reflexivity.
  assert (H4 : compute_list_instances (Mock.world Mock.healthy) (VStr Mock.tenancy) None
               = Ok [Mock.instance "test-1" "RUNNING"; Mock.instance "old" "STOPPED"])
    by reflexivity.
  repeat (split; [assumption|]).
  destruct (C4_state_filter (Mock.world Mock.healthy) {[ "state" := VStr "RUNNING" ]}
              _ _ _ _ H1 H2 H3 H4)
    as (selected & doc & entries & st' & Hrun & _ & _ & _ & _ & _ & Hsel & Hdoc).
  specialize (Hsel "RUNNING" (lookup_singleton_eq _ _) ltac:(discriminate)).
  subst selected doc. exists st'. rewrite Hrun. f_equal.
Defined.

(** The filter is neither a prefix test nor blind to letter case. *)
Example state_filter_is_exact :
  let listed := [Mock.instance "a" "RUNNING"; Mock.instance "b" "STOPPED";
                 Mock.instance "c" "STOPPING"] in
  VanillaOracleMCP.apply_state_filter (Some (VStr "STOPPED")) listed = [Mock.instance "b" "STOPPED"]
  /\ VanillaOracleMCP.apply_state_filter (Some (VStr "STOP")) listed = []
  /\ VanillaOracleMCP.apply_state_filter (Some (VStr "running")) listed = []
  /\ VanillaOracleMCP.apply_state_filter (Some (VStr "RUNNING ")) listed = [].
Proof. repeat split; reflexivity. Qed.

(** C4, as stated, fails for the empty string: with [state = ""] the tool
    lists both instances, none of which has the lifecycle state [""]. *)
Lemma C4_empty_filter_lists_everything :
  let w := Mock.world Mock.healthy in
  let args : gmap string value := {[ "state" := VStr "" ]} in
  (exists st,
     VanillaOracleMCP.call_tool w true "oci_instance_list" args initial
       = Some (Ok [ {| type := "text";
                       text := "{'total': 2, 'instances': [{'id': 'ocid1.instance.oc1..test-1', 'name': 'test-1', 'state': 'RUNNING', 'shape': 'VM.Standard.A1.Flex', 'public_ip': '203.0.113.7', 'created': '2024-05-01T10:00:00+00:00'}, {'id': 'ocid1.instance.oc1..old', 'name': 'old', 'state': 'STOPPED', 'shape': 'VM.Standard.A1.Flex', 'public_ip': '203.0.113.7', 'created': '2024-05-01T10:00:00+00:00'}]}" |} ],
               st))
  /\ filter (fun i => lifecycle_state i = "") (Mock.instances Mock.healthy) = [].
Proof.
  cbv zeta. split; [|reflexivity].
  eexists. vm_compute. reflexivity.
Qed.

(** C5.  Once the provider has listed the instances, [list_instances] returns
    its document whatever happens while an instance's address is looked up.
    The [instances] array of the document has one entry per selected
    instance, in order, carrying the instance's [id] and, as [public_ip], the
    address [ip] found for it.  For an instance whose attachment lookup
    raises, or whose interface fetch raises, that address is "N/A", so the
    instance is listed with [public_ip] "N/A"; and the address of an instance
    depends on the answers about that instance alone, so a failure for one
    instance leaves the other entries as they are. *)
Theorem C5_ip_failure_tolerated (w : World) (args cfg : gmap string value)
    (tenancy : value) (listed : list Instance) (st : state) :
  config st = Some cfg ->
  cfg !! "tenancy" = Some tenancy ->
  compute_client st = true ->
  compute_list_instances w tenancy None = Ok listed ->
  let ip := fun (provider : World) (i : Instance) =>
    ip_of provider true (network_client st) tenancy i in
  let entry := fun (provider : World) (i : Instance) =>
    VanillaOracleMCP.summary i (ip provider i) in
  let selected := VanillaOracleMCP.apply_state_filter (args !! "state") listed in
  (exists doc entries st',
     VanillaOracleMCP.list_instances w args st = Some (Ok (json_dumps w doc), st')
     /\ field "instances" doc = Some (JArr entries)
     /\ field "total" doc = Some (JInt (Z.of_nat (length selected)))
     /\ Forall2 (fun i e =>
                   field "id" e = Some (JStr (id i))
                   /\ field "public_ip" e = Some (JStr (ip w i)))
          selected entries
     /\ (forall k i,
           selected !! k = Some i -> ip w i = "N/A" ->
           exists e, entries !! k = Some e
                     /\ field "id" e = Some (JStr (id i))
                     /\ field "public_ip" e = Some (JStr "N/A"))
     /\ doc = VanillaOracleMCP.listing (entry w <$> selected))
  /\ (forall i e,
        compute_list_vnic_attachments w tenancy (VStr (id i)) = Raise e ->
        ip w i = "N/A" /\ field "public_ip" (entry w i) = Some (JStr "N/A"))
  /\ (forall i a rest e,
        compute_list_vnic_attachments w tenancy (VStr (id i)) = Ok (a :: rest) ->
        network_get_vnic w (vnic_id a) = Raise e ->
        ip w i = "N/A" /\ field "public_ip" (entry w i) = Some (JStr "N/A"))
  /\ (forall w' i,
        compute_list_vnic_attachments w' tenancy (VStr (id i))
          = compute_list_vnic_attachments w tenancy (VStr (id i)) ->
        (forall a rest,
           compute_list_vnic_attachments w tenancy (VStr (id i)) = Ok (a :: rest) ->
           network_get_vnic w' (vnic_id a) = network_get_vnic w (vnic_id a)) ->
        ip w' i = ip w i /\ entry w' i = entry w i).
Proof.
  intros Hcfg Ht Hcc Hl ip entry selected.
  destruct (list_instances_result w args cfg tenancy listed st Hcfg Ht Hcc Hl)
    as (st' & Hrun & _).
  assert (Hna1 : forall i e,
            compute_list_vnic_attachments w tenancy (VStr (id i)) = Raise e -> ip w i = "N/A").
  { intros i e He. unfold ip, ip_of. now rewrite He. }
  assert (Hna2 : forall i a rest e,
            compute_list_vnic_attachments w tenancy (VStr (id i)) = Ok (a :: rest) ->
            network_get_vnic w (vnic_id a) = Raise e -> ip w i = "N/A").
  { intros i a rest e Ha He. unfold ip, ip_of. rewrite Ha, He.
    now destruct (network_client st). }
  split; [|split; [|split]].
  - eexists. eexists. exists st'. split; [exact Hrun|]. split; [reflexivity|].
    split; [cbn; now rewrite length_fmap|].
    assert (Hall : Forall2 (fun i e =>
                      field "id" e = Some (JStr (id i))
                      /\ field "public_ip" e = Some (JStr (ip w i)))
                     selected (entry w <$> selected)).
    { eapply Forall2_impl; [apply (summaries_fields (ip w))|]. cbn. tauto. }
    split; [exact Hall|]. split; [|reflexivity].
    intros k i Hk Hna.
    destruct (Forall2_lookup_l _ _ _ _ _ Hall Hk) as (e & He & Hid & Hip).
    exists e. rewrite Hna in Hip. now repeat split.
  - intros i e He. split; [now apply (Hna1 i e)|].
    unfold entry. now rewrite (Hna1 i e He).
  - intros i a rest e Ha He. split; [now apply (Hna2 i a rest e)|].
    unfold entry. now rewrite (Hna2 i a rest e Ha He).
  - intros w' i Ha Hv.
    assert (Hip : ip w' i = ip w i).
    { unfold ip, ip_of. rewrite Ha.
      destruct (compute_list_vnic_attachments w tenancy (VStr (id i))) as [[|a rest]|e];
        try reflexivity.
      now rewrite (Hv a rest eq_refl). }
    split; [exact Hip|]. unfold entry. now rewrite Hip.
Qed.

Lemma C5_ip_failure_tolerated_witness :
  let w := Mock.world Mock.flaky in
  let args : gmap string value := {[ "state" := VStr "RUNNING" ]} in
  config (Mock.ready w) = Some (list_to_map (VanillaOracleMCP.env_config w))
  /\ (list_to_map (VanillaOracleMCP.env_config w) : gmap string value) !! "tenancy"
       = Some (VStr Mock.tenancy)
  /\ compute_client (Mock.ready w) = true
  /\ compute_list_instances w (VStr Mock.tenancy) None = Ok (Mock.instances Mock.flaky)
  /\ exists st',
       VanillaOracleMCP.list_instances w args (Mock.ready w)
         = Some (Ok "{'total': 3, 'instances': [{'id': 'ocid1.instance.oc1..a', 'name': 'a', 'state': 'RUNNING', 'shape': 'VM.Standard.A1.Flex', 'public_ip': '203.0.113.7', 'created': '2024-05-01T10:00:00+00:00'}, {'id': 'ocid1.instance.oc1..b', 'name': 'b', 'state': 'RUNNING', 'shape': 'VM.Standard.A1.Flex', 'public_ip': 'N/A', 'created': '2024-05-01T10:00:00+00:00'}, {'id': 'ocid1.instance.oc1..c', 'name': 'c', 'state': 'RUNNING', 'shape': 'VM.Standard.A1.Flex', 'public_ip': 'N/A', 'created': '2024-05-01T10:00:00+00:00'}]}",
                 st').
Proof.
  cbv zeta.
  assert (H1 : config (Mock.ready (Mock.world Mock.flaky))
               = Some (list_to_map (VanillaOracleMCP.env_config (Mock.world Mock.flaky))))
    by reflexivity.
  assert (H2 : (list_to_map (VanillaOracleMCP.env_config (Mock.world Mock.flaky))
                : gmap string value) !! "tenancy" = Some (VStr Mock.tenancy))
    by (vm_compute; reflexivity).
  assert (H3 : compute_client (Mock.ready (Mock.world Mock.flaky)) = true) by reflexivity.
  assert (H4 : compute_list_instances (Mock.world Mock.flaky) (VStr Mock.tenancy) None
               = Ok (Mock.instances Mock.flaky))
    by reflexivity.
  repeat (split; [assumption|]).
  destruct (C5_ip_failure_tolerated (Mock.world Mock.flaky) {[ "state" := VStr "RUNNING" ]}
              _ _ _ _ H1 H2 H3 H4) as ((doc & entries & st' & Hrun & _ & _ & _ & _ & Hdoc) & _).
  subst doc. exists st'. rewrite Hrun. f_equal.
Defined.

(** ** C6: [terminate_instance] of the tool server *)

(** C6 (amended).  [terminate_instance] first looks the instance up.  When the
    lookup raises (unknown id), it answers "Error: Instance <id> not found"
    and the lookup is the only call it makes: no termination request, no
    mutation of the provider.  When the lookup returns an instance, it issues
    the termination request for that id and, if the provider accepts the
    request, returns a document whose [status] is "success", whose
    [instance_id] is the id and whose [previous_state] is the lifecycle state
    of the instance as looked up before the request; a rejection of the
    request is raised to the caller. *)
Theorem C6_terminate_instance (w : World) (args : gmap string value)
    (instance_id : value) (st : state) :
  args !! "instance_id" = Some instance_id ->
  compute_client st = true ->
  (forall e,
     compute_get_instance w (polls (calls st)) instance_id = Raise e ->
     exists st',
       VanillaOracleMCP.terminate_instance w args st
         = Some (Ok ("Error: Instance " +:+ Sdk.str w instance_id +:+ " not found"), st')
       /\ calls st' = calls st ++ [GetInstance instance_id]
       /\ List.filter is_mutation (calls st') = List.filter is_mutation (calls st))
  /\ (forall instance,
     compute_get_instance w (polls (calls st)) instance_id = Ok instance ->
     exists doc st',
       VanillaOracleMCP.terminate_instance w args st
         = Some (match compute_terminate_instance w instance_id with
                 | Ok _ => Ok (json_dumps w doc)
                 | Raise e => Raise e
                 end, st')
       /\ calls st' = calls st ++ [GetInstance instance_id; TerminateInstance instance_id]
       /\ field "status" doc = Some (JStr "success")
       /\ field "instance_id" doc = Some (JVal instance_id)
       /\ field "previous_state" doc = Some (JStr (lifecycle_state instance))
       /\ doc = VanillaOracleMCP.receipt w (display_name instance) instance_id
                  (lifecycle_state instance)).
Proof.
  intros Ha Hcc. split.
  - intros e He. eexists. split; [|split].
    + unfold VanillaOracleMCP.terminate_instance, VanillaOracleMCP.item,
        VanillaOracleMCP.via_compute.
      run. rewrite Ha. cbn. rewrite Hcc, He. reflexivity.
    + reflexivity.
    + quiet.
  - intros instance Hi. eexists. eexists. split; [|split; [|split; [|split; [|split]]]].
    + unfold VanillaOracleMCP.terminate_instance, VanillaOracleMCP.item,
        VanillaOracleMCP.via_compute.
      run. rewrite Ha. cbn. rewrite Hcc, Hi. cbn. rewrite Hcc.
      destruct (compute_terminate_instance w instance_id) as [[]|e]; reflexivity.
    + cbn [calls log]. now rewrite <- app_assoc.
    + reflexivity.
    + reflexivity.
    + reflexivity.
    + reflexivity.
Qed.

Lemma C6_terminate_instance_witness :
  let w := Mock.world Mock.healthy in
  let known : gmap string value := {[ "instance_id" := VStr "ocid1.instance.oc1..test-1" ]} in
  let unknown : gmap string value := {[ "instance_id" := VStr "ocid1.instance.oc1..nope" ]} in
  (exists st,
     VanillaOracleMCP.terminate_instance w unknown (Mock.ready w)
       = Some (Ok "Error: Instance ocid1.instance.oc1..nope not found", st)
     /\ calls st = [GetInstance (VStr "ocid1.instance.oc1..nope")])
  /\ (exists st,
     VanillaOracleMCP.terminate_instance w known (Mock.ready w)
       = Some (Ok "{'status': 'success', 'message': 'Instance test-1 (ocid1.instance.oc1..test-1) is being terminated', 'instance_id': 'ocid1.instance.oc1..test-1', 'previous_state': 'PROVISIONING'}", st)
     /\ calls st = [GetInstance (VStr "ocid1.instance.oc1..test-1");
                    TerminateInstance (VStr "ocid1.instance.oc1..test-1")]).
Proof.
  cbv zeta. split.
  - destruct (C6_terminate_instance (Mock.world Mock.healthy)
                {[ "instance_id" := VStr "ocid1.instance.oc1..nope" ]}
                (VStr "ocid1.instance.oc1..nope") (Mock.ready (Mock.world Mock.healthy))
                (lookup_singleton_eq _ _) eq_refl) as [Hunknown _].
    destruct (Hunknown Mock.not_found eq_refl) as (st & Hrun & Hcalls & _).
    exists st. split; [exact Hrun|exact Hcalls].
  - destruct (C6_terminate_instance (Mock.world Mock.healthy)
                {[ "instance_id" := VStr "ocid1.instance.oc1..test-1" ]}
                (VStr "ocid1.instance.oc1..test-1") (Mock.ready (Mock.world Mock.healthy))
                (lookup_singleton_eq _ _) eq_refl) as [_ Hknown].
    destruct (Hknown (Mock.instance "test-1" "PROVISIONING") eq_refl)
      as (doc & st & Hrun & Hcalls & _ & _ & _ & Hdoc).
    subst doc. exists st. split; [|exact Hcalls]. rewrite Hrun. reflexivity.
Defined.

(** C6, as stated, fails when the provider rejects the termination of an
    instance it knows: the request is issued, no previous state is reported,
    the caller of the tool receives the provider's error. *)
Lemma C6_rejected_termination_reports_no_state :
  let w := Mock.world Mock.rejecting in
  let args : gmap string value := {[ "instance_id" := VStr "ocid1.instance.oc1..test-1" ]} in
  compute_get_instance w 0 (VStr "ocid1.instance.oc1..test-1")
    = Ok (Mock.instance "test-1" "RUNNING")
  /\ (exists st,
        VanillaOracleMCP.terminate_instance w args (Mock.ready w)
          = Some (Raise Mock.conflict, st)
        /\ calls st = [GetInstance (VStr "ocid1.instance.oc1..test-1");
                       TerminateInstance (VStr "ocid1.instance.oc1..test-1")])
  /\ (exists st,
        VanillaOracleMCP.call_tool w true "oci_instance_terminate" args initial
          = Some (Ok (VanillaOracleMCP.text_content
                        ("Error executing oci_instance_terminate: " +:+ str_exn Mock.conflict)),
                  st)).
Proof.
  cbv zeta. split; [reflexivity|]. split.
  - eexists. split; vm_compute; reflexivity.
  - eexists. vm_compute. reflexivity.
Qed.

(** ** C7: a rejected launch *)

(** C7 (amended).  When the provider rejects the launch call with a service
    error, either script makes no further provider call (no second launch, no
    poll) and ends in failure.  [launch_ubuntu] prints the provider's message,
    status and code, then one hint chosen by the status and by substrings of
    the lower-cased message: the quota hint, which contains the word "quota",
    exactly when the status is not 404 and the message contains "quota" in any
    letter case.  [launch_staging_server] prints the provider's message and,
    when the rendered error contains "QuotaExceeded", two lines about the free
    tier limit, and returns [None]. *)
Theorem C7_launch_rejection (w : World) (c : value) (fuel : nat)
    (d : LaunchInstanceDetails) (st : state) (status : Z) (code message text : string) :
  compute_launch_instance w d = Raise (ServiceError status code message text) ->
  (exists st',
     OciControl.launch_and_report w fuel d st = Some (Ok tt, st')
     /\ calls st' = calls st ++ [LaunchInstance d]
     /\ stdout st' = stdout st ++
          [nl +:+ "❌ Failed to launch: " +:+ message;
           "   Status: " +:+ Sdk.str w (VInt status);
           "   Code: " +:+ code] ++ ubuntu_hint status message)
  /\ (exists st',
     LaunchStaging.launch_and_report w c fuel d st = Some (Ok None, st')
     /\ calls st' = calls st ++ [LaunchInstance d]
     /\ stdout st' = stdout st ++
          ["❌ Error launching instance: " +:+ message] ++ staging_hint text)
  /\ (status <> 404%Z -> contains "quota" (lower message) = true ->
      ubuntu_hint status message = [nl +:+ "💡 You may have hit quota limits for this shape"]).
Proof.
  intros Hr. split; [|split].
  - unfold OciControl.launch_and_report, OciControl.on_service_error, ubuntu_hint.
    run. rewrite Hr.
    destruct (Z.eqb status 404); [|destruct (contains "quota" (lower message));
      [|destruct (contains "shape" (lower message))]];
      (eexists; split; [reflexivity|]; split; [reflexivity|]);
      cbn [stdout emit log]; now rewrite <- ?app_assoc.
  - unfold LaunchStaging.launch_and_report, LaunchStaging.on_service_error, staging_hint.
    run. rewrite Hr. cbn [str_exn].
    destruct (contains "QuotaExceeded" text);
      (eexists; split; [reflexivity|]; split; [reflexivity|]);
      cbn [stdout emit log]; now rewrite <- ?app_assoc.
  - intros Hs Hq. unfold ubuntu_hint. apply Z.eqb_neq in Hs. now rewrite Hs, Hq.
Qed.

Lemma C7_launch_rejection_witness :
  let w := Mock.world Mock.over_quota in
  let d := OciControl.launch_details w Mock.arm_image Mock.private_subnet "AD-1" "ssh-rsa AAAA" in
  compute_launch_instance w d = Raise Mock.quota_in_message
  /\ (exists st',
        OciControl.launch_and_report w 5 d initial = Some (Ok tt, st')
        /\ calls st' = [LaunchInstance d]
        /\ stdout st' =
             [nl +:+ "❌ Failed to launch: Compartment Quota exceeded for standard-a1-core-count";
              "   Status: 400";
              "   Code: QuotaExceeded";
              nl +:+ "💡 You may have hit quota limits for this shape"])
  /\ (exists st',
        LaunchStaging.launch_and_report w (VStr Mock.tenancy) 5 d initial = Some (Ok None, st')
        /\ calls st' = [LaunchInstance d]
        /\ stdout st' =
             ["❌ Error launching instance: Compartment Quota exceeded for standard-a1-core-count";
              "   You may have reached your free tier limit";
              "   Try terminating unused instances first"])
  /\ ubuntu_hint 400 "Compartment Quota exceeded for standard-a1-core-count"
       = [nl +:+ "💡 You may have hit quota limits for this shape"].
Proof.
  cbv zeta.
  split; [reflexivity|].
  destruct (C7_launch_rejection (Mock.world Mock.over_quota) (VStr Mock.tenancy) 5
              (OciControl.launch_details (Mock.world Mock.over_quota) Mock.arm_image
                 Mock.private_subnet "AD-1" "ssh-rsa AAAA")
              initial 400%Z "QuotaExceeded"
              "Compartment Quota exceeded for standard-a1-core-count"
              "{'status': 400, 'code': 'QuotaExceeded', 'message': 'Compartment Quota exceeded for standard-a1-core-count'}"
              eq_refl)
    as ((su & Hu & Hcu & Hou) & (ss & Hs & Hcs & Hos) & Hhint).
  split; [|split].
  - exists su. split; [exact Hu|]. split; [exact Hcu|exact Hou].
  - exists ss. split; [exact Hs|]. split; [exact Hcs|exact Hos].
  - apply Hhint; [discriminate|reflexivity].
Defined.

(** C7, as stated, fails on launch_staging.py: the launch is rejected with
    code QuotaExceeded, the script prints the provider's message and its two
    free-tier lines, and no printed line contains "quota" in any letter case. *)
Lemma C7_staging_prints_no_quota_hint :
  let w := Mock.world Mock.out_of_quota in
  contains "QuotaExceeded" (str_exn Mock.quota_exceeded) = true
  /\ exists st,
       LaunchStaging.launch_staging_server w (VStr Mock.tenancy) 5 initial = Some (Ok None, st)
       /\ List.filter is_mutation (calls st)
            = [LaunchInstance (LaunchStaging.instance_details w (VStr Mock.tenancy)
                                 Mock.arm_image Mock.public_subnet "ssh-rsa AAAA demo@host")]
       /\ polls (calls st) = 0
       /\ List.forallb (fun line => negb (contains "quota" (lower line))) (stdout st) = true.
Proof.
  cbv zeta. split; [reflexivity|].
  eexists. split; [vm_compute; reflexivity|].
  split; [reflexivity|]. split; reflexivity.
Qed.

(** In oci-control.py a 404 takes precedence over the quota hint. *)
Example ubuntu_hint_404 :
  ubuntu_hint 404 "Quota exceeded or resource not found"
    = [nl +:+ "💡 Try using the root compartment (tenancy OCID)"]
  /\ ubuntu_hint 400 "Quota exceeded for shape"
    = [nl +:+ "💡 You may have hit quota limits for this shape"].
Proof. split; reflexivity. Qed.

(** ** C8: a RUNNING instance without a network interface *)

(** launch_staging.py reports the missing attachment with a line of its own and
    returns [None]; the attachment lookup is its only call. *)
Lemma staging_ip_unavailable (w : World) (c : value) (instance : Instance) (st : state) :
  compute_list_vnic_attachments w c (VStr (id instance)) = Ok [] ->
  LaunchStaging.discover_ip w c instance st =
    Some (Ok None,
          emit "❌ Could not get public IP"
            (log (ListVnicAttachments c (VStr (id instance))) st)).
Proof.
  intros H. unfold LaunchStaging.discover_ip. run. now rewrite H.
Qed.

(** [list_instances] and [get_instance] of the tool server guard the same
    lookup with [if vnic_attachments:] and fall back to "N/A". *)
Lemma listing_ip_unavailable (w : World) (c : value) (instance : Instance) (network : bool) :
  compute_list_vnic_attachments w c (VStr (id instance)) = Ok [] ->
  ip_of w true network c instance = "N/A".
Proof. intros H. unfold ip_of. now rewrite H. Qed.

(** oci-control.py says nothing in the same situation: the [if vnics:] has no
    [else], and the run ends after the line that announces the lookup. *)
Example ubuntu_ip_unavailable_is_silent :
  let w := Mock.world Mock.unattached in
  let d := OciControl.launch_details w Mock.arm_image Mock.private_subnet "AD-1" "ssh-rsa AAAA" in
  exists st,
    OciControl.launch_and_report w 5 d initial = Some (Ok tt, st)
    /\ List.last (stdout st) "" = nl +:+ "6️⃣  Getting public IP..."
    /\ List.last (calls st) (Sleep 0)
         = ListVnicAttachments (OciControl.compartment_id w) (VStr "ocid1.instance.oc1..test-1").
Proof. cbv zeta. eexists. split; [vm_compute; reflexivity|]. split; reflexivity. Qed.

(** C8 fails on [launch_instance] of the tool server.  The instance is
    launched and RUNNING, the attachment list is empty, and
    [vnic_attachments[0]] raises IndexError: the tool answers with the generic
    "Error executing ..." text instead of a report that the address is not
    available yet.  The instance is not terminated. *)
Theorem C8_launch_instance_index_error :
  let w := Mock.world Mock.unattached in
  let args : gmap string value := {[ "name" := VStr "test-1" ]} in
  (exists st,
     VanillaOracleMCP.launch_instance w args (Mock.ready w)
       = Some (Raise (Error "IndexError" "list index out of range"), st)
     /\ polled_states w 0 (calls st) = [Ok "RUNNING"]
     /\ List.last (calls st) (Sleep 0)
          = ListVnicAttachments (VStr Mock.tenancy) (VStr "ocid1.instance.oc1..test-1")
     /\ length (List.filter is_mutation (calls st)) = 1
     /\ List.forallb (fun c => match c with TerminateInstance _ => false | _ => true end)
          (calls st) = true)
  /\ (exists st,
     VanillaOracleMCP.call_tool w true "oci_instance_launch" args initial
       = Some (Ok (VanillaOracleMCP.text_content
                     "Error executing oci_instance_launch: list index out of range"), st)).
Proof.
  cbv zeta. split.
  - eexists. split; [vm_compute; reflexivity|].
    split; [reflexivity|]. split; [reflexivity|]. split; reflexivity.
  - eexists. vm_compute. reflexivity.
Qed.

(** ** C9: [call_tool] always answers *)

Section Totality.
Variable w : World.

Lemma total_ret {A} (a : A) : total (mret a : M A).
Proof. intros s. now exists (Ok a), s. Qed.

Lemma total_raise {A} (e : exn) : total (raise e : M A).
Proof. intros s. now exists (Raise e), s. Qed.



Lemma total_invoke {A} (c : call) (r : res A) : total (invoke c r).
Proof. intros s. now exists r, (log c s). Qed.

Lemma total_modify (f : state -> state) : total (modify f).
Proof. intros s. now exists (Ok tt), (f s). Qed.

Lemma total_print (line : string) : total (print line).
Proof. apply total_modify. Qed.

Lemma total_answer {A} (r : res A) : total (answer r).
Proof. intros s. now exists r, s. Qed.

Lemma total_gets {A} (f : state -> A) : total (gets f).
Proof. intros s. now exists (Ok (f s)), s. Qed.

Lemma total_get_instance (i : value) : total (Sdk.get_instance w i).
Proof. intros s. unfold Sdk.get_instance. eauto. Qed.

Lemma total_first {A} (l : list A) : total (Sdk.first l).
Proof. destruct l; [apply total_raise|apply total_ret]. Qed.



Lemma total_config_item (key : string) : total (VanillaOracleMCP.config_item key).
Proof.
  intros s. unfold VanillaOracleMCP.config_item.
  destruct (config s) as [c|]; [destruct (c !! key)|]; unfold raise; eauto.
Qed.

Lemma total_config_get (key : string) (d : value) : total (VanillaOracleMCP.config_get key d).
Proof.
  intros s. unfold VanillaOracleMCP.config_get.
  destruct (config s) as [c|]; unfold raise; eauto.
Qed.

Lemma total_item (args : gmap string value) (key : string) :
  total (VanillaOracleMCP.item args key).
Proof.
  unfold VanillaOracleMCP.item. destruct (args !! key); [apply total_ret|apply total_raise].
Qed.

End Totality.

Create HintDb total.

#[local] Hint Resolve total_ret total_raise total_invoke total_modify total_print
  total_answer total_gets total_get_instance total_first total_config_item
  total_config_get total_item : total.



Section Handlers.
Variable w : World.















End Handlers.



(** A server without environment variables and without a configuration file
    answers with the initialisation error. *)
Example call_tool_without_configuration :
  let w := Mock.world Mock.healthy in
  let bare : World :=
    {| compute_list_images := compute_list_images w;
       compute_launch_instance := compute_launch_instance w;
       compute_get_instance := compute_get_instance w;
       compute_list_instances := compute_list_instances w;
       compute_list_vnic_attachments := compute_list_vnic_attachments w;
       compute_terminate_instance := compute_terminate_instance w;
       network_list_vcns := network_list_vcns w;
       network_list_subnets := network_list_subnets w;
       network_get_vnic := network_get_vnic w;
       identity_list_availability_domains := identity_list_availability_domains w;
       wait_until_fetches := wait_until_fetches w;
       config_from_file := config_from_file w;
       new_compute_client := new_compute_client w;
       new_network_client := new_network_client w;
       os_getenv := fun _ => None;
       os_path_expanduser := os_path_expanduser w;
       home := home w;
       path_exists := path_exists w;
       read_text := read_text w;
       write_text := write_text w;
       json_dumps := json_dumps w;
       b64encode := b64encode w;
       repr := repr w;
       float_of_str := float_of_str w |} in
  exists st,
    VanillaOracleMCP.call_tool bare true "oci_instance_list" ∅ initial
      = Some (Ok [ {| type := "text";
                      text := "Error initializing OCI: Missing OCI configuration: user, key_file, fingerprint, tenancy" |} ],
              st)
    /\ compute_client st = false.
Proof. cbv zeta. eexists. split; [vm_compute; reflexivity|reflexivity]. Qed.

(** ** C10: the flexible-shape configuration of [launch_instance] *)

Section Launches.
Variable w : World.
Variable P : LaunchInstanceDetails -> Prop.

Lemma launches_ret {A} (a : A) : launches P (mret a : M A).
Proof. intros s r s' [= <- <-] d Hd. now left. Qed.

Lemma launches_raise {A} (e : exn) : launches P (raise e : M A).
Proof. intros s r s' [= <- <-] d Hd. now left. Qed.

Lemma launches_answer {A} (r : res A) : launches P (answer r).
Proof. intros s r' s' [= <- <-] d Hd. now left. Qed.

Lemma launches_invoke {A} (c : call) (r : res A) :
  (forall d, c = LaunchInstance d -> P d) -> launches P (invoke c r).
Proof.
  intros Hc s r' s' [= <- <-] d Hd. rewrite calls_log in Hd.
  apply elem_of_app in Hd as [Hd|Hd]; [now left|].
  apply list_elem_of_singleton in Hd. right. now apply Hc.
Qed.

Lemma launches_get_instance (i : value) : launches P (Sdk.get_instance w i).
Proof.
  intros s r' s' [= <- <-] d Hd. rewrite calls_log in Hd.
  apply elem_of_app in Hd as [Hd|Hd]; [now left|].
  apply list_elem_of_singleton in Hd. discriminate Hd.
Qed.

Lemma launches_bind {A B} (m : M A) (k : A -> M B) :
  launches P m ->
  (forall a s s', m s = Some (Ok a, s') -> launches P (k a)) ->
  launches P (m ≫= k).
Proof.
  intros Hm Hk s r s' Hrun d Hd. unfold mbind, M_bind in Hrun.
  destruct (m s) as [[[a|e] s1]|] eqn:Hms; [| |discriminate].
  - destruct (Hk a s s1 Hms s1 r s' Hrun d Hd) as [H1|HP]; [|now right].
    exact (Hm s (Ok a) s1 Hms d H1).
  - injection Hrun as <- <-. exact (Hm s (Raise e) s1 Hms d Hd).
Qed.

Lemma launches_try {A} (m : M A) (h : exn -> M A) :
  launches P m -> (forall e, launches P (h e)) -> launches P (try_except m h).
Proof.
  intros Hm Hh s r s' Hrun d Hd. unfold try_except in Hrun.
  destruct (m s) as [[[a|e] s1]|] eqn:Hms; [| |discriminate].
  - injection Hrun as <- <-. exact (Hm s (Ok a) s1 Hms d Hd).
  - destruct (Hh e s1 r s' Hrun d Hd) as [H1|HP]; [|now right].
    exact (Hm s (Raise e) s1 Hms d H1).
Qed.

Lemma launches_via_compute {A} (attr : string) (m : M A) :
  launches P m -> launches P (VanillaOracleMCP.via_compute attr m).
Proof.
  intros Hm s r s' Hrun. unfold VanillaOracleMCP.via_compute in Hrun.
  destruct (compute_client s); [exact (Hm s r s' Hrun)|].
  exact (launches_raise (VanillaOracleMCP.no_attribute attr) s r s' Hrun).
Qed.

Lemma launches_via_network {A} (attr : string) (m : M A) :
  launches P m -> launches P (VanillaOracleMCP.via_network attr m).
Proof.
  intros Hm s r s' Hrun. unfold VanillaOracleMCP.via_network in Hrun.
  destruct (network_client s); [exact (Hm s r s' Hrun)|].
  exact (launches_raise (VanillaOracleMCP.no_attribute attr) s r s' Hrun).
Qed.

Lemma launches_config_item (key : string) : launches P (VanillaOracleMCP.config_item key).
Proof.
  intros s r s' Hrun d Hd. unfold VanillaOracleMCP.config_item, raise in Hrun.
  destruct (config s) as [c|]; [destruct (c !! key)|];
    injection Hrun as <- <-; now left.
Qed.

Lemma launches_item (args : gmap string value) (key : string) :
  launches P (VanillaOracleMCP.item args key).
Proof.
  unfold VanillaOracleMCP.item.
  destruct (args !! key); [apply launches_ret|apply launches_raise].
Qed.

Lemma launches_first {A} (l : list A) : launches P (Sdk.first l).
Proof. destruct l; [apply launches_raise|apply launches_ret]. Qed.

Lemma launches_wait_until_loop (fetch : M Instance) (wanted : string) (fetches : nat) :
  launches P fetch ->
  forall response, launches P (VanillaOracleMCP.wait_until_loop fetches fetch wanted response).
Proof.
  intros Hf. induction fetches as [|n IH]; intros response;
    cbn [VanillaOracleMCP.wait_until_loop];
    destruct (String.eqb (lifecycle_state response) wanted);
    try apply launches_ret; try apply launches_raise.
  apply launches_bind; [exact Hf|]. intros a _ _ _. apply IH.
Qed.

End Launches.

(** The specification composed at lines 234-251. *)
Lemma launch_details_rule (w : World) (args : gmap string value)
    (name c : value) (ad image : string) (subnets : list Subnet) (key : string)
    (s s' : state) (d : LaunchInstanceDetails) :
  VanillaOracleMCP.launch_details w name
      (VanillaOracleMCP.get args "shape" (VStr "VM.Standard.A1.Flex"))
      (VanillaOracleMCP.get args "ocpus" (VInt 1))
      (VanillaOracleMCP.get args "memory_gb" (VInt 6))
      c ad image subnets key s = Some (Ok d, s') ->
  shape_config_rule w args d.
Proof.
  unfold VanillaOracleMCP.launch_details, shape_config_rule. run.
  destruct (VanillaOracleMCP.get args "shape" (VStr "VM.Standard.A1.Flex"))
    as [|b|z|q|shape]; cbn [VanillaOracleMCP.str_endswith]; try discriminate.
  destruct (endswith ".Flex" shape) eqn:Hflex.
  - destruct (VanillaOracleMCP.float w (VanillaOracleMCP.get args "ocpus" (VInt 1)))
      as [o|e]; [|discriminate].
    destruct (VanillaOracleMCP.float w (VanillaOracleMCP.get args "memory_gb" (VInt 6)))
      as [m|e]; [|discriminate].
    destruct subnets as [|subnet rest]; [discriminate|].
    intros [= <- <-]. exists shape. cbn. repeat split; eauto; discriminate.
  - destruct subnets as [|subnet rest]; [discriminate|].
    intros [= <- <-]. exists shape. cbn. repeat split; try congruence; discriminate.
Qed.

(** Splits a goal about the launch requests of a program along its structure;
    at the launch call itself the specification is the one composed by
    [launch_details]. *)
Ltac launch_step :=
  lazymatch goal with
  | |- launches _ (mbind _ _) => apply launches_bind; [|intros ? ? ? ?]
  | |- launches _ (try_except _ _) => apply launches_try; [|intros ?]
  | |- launches _ (VanillaOracleMCP.via_compute _ _) => apply launches_via_compute
  | |- launches _ (VanillaOracleMCP.via_network _ _) => apply launches_via_network
  | |- launches _ (invoke _ _) =>
      apply launches_invoke;
      let d := fresh "d" in let Hd := fresh "Hd" in
      intros d Hd; first [discriminate Hd
                         | injection Hd as <-; eapply launch_details_rule; eassumption]
  | |- launches _ (match ?x with _ => _ end) => destruct x
  | |- _ =>
      solve [eauto using launches_ret, launches_raise, launches_answer,
               launches_get_instance, launches_config_item, launches_item, launches_first]
  end.

(** Every launch request of [launch_instance] obeys the rule. *)
Lemma launch_instance_launches (w : World) (args : gmap string value) :
  launches (shape_config_rule w args) (VanillaOracleMCP.launch_instance w args).
Proof.
  unfold VanillaOracleMCP.launch_instance, VanillaOracleMCP.wait_until,
    Sdk.list_images, Sdk.launch_instance, Sdk.list_vnic_attachments, Sdk.list_vcns,
    Sdk.list_subnets, Sdk.get_vnic, Sdk.list_availability_domains, Sdk.read.
  repeat launch_step.
  - unfold VanillaOracleMCP.launch_details. repeat launch_step.
  - apply launches_wait_until_loop. repeat launch_step.
Qed.

(** C10.  Every launch request that [launch_instance] of the tool server
    sends carries the requested shape, and it carries a flexible-shape
    configuration if and only if the shape name ends with ".Flex"; the
    configuration then holds [float(ocpus)] and [float(memory_gb)] of the
    arguments (defaults 1 and 6).  For every other shape the request has no
    shape configuration, whatever [ocpus] and [memory_gb] were supplied. *)
Theorem C10_flex_shape_config (w : World) (args : gmap string value)
    (st st' : state) (r : res string) (d : LaunchInstanceDetails) :
  VanillaOracleMCP.launch_instance w args st = Some (r, st') ->
  LaunchInstance d ∈ calls st' ->
  LaunchInstance d ∉ calls st ->
  exists shape,
    VanillaOracleMCP.get args "shape" (VStr "VM.Standard.A1.Flex") = VStr shape
    /\ ld_shape d = VStr shape
    /\ (ld_shape_config d <> None <-> endswith ".Flex" shape = true)
    /\ (endswith ".Flex" shape = true ->
        exists o m,
          VanillaOracleMCP.float w (VanillaOracleMCP.get args "ocpus" (VInt 1)) = Ok o
          /\ VanillaOracleMCP.float w (VanillaOracleMCP.get args "memory_gb" (VInt 6)) = Ok m
          /\ ld_shape_config d = Some {| ocpus := o; memory_in_gbs := m |})
    /\ (endswith ".Flex" shape = false -> ld_shape_config d = None).
Proof.
  intros Hrun Hin Hnew.
  destruct (launch_instance_launches w args st r st' Hrun d Hin) as [Hold|Hrule];
    [contradiction|].
  destruct Hrule as (shape & Hs & Hd & Hiff & Hflex).
  exists shape. repeat split; try assumption; try apply Hiff.
  intros Hno. destruct (ld_shape_config d) as [cfg|] eqn:Hc; [|reflexivity].
  assert (Some cfg <> None) as Hne by discriminate.
  apply Hiff in Hne. congruence.
Qed.

Lemma C10_flex_shape_config_witness :
  let w := Mock.world Mock.quick in
  let flex : gmap string value :=
    {[ "name" := VStr "test-1"; "ocpus" := VInt 2; "memory_gb" := VInt 12 ]} in
  let micro : gmap string value :=
    {[ "name" := VStr "test-1"; "shape" := VStr "VM.Standard.E2.1.Micro";
       "ocpus" := VInt 2; "memory_gb" := VStr "plenty" ]} in
  (exists r st' d,
     VanillaOracleMCP.launch_instance w flex (Mock.ready w) = Some (r, st')
     /\ List.filter is_mutation (calls st') = [LaunchInstance d]
     /\ ld_shape d = VStr "VM.Standard.A1.Flex"
     /\ ld_shape_config d = Some {| ocpus := inject_Z 2; memory_in_gbs := inject_Z 12 |})
  /\ (exists r st' d,
     VanillaOracleMCP.launch_instance w micro (Mock.ready w) = Some (r, st')
     /\ List.filter is_mutation (calls st') = [LaunchInstance d]
     /\ ld_shape d = VStr "VM.Standard.E2.1.Micro"
     /\ ld_shape_config d = None).
Proof.
  cbv zeta. split.
  - destruct (VanillaOracleMCP.launch_instance (Mock.world Mock.quick)
                {[ "name" := VStr "test-1"; "ocpus" := VInt 2; "memory_gb" := VInt 12 ]}
                (Mock.ready (Mock.world Mock.quick))) as [[r st']|] eqn:Hrun;
      [|vm_compute in Hrun; discriminate Hrun].
    assert (Hcalls : exists d, List.filter is_mutation (calls st') = [LaunchInstance d]).
    { vm_compute in Hrun. injection Hrun as <- <-. eexists. reflexivity. }
    destruct Hcalls as [d Hcalls].
    assert (Hin : LaunchInstance d ∈ calls st').
    { apply list_elem_of_In. apply (List.filter_In is_mutation).
      rewrite Hcalls. now left. }
    destruct (C10_flex_shape_config _ _ _ _ _ d Hrun Hin (not_elem_of_nil _))
      as (shape & Hshape & Hd & _ & Hflex & _).
    vm_compute in Hshape. injection Hshape as <-.
    destruct (Hflex eq_refl) as (o & m & Ho & Hm & Hcfg).
    vm_compute in Ho. vm_compute in Hm. injection Ho as <-. injection Hm as <-.
    exists r, st', d. repeat split; assumption.
  - destruct (VanillaOracleMCP.launch_instance (Mock.world Mock.quick)
                {[ "name" := VStr "test-1"; "shape" := VStr "VM.Standard.E2.1.Micro";
                   "ocpus" := VInt 2; "memory_gb" := VStr "plenty" ]}
                (Mock.ready (Mock.world Mock.quick))) as [[r st']|] eqn:Hrun;
      [|vm_compute in Hrun; discriminate Hrun].
    assert (Hcalls : exists d, List.filter is_mutation (calls st') = [LaunchInstance d]).
    { vm_compute in Hrun. injection Hrun as <- <-. eexists. reflexivity. }
    destruct Hcalls as [d Hcalls].
    assert (Hin : LaunchInstance d ∈ calls st').
    { apply list_elem_of_In. apply (List.filter_In is_mutation).
      rewrite Hcalls. now left. }
    destruct (C10_flex_shape_config _ _ _ _ _ d Hrun Hin (not_elem_of_nil _))
      as (shape & Hshape & Hd & _ & _ & Hother).
    vm_compute in Hshape. injection Hshape as <-.
    exists r, st', d. repeat split; try assumption. now apply Hother.
Defined.

(** With a flexible shape a value that [float] rejects ends the call before
    any launch request; with a fixed shape it is never looked at. *)
Example flex_rejects_bad_memory :
  let w := Mock.world Mock.quick in
  let args : gmap string value := {[ "name" := VStr "test-1"; "memory_gb" := VStr "plenty" ]} in
  exists st,
    VanillaOracleMCP.launch_instance w args (Mock.ready w)
      = Some (Raise (Error "ValueError" "could not convert string to float: 'plenty'"), st)
    /\ List.filter is_mutation (calls st) = [].
Proof. cbv zeta. eexists. split; [vm_compute; reflexivity|reflexivity]. Qed.

(** * Further properties of the programs *)

(** ** What a program adds to the call log *)

Section Adds.
Variable w : World.
Variable P : call -> Prop.

Lemma adds_nothing {A} (k : nat) (m : M A) :
  (forall s r s', m s = Some (r, s') -> calls s' = calls s) -> adds P k m.
Proof.
  intros H s r s' Hrun. exists []. rewrite app_nil_r.
  split; [exact (H s r s' Hrun)|]. split; [constructor|cbn; lia].
Qed.

Lemma adds_ret {A} (k : nat) (a : A) : adds P k (mret a : M A).
Proof. apply adds_nothing. now intros s r s' [= <- <-]. Qed.

Lemma adds_raise {A} (k : nat) (e : exn) : adds P k (raise e : M A).
Proof. apply adds_nothing. now intros s r s' [= <- <-]. Qed.

Lemma adds_answer {A} (k : nat) (r : res A) : adds P k (answer r).
Proof. apply adds_nothing. now intros s r' s' [= <- <-]. Qed.

Lemma adds_gets {A} (k : nat) (f : state -> A) : adds P k (gets f).
Proof. apply adds_nothing. now intros s r' s' [= <- <-]. Qed.

Lemma adds_spinning {A} (k : nat) : adds P k (spinning : M A).
Proof. intros s r s' Hrun. discriminate Hrun. Qed.

Lemma adds_modify (k : nat) (f : state -> state) :
  (forall s, calls (f s) = calls s) -> adds P k (modify f).
Proof. intros Hf. apply adds_nothing. intros s r s' [= <- <-]. apply Hf. Qed.

Lemma adds_print (k : nat) (line : string) : adds P k (print line).
Proof. now apply adds_modify. Qed.

Lemma adds_invoke {A} (k : nat) (c : call) (r : res A) :
  P c -> (is_mutation c = true -> 1 <= k) -> adds P k (invoke c r).
Proof.
  intros Hc Hk s r' s' [= <- <-]. exists [c]. split; [reflexivity|].
  split; [now constructor|]. cbn. destruct (is_mutation c); cbn; [now apply Hk|lia].
Qed.

Lemma adds_get_instance (k : nat) (i : value) :
  P (GetInstance i) -> adds P k (Sdk.get_instance w i).
Proof.
  intros Hc s r' s' [= <- <-]. exists [GetInstance i]. split; [reflexivity|].
  split; [now constructor|]. cbn. lia.
Qed.

Lemma adds_bind {A B} (a b k : nat) (m : M A) (f : A -> M B) :
  adds P a m ->
  (forall x s s', m s = Some (Ok x, s') -> adds P b (f x)) ->
  a + b <= k ->
  adds P k (m ≫= f).
Proof.
  intros Hm Hf Hk s r s' Hrun. unfold mbind, M_bind in Hrun.
  destruct (m s) as [[[x|e] s1]|] eqn:Hms; [| |discriminate].
  - destruct (Hm s (Ok x) s1 Hms) as (n1 & H1 & HP1 & Hc1).
    destruct (Hf x s s1 Hms s1 r s' Hrun) as (n2 & H2 & HP2 & Hc2).
    exists (n1 ++ n2). split; [now rewrite H2, H1, app_assoc|].
    split; [now apply Forall_app|]. rewrite List.filter_app, length_app. lia.
  - injection Hrun as <- <-.
    destruct (Hm s (Raise e) s1 Hms) as (n1 & H1 & HP1 & Hc1).
    exists n1. repeat split; [assumption|assumption|lia].
Qed.

Lemma adds_try {A} (a b k : nat) (m : M A) (h : exn -> M A) :
  adds P a m -> (forall e, adds P b (h e)) -> a + b <= k -> adds P k (try_except m h).
Proof.
  intros Hm Hh Hk s r s' Hrun. unfold try_except in Hrun.
  destruct (m s) as [[[x|e] s1]|] eqn:Hms; [| |discriminate].
  - injection Hrun as <- <-.
    destruct (Hm s (Ok x) s1 Hms) as (n1 & H1 & HP1 & Hc1).
    exists n1. repeat split; [assumption|assumption|lia].
  - destruct (Hm s (Raise e) s1 Hms) as (n1 & H1 & HP1 & Hc1).
    destruct (Hh e s1 r s' Hrun) as (n2 & H2 & HP2 & Hc2).
    exists (n1 ++ n2). split; [now rewrite H2, H1, app_assoc|].
    split; [now apply Forall_app|]. rewrite List.filter_app, length_app. lia.
Qed.

Lemma adds_via_compute {A} (k : nat) (attr : string) (m : M A) :
  adds P k m -> adds P k (VanillaOracleMCP.via_compute attr m).
Proof.
  intros Hm s r s' Hrun. unfold VanillaOracleMCP.via_compute in Hrun.
  destruct (compute_client s); [exact (Hm s r s' Hrun)|].
  exact (adds_raise k (VanillaOracleMCP.no_attribute attr) s r s' Hrun).
Qed.

Lemma adds_via_network {A} (k : nat) (attr : string) (m : M A) :
  adds P k m -> adds P k (VanillaOracleMCP.via_network attr m).
Proof.
  intros Hm s r s' Hrun. unfold VanillaOracleMCP.via_network in Hrun.
  destruct (network_client s); [exact (Hm s r s' Hrun)|].
  exact (adds_raise k (VanillaOracleMCP.no_attribute attr) s r s' Hrun).
Qed.

Lemma adds_config_item (k : nat) (key : string) :
  adds P k (VanillaOracleMCP.config_item key).
Proof.
  apply adds_nothing. intros s r s' Hrun.
  unfold VanillaOracleMCP.config_item, raise in Hrun.
  destruct (config s) as [c|]; [destruct (c !! key)|]; now injection Hrun as <- <-.
Qed.

Lemma adds_config_get (k : nat) (key : string) (d : value) :
  adds P k (VanillaOracleMCP.config_get key d).
Proof.
  apply adds_nothing. intros s r s' Hrun.
  unfold VanillaOracleMCP.config_get, raise in Hrun.
  destruct (config s) as [c|]; now injection Hrun as <- <-.
Qed.

Lemma adds_item (k : nat) (args : gmap string value) (key : string) :
  adds P k (VanillaOracleMCP.item args key).
Proof.
  unfold VanillaOracleMCP.item. destruct (args !! key); [apply adds_ret|apply adds_raise].
Qed.

Lemma adds_first {A} (k : nat) (l : list A) : adds P k (Sdk.first l).
Proof. destruct l; [apply adds_raise|apply adds_ret]. Qed.

Lemma adds_wait_until_loop (k : nat) (fetch : M Instance) (wanted : string) (fetches : nat) :
  adds P 0 fetch ->
  forall response, adds P k (VanillaOracleMCP.wait_until_loop fetches fetch wanted response).
Proof.
  intros Hf. induction fetches as [|n IH]; intros response;
    cbn [VanillaOracleMCP.wait_until_loop];
    destruct (String.eqb (lifecycle_state response) wanted);
    try apply adds_ret; try apply adds_raise.
  apply (adds_bind 0 k); [exact Hf| |lia]. intros x _ _ _. apply IH.
Qed.

End Adds.

Create HintDb adds.

#[local] Hint Resolve adds_ret adds_raise adds_answer adds_gets adds_spinning adds_print
  adds_config_item adds_config_get adds_item adds_first : adds.

(** Splits a goal about the calls of a program along its structure.  The one
    call that may be a launch or a termination request takes the budget of its
    bind; everything around it has to do without. *)
Ltac adds_split k m :=
  lazymatch k with
  | 0 => constr:((0, 0))
  | _ => lazymatch m with
         | context [LaunchInstance] => constr:((k, 0))
         | context [TerminateInstance] => constr:((k, 0))
         | _ => constr:((0, k))
         end
  end.

Ltac adds_step :=
  lazymatch goal with
  | |- adds _ ?k (mbind _ ?m) =>
      let ab := adds_split k m in
      lazymatch ab with
      | (?a, ?b) => apply (adds_bind _ a b k); [|intros ? ? ? ?|lia]
      end
  | |- adds _ ?k (try_except ?m _) =>
      let ab := adds_split k m in
      lazymatch ab with
      | (?a, ?b) => apply (adds_try _ a b k); [|intros ?|lia]
      end
  | |- adds _ _ (VanillaOracleMCP.via_compute _ _) => apply adds_via_compute
  | |- adds _ _ (VanillaOracleMCP.via_network _ _) => apply adds_via_network
  | |- adds _ _ (invoke _ _) =>
      apply adds_invoke; [first [reflexivity | exact I] | intros ?; first [discriminate | lia]]
  | |- adds _ _ (Sdk.get_instance _ _) =>
      apply adds_get_instance; first [reflexivity | exact I]
  | |- adds _ _ (match ?x with _ => _ end) => destruct x
  | |- adds _ _ (let _ := _ in _) => cbv zeta
  | |- _ => solve [eauto with adds]
  end.

Ltac adds_all :=
  unfold Sdk.list_images, Sdk.launch_instance, Sdk.list_instances,
    Sdk.list_vnic_attachments, Sdk.terminate_instance, Sdk.list_vcns, Sdk.list_subnets,
    Sdk.get_vnic, Sdk.list_availability_domains, Sdk.sleep, Sdk.read, Sdk.write;
  repeat adds_step.

(** ** The launchers send at most one launch request and never terminate *)

Section OneLaunch.
Variable w : World.

Local Abbreviation spare := (fun c : call => is_terminate c = false).

Lemma ubuntu_wait_adds (k fuel : nat) : forall instance,
  adds spare k (OciControl.wait_running w fuel instance).
Proof.
  induction fuel as [|fuel IH]; intros instance; cbn [OciControl.wait_running];
    adds_all.
Qed.

Lemma ubuntu_launch_and_report_adds (fuel : nat) (d : LaunchInstanceDetails) :
  adds spare 1 (OciControl.launch_and_report w fuel d).
Proof.
  unfold OciControl.launch_and_report, OciControl.on_service_error.
  adds_all; auto using ubuntu_wait_adds.
Qed.

Lemma launch_ubuntu_adds (fuel : nat) : adds spare 1 (OciControl.launch_ubuntu w fuel).
Proof.
  unfold OciControl.launch_ubuntu, OciControl.find_images, OciControl.launch_with.
  adds_all; auto using ubuntu_launch_and_report_adds.
Qed.

Lemma staging_poll_adds (k fuel : nat) : forall instance,
  adds spare k (LaunchStaging.poll_until_running w fuel instance).
Proof.
  induction fuel as [|fuel IH]; intros instance; cbn [LaunchStaging.poll_until_running];
    adds_all.
Qed.

Lemma staging_launch_and_report_adds (c : value) (fuel : nat) (d : LaunchInstanceDetails) :
  adds spare 1 (LaunchStaging.launch_and_report w c fuel d).
Proof.
  unfold LaunchStaging.launch_and_report, LaunchStaging.on_service_error,
    LaunchStaging.wait_running, LaunchStaging.discover_ip.
  adds_all; auto using staging_poll_adds.
Qed.

Lemma launch_staging_server_adds (c : value) (fuel : nat) :
  adds spare 1 (LaunchStaging.launch_staging_server w c fuel).
Proof.
  unfold LaunchStaging.launch_staging_server, LaunchStaging.launch_with.
  adds_all; auto using staging_launch_and_report_adds.
Qed.

Lemma launch_instance_adds (args : gmap string value) :
  adds spare 1 (VanillaOracleMCP.launch_instance w args).
Proof.
  unfold VanillaOracleMCP.launch_instance, VanillaOracleMCP.wait_until,
    VanillaOracleMCP.launch_details.
  adds_all.
  apply adds_wait_until_loop. adds_all.
Qed.

End OneLaunch.

(** X1.  In every run that ends, [launch_ubuntu], [launch_staging_server] and
    the tool handler [launch_instance] only append to the call log, send at
    most one launch request, and send no termination request: a launch is
    never retried and a launched instance is never rolled back, whatever the
    provider answers. *)
Theorem X1_one_launch_no_rollback (w : World) (c : value) (args : gmap string value)
    (fuel : nat) :
  adds (fun c => is_terminate c = false) 1 (OciControl.launch_ubuntu w fuel)
  /\ adds (fun c => is_terminate c = false) 1 (LaunchStaging.launch_staging_server w c fuel)
  /\ adds (fun c => is_terminate c = false) 1 (VanillaOracleMCP.launch_instance w args).
Proof.
  split; [apply launch_ubuntu_adds|].
  split; [apply launch_staging_server_adds|apply launch_instance_adds].
Qed.

Lemma X1_one_launch_no_rollback_witness :
  let w := Mock.world Mock.terminated_then_running in
  exists r st' new,
    LaunchStaging.launch_staging_server w (VStr Mock.tenancy) 5 initial = Some (r, st')
    /\ calls st' = calls initial ++ new
    /\ Forall (fun c => is_terminate c = false) new
    /\ length (List.filter is_mutation new) <= 1.
Proof.
  cbv zeta.
  destruct (LaunchStaging.launch_staging_server (Mock.world Mock.terminated_then_running)
              (VStr Mock.tenancy) 5 initial) as [[r st']|] eqn:Hrun;
    [|vm_compute in Hrun; discriminate Hrun].
  destruct (X1_one_launch_no_rollback (Mock.world Mock.terminated_then_running)
              (VStr Mock.tenancy) ∅ 5) as (_ & Hstaging & _).
  destruct (Hstaging initial r st' Hrun) as (new & Hcalls & Hspare & Hone).
  exists r, st', new. repeat split; assumption.
Defined.

(** ** Tools that only read *)

Section ReadOnly.
Variable w : World.

Local Abbreviation any := (fun _ : call => True).

Lemma lookup_public_ip_adds c i : adds any 0 (VanillaOracleMCP.lookup_public_ip w c i).
Proof. unfold VanillaOracleMCP.lookup_public_ip. adds_all. Qed.

Lemma summaries_adds c instances : adds any 0 (VanillaOracleMCP.summaries w c instances).
Proof.
  induction instances as [|i rest IH]; cbn [VanillaOracleMCP.summaries];
    adds_all; auto using lookup_public_ip_adds.
Qed.

Lemma list_instances_adds args : adds any 0 (VanillaOracleMCP.list_instances w args).
Proof. unfold VanillaOracleMCP.list_instances. adds_all; auto using summaries_adds. Qed.

Lemma lookup_ips_adds c i : adds any 0 (VanillaOracleMCP.lookup_ips w c i).
Proof. unfold VanillaOracleMCP.lookup_ips. adds_all. Qed.

Lemma get_instance_adds args : adds any 0 (VanillaOracleMCP.get_instance w args).
Proof. unfold VanillaOracleMCP.get_instance. adds_all; auto using lookup_ips_adds. Qed.

Lemma networks_adds c vcns : adds any 0 (VanillaOracleMCP.networks w c vcns).
Proof.
  induction vcns as [|v rest IH]; cbn [VanillaOracleMCP.networks]; adds_all.
Qed.

Lemma list_networks_adds args : adds any 0 (VanillaOracleMCP.list_networks w args).
Proof. unfold VanillaOracleMCP.list_networks. adds_all; auto using networks_adds. Qed.

Lemma check_config_adds args : adds any 0 (VanillaOracleMCP.check_config w args).
Proof. unfold VanillaOracleMCP.check_config. adds_all. Qed.

Lemma initialize_oci_adds : adds any 0 (VanillaOracleMCP.initialize_oci w).
Proof.
  unfold VanillaOracleMCP.initialize_oci, VanillaOracleMCP.load_config.
  adds_all; now apply adds_modify.
Qed.

Lemma terminate_instance_adds args :
  adds (fun c => is_launch c = false) 1 (VanillaOracleMCP.terminate_instance w args).
Proof. unfold VanillaOracleMCP.terminate_instance. adds_all. Qed.

End ReadOnly.

(** X2.  A tool call whose name is neither [oci_instance_launch] nor
    [oci_instance_terminate] is read-only: in any state of the server and
    against any provider, initialisation included, it sends no launch and no
    termination request. *)
Theorem X2_other_tools_read_only (w : World) (HAS_OCI : bool) (name : string)
    (arguments : gmap string value) :
  name <> "oci_instance_launch" ->
  name <> "oci_instance_terminate" ->
  adds (fun _ => True) 0 (VanillaOracleMCP.call_tool w HAS_OCI name arguments).
Proof.
  intros Hl Ht. apply String.eqb_neq in Hl, Ht.
  unfold VanillaOracleMCP.call_tool, VanillaOracleMCP.handlers. rewrite Hl, Ht.
  repeat match goal with
         | |- context [String.eqb name ?n] => destruct (String.eqb name n)
         end;
    cbv iota; adds_all; auto using initialize_oci_adds, list_instances_adds, get_instance_adds,
    list_networks_adds, check_config_adds.
Qed.

Lemma X2_other_tools_read_only_witness :
  let w := Mock.world Mock.flaky in
  exists r st' new,
    VanillaOracleMCP.call_tool w true "oci_instance_list" ∅ initial = Some (r, st')
    /\ calls st' = calls initial ++ new
    /\ length (List.filter is_mutation new) <= 0.
Proof.
  cbv zeta.
  destruct (VanillaOracleMCP.call_tool (Mock.world Mock.flaky) true "oci_instance_list" ∅ initial)
    as [[r st']|] eqn:Hrun; [|vm_compute in Hrun; discriminate Hrun].
  destruct (X2_other_tools_read_only (Mock.world Mock.flaky) true "oci_instance_list" ∅
              ltac:(discriminate) ltac:(discriminate) initial r st' Hrun)
    as (new & Hcalls & _ & Hnone).
  exists r, st', new. repeat split; assumption.
Defined.

(** ** The handlers print nothing and leave [self] alone *)

Lemma same_self_trans s1 s2 s3 : same_self s1 s2 -> same_self s2 s3 -> same_self s1 s3.
Proof. intros (? & ? & ? & ?) (? & ? & ? & ?). repeat split; congruence. Qed.

Section Silent.
Variable w : World.

Lemma silent_ret {A} (a : A) : silent (mret a : M A).
Proof. intros s r s' [= <- <-]. apply same_self_refl. Qed.

Lemma silent_raise {A} (e : exn) : silent (raise e : M A).
Proof. intros s r s' [= <- <-]. apply same_self_refl. Qed.

Lemma silent_answer {A} (r : res A) : silent (answer r).
Proof. intros s r' s' [= <- <-]. apply same_self_refl. Qed.

Lemma silent_invoke {A} (c : call) (r : res A) : silent (invoke c r).
Proof. intros s r' s' [= <- <-]. now repeat split. Qed.

Lemma silent_get_instance (i : value) : silent (Sdk.get_instance w i).
Proof. intros s r' s' [= <- <-]. now repeat split. Qed.

Lemma silent_bind {A B} (m : M A) (f : A -> M B) :
  silent m -> (forall x, silent (f x)) -> silent (m ≫= f).
Proof.
  intros Hm Hf s r s' Hrun. unfold mbind, M_bind in Hrun.
  destruct (m s) as [[[x|e] s1]|] eqn:Hms; [| |discriminate].
  - exact (same_self_trans _ _ _ (Hm s _ s1 Hms) (Hf x s1 r s' Hrun)).
  - injection Hrun as <- <-. exact (Hm s _ s1 Hms).
Qed.

Lemma silent_try {A} (m : M A) (h : exn -> M A) :
  silent m -> (forall e, silent (h e)) -> silent (try_except m h).
Proof.
  intros Hm Hh s r s' Hrun. unfold try_except in Hrun.
  destruct (m s) as [[[x|e] s1]|] eqn:Hms; [| |discriminate].
  - injection Hrun as <- <-. exact (Hm s _ s1 Hms).
  - exact (same_self_trans _ _ _ (Hm s _ s1 Hms) (Hh e s1 r s' Hrun)).
Qed.

Lemma silent_via_compute {A} (attr : string) (m : M A) :
  silent m -> silent (VanillaOracleMCP.via_compute attr m).
Proof.
  intros Hm s r s' Hrun. unfold VanillaOracleMCP.via_compute in Hrun.
  destruct (compute_client s); [exact (Hm s r s' Hrun)|].
  exact (silent_raise (VanillaOracleMCP.no_attribute attr) s r s' Hrun).
Qed.

Lemma silent_via_network {A} (attr : string) (m : M A) :
  silent m -> silent (VanillaOracleMCP.via_network attr m).
Proof.
  intros Hm s r s' Hrun. unfold VanillaOracleMCP.via_network in Hrun.
  destruct (network_client s); [exact (Hm s r s' Hrun)|].
  exact (silent_raise (VanillaOracleMCP.no_attribute attr) s r s' Hrun).
Qed.

Lemma silent_config_item (key : string) : silent (VanillaOracleMCP.config_item key).
Proof.
  intros s r s' Hrun. unfold VanillaOracleMCP.config_item, raise in Hrun.
  destruct (config s) as [c|]; [destruct (c !! key)|];
    injection Hrun as <- <-; apply same_self_refl.
Qed.

Lemma silent_config_get (key : string) (d : value) :
  silent (VanillaOracleMCP.config_get key d).
Proof.
  intros s r s' Hrun. unfold VanillaOracleMCP.config_get, raise in Hrun.
  destruct (config s) as [c|]; injection Hrun as <- <-; apply same_self_refl.
Qed.

Lemma silent_item (args : gmap string value) (key : string) :
  silent (VanillaOracleMCP.item args key).
Proof.
  unfold VanillaOracleMCP.item. destruct (args !! key); [apply silent_ret|apply silent_raise].
Qed.

Lemma silent_first {A} (l : list A) : silent (Sdk.first l).
Proof. destruct l; [apply silent_raise|apply silent_ret]. Qed.

Lemma silent_wait_until_loop (fetch : M Instance) (wanted : string) (fetches : nat) :
  silent fetch ->
  forall response, silent (VanillaOracleMCP.wait_until_loop fetches fetch wanted response).
Proof.
  intros Hf. induction fetches as [|n IH]; intros response;
    cbn [VanillaOracleMCP.wait_until_loop];
    destruct (String.eqb (lifecycle_state response) wanted);
    try apply silent_ret; try apply silent_raise.
  apply silent_bind; [exact Hf|exact IH].
Qed.

End Silent.

Create HintDb silent.

#[local] Hint Resolve silent_ret silent_raise silent_answer silent_invoke
  silent_get_instance silent_config_item silent_config_get silent_item silent_first
  : silent.

Ltac silent_step :=
  lazymatch goal with
  | |- silent (mbind _ _) => apply silent_bind; [|intros ?]
  | |- silent (try_except _ _) => apply silent_try; [|intros ?]
  | |- silent (VanillaOracleMCP.via_compute _ _) => apply silent_via_compute
  | |- silent (VanillaOracleMCP.via_network _ _) => apply silent_via_network
  | |- silent (match ?x with _ => _ end) => destruct x
  | |- silent (let _ := _ in _) => cbv zeta
  | |- _ => solve [eauto with silent]
  end.

Ltac silent_all :=
  unfold Sdk.list_images, Sdk.launch_instance, Sdk.list_instances,
    Sdk.list_vnic_attachments, Sdk.terminate_instance, Sdk.list_vcns, Sdk.list_subnets,
    Sdk.get_vnic, Sdk.list_availability_domains, Sdk.sleep, Sdk.read, Sdk.write;
  repeat silent_step.

Section SilentHandlers.
Variable w : World.

Lemma silent_launch_instance args : silent (VanillaOracleMCP.launch_instance w args).
Proof.
  unfold VanillaOracleMCP.launch_instance, VanillaOracleMCP.wait_until,
    VanillaOracleMCP.launch_details.
  silent_all. apply silent_wait_until_loop. silent_all.
Qed.

Lemma silent_lookup_public_ip c i : silent (VanillaOracleMCP.lookup_public_ip w c i).
Proof. unfold VanillaOracleMCP.lookup_public_ip. silent_all. Qed.

Lemma silent_summaries c instances : silent (VanillaOracleMCP.summaries w c instances).
Proof.
  induction instances as [|i rest IH]; cbn [VanillaOracleMCP.summaries];
    silent_all; auto using silent_lookup_public_ip.
Qed.

Lemma silent_list_instances args : silent (VanillaOracleMCP.list_instances w args).
Proof. unfold VanillaOracleMCP.list_instances. silent_all; auto using silent_summaries. Qed.

Lemma silent_terminate_instance args : silent (VanillaOracleMCP.terminate_instance w args).
Proof. unfold VanillaOracleMCP.terminate_instance. silent_all. Qed.

Lemma silent_lookup_ips c i : silent (VanillaOracleMCP.lookup_ips w c i).
Proof. unfold VanillaOracleMCP.lookup_ips. silent_all. Qed.

Lemma silent_get_instance_tool args : silent (VanillaOracleMCP.get_instance w args).
Proof. unfold VanillaOracleMCP.get_instance. silent_all; auto using silent_lookup_ips. Qed.

Lemma silent_networks c vcns : silent (VanillaOracleMCP.networks w c vcns).
Proof.
  induction vcns as [|v rest IH]; cbn [VanillaOracleMCP.networks]; silent_all.
Qed.

Lemma silent_list_networks args : silent (VanillaOracleMCP.list_networks w args).
Proof. unfold VanillaOracleMCP.list_networks. silent_all; auto using silent_networks. Qed.

Lemma silent_check_config args : silent (VanillaOracleMCP.check_config w args).
Proof. unfold VanillaOracleMCP.check_config. silent_all. Qed.

Lemma silent_handlers name handler args :
  VanillaOracleMCP.handlers w name = Some handler -> silent (handler args).
Proof.
  unfold VanillaOracleMCP.handlers. intros H.
  repeat match type of H with
         | (if ?b then _ else _) = _ => destruct b
         end;
    inversion H; subst;
    auto using silent_launch_instance, silent_list_instances, silent_terminate_instance,
      silent_get_instance_tool, silent_list_networks, silent_check_config.
Qed.

End SilentHandlers.

(** X3.  Once the server is initialised, a tool call (whatever its name,
    arguments and outcome) prints nothing and changes neither [self.config]
    nor the client handles; in particular it does not initialise again. *)
Theorem X3_call_tool_keeps_self (w : World) (HAS_OCI : bool) (name : string)
    (arguments : gmap string value) (st st' : state) (r : res (list TextContent)) :
  compute_client st = true ->
  VanillaOracleMCP.call_tool w HAS_OCI name arguments st = Some (r, st') ->
  config st' = config st
  /\ compute_client st' = true
  /\ network_client st' = network_client st
  /\ stdout st' = stdout st.
Proof.
  intros Hcc Hrun.
  assert (Hsame : same_self st st').
  { unfold VanillaOracleMCP.call_tool in Hrun.
    destruct HAS_OCI; cbn [negb] in Hrun;
      [|injection Hrun as <- <-; apply same_self_refl].
    unfold mbind at 1, M_bind at 1, gets in Hrun. rewrite Hcc in Hrun. cbn iota in Hrun.
    unfold mbind at 1, M_bind at 1, mret, M_ret in Hrun.
    destruct (VanillaOracleMCP.handlers w name) as [handler|] eqn:Hh;
      [|injection Hrun as <- <-; apply same_self_refl].
    unfold try_except, mbind, M_bind in Hrun.
    destruct (handler arguments st) as [[[t|e] s1]|] eqn:Hhandler; [| |discriminate];
      injection Hrun as <- <-; exact (silent_handlers w name handler arguments Hh st _ s1 Hhandler). }
  destruct Hsame as (? & ? & ? & ?). repeat split; congruence.
Qed.

Lemma X3_call_tool_keeps_self_witness :
  let w := Mock.world Mock.unattached in
  let args : gmap string value := {[ "name" := VStr "test-1" ]} in
  exists r st',
    VanillaOracleMCP.call_tool w true "oci_instance_launch" args (Mock.ready w) = Some (r, st')
    /\ config st' = config (Mock.ready w)
    /\ compute_client st' = true
    /\ network_client st' = true
    /\ stdout st' = [].
Proof.
  cbv zeta.
  destruct (VanillaOracleMCP.call_tool (Mock.world Mock.unattached) true "oci_instance_launch"
              {[ "name" := VStr "test-1" ]} (Mock.ready (Mock.world Mock.unattached)))
    as [[r st']|] eqn:Hrun; [|vm_compute in Hrun; discriminate Hrun].
  destruct (X3_call_tool_keeps_self (Mock.world Mock.unattached) true "oci_instance_launch"
              {[ "name" := VStr "test-1" ]} (Mock.ready (Mock.world Mock.unattached)) st' r
              eq_refl Hrun) as (H1 & H2 & H3 & H4).
  exists r, st'. repeat split; assumption.
Defined.

(** ** [initialize_oci]: where the configuration comes from *)

Section Configuration.
Variable w : World.

Lemma env_config_tenancy :
  (list_to_map (VanillaOracleMCP.env_config w) : gmap string value) !! "tenancy"
    = Some (of_option (os_getenv w "OCI_TENANCY_OCID")).
Proof.
  unfold VanillaOracleMCP.env_config. cbn [list_to_map foldr].
  rewrite !lookup_insert_ne by discriminate. apply lookup_insert_eq.
Qed.

Lemma env_config_region :
  (list_to_map (VanillaOracleMCP.env_config w) : gmap string value) !! "region"
    = Some (VStr (default "us-phoenix-1" (os_getenv w "OCI_REGION"))).
Proof.
  unfold VanillaOracleMCP.env_config. cbn [list_to_map foldr].
  rewrite !lookup_insert_ne by discriminate. apply lookup_insert_eq.
Qed.

Lemma in_missing (key : string) :
  key ∈ VanillaOracleMCP.missing w <->
  exists v, (key, v) ∈ VanillaOracleMCP.env_config w /\ truthy v = false.
Proof.
  unfold VanillaOracleMCP.missing. rewrite list_elem_of_fmap. split.
  - intros ([k v] & -> & Hin). apply list_elem_of_In, List.filter_In in Hin as [Hin Hv].
    exists v. split; [now apply list_elem_of_In|]. now apply negb_true_iff in Hv.
  - intros (v & Hin & Hv). exists (key, v). split; [reflexivity|].
    apply list_elem_of_In, List.filter_In. split; [now apply list_elem_of_In|].
    cbn. now rewrite Hv.
Qed.

Lemma falsy_of_option (o : option string) :
  truthy (of_option o) = false <-> o = None \/ o = Some "".
Proof.
  destruct o as [s|]; cbn.
  - rewrite negb_false_iff, String.eqb_eq. split; [intros ->; now right|].
    intros [H|[= ->]]; [discriminate|reflexivity].
  - split; [now left|reflexivity].
Qed.

Lemma missing_key (key var : string) :
  (forall v, (key, v) ∈ VanillaOracleMCP.env_config w -> v = of_option (os_getenv w var)) ->
  (key, of_option (os_getenv w var)) ∈ VanillaOracleMCP.env_config w ->
  key ∈ VanillaOracleMCP.missing w <-> os_getenv w var = None \/ os_getenv w var = Some "".
Proof.
  intros Honly Hin. rewrite in_missing. split.
  - intros (v & Hv & Hf). apply Honly in Hv as ->. now apply falsy_of_option.
  - intros H. eexists. split; [exact Hin|]. now apply falsy_of_option.
Qed.

End Configuration.

(** Decides which entry of [env_config] a membership hypothesis is about. *)
Ltac env_entry H :=
  unfold VanillaOracleMCP.env_config in H;
  repeat (apply elem_of_cons in H as [H|H];
          [first [discriminate H | injection H as ->; reflexivity]|]);
  now apply elem_of_nil in H.

(** X4.  A setting counts as missing exactly when its environment variable is
    unset or empty; the region falls back to "us-phoenix-1" when unset, so it
    is missing only when [OCI_REGION] is set to the empty string. *)
Theorem X4_missing_settings (w : World) :
  ("user" ∈ VanillaOracleMCP.missing w <->
     os_getenv w "OCI_USER_OCID" = None \/ os_getenv w "OCI_USER_OCID" = Some "")
  /\ ("key_file" ∈ VanillaOracleMCP.missing w <->
     os_getenv w "OCI_KEY_FILE" = None \/ os_getenv w "OCI_KEY_FILE" = Some "")
  /\ ("fingerprint" ∈ VanillaOracleMCP.missing w <->
     os_getenv w "OCI_FINGERPRINT" = None \/ os_getenv w "OCI_FINGERPRINT" = Some "")
  /\ ("tenancy" ∈ VanillaOracleMCP.missing w <->
     os_getenv w "OCI_TENANCY_OCID" = None \/ os_getenv w "OCI_TENANCY_OCID" = Some "")
  /\ ("region" ∈ VanillaOracleMCP.missing w <-> os_getenv w "OCI_REGION" = Some "").
Proof.
  split; [|split; [|split; [|split]]].
  - apply missing_key; [intros v H; env_entry H|].
    unfold VanillaOracleMCP.env_config. set_solver.
  - apply missing_key; [intros v H; env_entry H|].
    unfold VanillaOracleMCP.env_config. set_solver.
  - apply missing_key; [intros v H; env_entry H|].
    unfold VanillaOracleMCP.env_config. set_solver.
  - apply missing_key; [intros v H; env_entry H|].
    unfold VanillaOracleMCP.env_config. set_solver.
  - rewrite in_missing. split.
    + intros (v & Hin & Hv).
      assert (v = VStr (default "us-phoenix-1" (os_getenv w "OCI_REGION"))) as ->
        by env_entry Hin.
      cbn in Hv. apply negb_false_iff, String.eqb_eq in Hv.
      destruct (os_getenv w "OCI_REGION") as [r|]; cbn in Hv; [now subst|discriminate].
    + intros H. exists (VStr ""). split; [|reflexivity].
      unfold VanillaOracleMCP.env_config. rewrite H. set_solver.
Qed.



(** Without environment and without configuration file, every setting but
    the region is reported missing and no client is built. *)
Example initialize_oci_without_configuration :
  let w := Mock.without_environment (Mock.world Mock.healthy) in
  exists st,
    VanillaOracleMCP.initialize_oci w initial
      = Some (Raise (Error "ValueError"
                       "Missing OCI configuration: user, key_file, fingerprint, tenancy"), st)
    /\ compute_client st = false.
Proof. cbv zeta. eexists. split; [vm_compute; reflexivity|reflexivity]. Qed.

(** X6.  When [ComputeClient] is built and [VirtualNetworkClient] raises, the
    tool call that initialised answers with the initialisation error and the
    server stays half initialised: the compute client exists, the network
    client does not.  Later calls do not initialise again (X3), and
    [oci_network_list] then fails on the missing client. *)
Theorem X6_half_initialised (w : World) (name : string) (arguments later : gmap string value)
    (st : state) (e : exn) :
  let env : gmap string value := list_to_map (VanillaOracleMCP.env_config w) in
  compute_client st = false ->
  network_client st = false ->
  VanillaOracleMCP.missing w = [] ->
  new_compute_client w env = Ok tt ->
  new_network_client w env = Raise e ->
  let st' := set_compute_client (set_config env st) in
  VanillaOracleMCP.call_tool w true name arguments st
    = Some (Ok (VanillaOracleMCP.text_content ("Error initializing OCI: " +:+ str_exn e)), st')
  /\ VanillaOracleMCP.call_tool w true "oci_network_list" later st'
    = Some (Ok (VanillaOracleMCP.text_content
                  "Error executing oci_network_list: 'NoneType' object has no attribute 'list_vcns'"),
            st').
Proof.
  cbv zeta. intros Hcc Hnc Hm Hc Hn. split.
  - unfold VanillaOracleMCP.call_tool, VanillaOracleMCP.initialize_oci,
      VanillaOracleMCP.load_config.
    cbn [negb]. run. rewrite Hcc. cbv beta iota. rewrite Hm. cbv beta iota. rewrite Hc. cbv beta iota.
    rewrite Hn. reflexivity.
  - unfold VanillaOracleMCP.call_tool, VanillaOracleMCP.handlers. cbn [negb String.eqb Ascii.eqb Bool.eqb].
    unfold VanillaOracleMCP.list_networks, VanillaOracleMCP.config_item,
      VanillaOracleMCP.via_network.
    run. cbn [compute_client network_client config set_compute_client set_config].
    rewrite env_config_tenancy. cbv beta iota.
    change (network_client (set_compute_client (set_config (list_to_map (VanillaOracleMCP.env_config w)) st)))
      with (network_client st).
    rewrite Hnc. reflexivity.
Qed.

Lemma X6_half_initialised_witness :
  let w := Mock.network_client_fails (Mock.world Mock.healthy) in
  exists st',
    VanillaOracleMCP.call_tool w true "oci_instance_list" ∅ initial
      = Some (Ok (VanillaOracleMCP.text_content "Error initializing OCI: invalid key file"), st')
    /\ compute_client st' = true
    /\ network_client st' = false
    /\ VanillaOracleMCP.call_tool w true "oci_network_list" ∅ st'
       = Some (Ok (VanillaOracleMCP.text_content
                     "Error executing oci_network_list: 'NoneType' object has no attribute 'list_vcns'"),
               st').
Proof.
  cbv zeta.
  destruct (X6_half_initialised (Mock.network_client_fails (Mock.world Mock.healthy))
              "oci_instance_list" ∅ ∅ initial (Error "ConfigError" "invalid key file")
              eq_refl eq_refl eq_refl eq_refl eq_refl) as [Hfirst Hlater].
  eexists. split; [exact Hfirst|]. split; [reflexivity|]. split; [reflexivity|exact Hlater].
Defined.

(** ** [list_networks]: all or nothing *)

Section Networks.
Variable w : World.
Variable c : value.

Local Abbreviation subnets_call := (fun v : Vcn => ListSubnets c (Some (vcn_id v))).

Lemma networks_listed (vcns : list Vcn) : forall st,
  network_client st = true ->
  (forall v, v ∈ vcns -> exists subnets,
     network_list_subnets w c (Some (vcn_id v)) = Ok subnets) ->
  exists result st',
    VanillaOracleMCP.networks w c vcns st = Some (Ok result, st')
    /\ length result = length vcns
    /\ calls st' = calls st ++ (subnets_call <$> vcns).
Proof.
  induction vcns as [|v rest IH]; intros st Hn Hok; cbn [VanillaOracleMCP.networks].
  - exists [], st. cbn. now rewrite app_nil_r.
  - destruct (Hok v) as [subnets Hv]; [left|].
    destruct (IH (log (subnets_call v) st)) as (result & st' & Hrun & Hlen & Hcalls);
      [exact Hn|intros x Hx; apply Hok; now right|].
    do 2 eexists. split; [|split].
    + unfold VanillaOracleMCP.via_network, Sdk.list_subnets. run. rewrite Hn, Hv.
      cbv beta iota. rewrite Hrun. reflexivity.
    + cbn. now rewrite Hlen.
    + rewrite Hcalls. cbn [calls log fmap list_fmap]. now rewrite <- app_assoc.
Qed.

Lemma networks_aborted (before after : list Vcn) (v : Vcn) (e : exn) : forall st,
  network_client st = true ->
  (forall x, x ∈ before -> exists subnets,
     network_list_subnets w c (Some (vcn_id x)) = Ok subnets) ->
  network_list_subnets w c (Some (vcn_id v)) = Raise e ->
  exists st',
    VanillaOracleMCP.networks w c (before ++ v :: after) st = Some (Raise e, st')
    /\ calls st' = calls st ++ (subnets_call <$> before ++ [v]).
Proof.
  induction before as [|x rest IH]; intros st Hn Hok Hv;
    cbn [app VanillaOracleMCP.networks].
  - eexists. split.
    + unfold VanillaOracleMCP.via_network, Sdk.list_subnets. run. rewrite Hn, Hv. reflexivity.
    + reflexivity.
  - destruct (Hok x) as [subnets Hx]; [left|].
    destruct (IH (log (subnets_call x) st)) as (st' & Hrun & Hcalls);
      [exact Hn|intros y Hy; apply Hok; now right|exact Hv|].
    eexists. split.
    + unfold VanillaOracleMCP.via_network, Sdk.list_subnets. run. rewrite Hn, Hx.
      cbv beta iota. rewrite Hrun. reflexivity.
    + rewrite Hcalls. cbn [calls log fmap list_fmap app]. now rewrite <- app_assoc.
Qed.

End Networks.

(** X7.  [list_networks] lists the VCNs once and then the subnets of every
    VCN, in the order listed, and reports one entry per VCN.  It has no
    partial result: when the subnet query of one VCN raises, the tool raises
    that exception, and the VCNs after it are not queried. *)
Theorem X7_list_networks_all_or_nothing (w : World) (args cfg : gmap string value)
    (c : value) (vcns : list Vcn) (st : state) :
  config st = Some cfg ->
  cfg !! "tenancy" = Some c ->
  network_client st = true ->
  network_list_vcns w c = Ok vcns ->
  ((forall v, v ∈ vcns -> exists subnets,
      network_list_subnets w c (Some (vcn_id v)) = Ok subnets) ->
   exists result st',
     VanillaOracleMCP.list_networks w args st
       = Some (Ok (json_dumps w (JObj [ ("total_vcns", JInt (Z.of_nat (length vcns)));
                                        ("networks", JArr result) ])), st')
     /\ length result = length vcns
     /\ calls st' = calls st ++ ListVcns c :: ((fun v => ListSubnets c (Some (vcn_id v))) <$> vcns))
  /\ (forall before v after e,
      vcns = before ++ v :: after ->
      (forall x, x ∈ before -> exists subnets,
         network_list_subnets w c (Some (vcn_id x)) = Ok subnets) ->
      network_list_subnets w c (Some (vcn_id v)) = Raise e ->
      exists st',
        VanillaOracleMCP.list_networks w args st = Some (Raise e, st')
        /\ calls st' = calls st ++ ListVcns c
                         :: ((fun v => ListSubnets c (Some (vcn_id v))) <$> before ++ [v])).
Proof.
  intros Hcfg Ht Hn Hvcns. split.
  - intros Hok.
    destruct (networks_listed w c vcns (log (ListVcns c) st) Hn Hok)
      as (result & st' & Hrun & Hlen & Hcalls).
    exists result, st'. split; [|split; [exact Hlen|]].
    + unfold VanillaOracleMCP.list_networks, VanillaOracleMCP.config_item,
        VanillaOracleMCP.via_network, Sdk.list_vcns.
      run. rewrite Hcfg, Ht. cbv beta iota. rewrite Hn, Hvcns. cbv beta iota.
      rewrite Hrun. now rewrite Hlen.
    + rewrite Hcalls. cbn [calls log]. now rewrite <- app_assoc.
  - intros before v after e -> Hok Hv.
    destruct (networks_aborted w c before after v e (log (ListVcns c) st) Hn Hok Hv)
      as (st' & Hrun & Hcalls).
    exists st'. split.
    + unfold VanillaOracleMCP.list_networks, VanillaOracleMCP.config_item,
        VanillaOracleMCP.via_network, Sdk.list_vcns.
      run. rewrite Hcfg, Ht. cbv beta iota. rewrite Hn, Hvcns. cbv beta iota.
      rewrite Hrun. reflexivity.
    + rewrite Hcalls. cbn [calls log]. now rewrite <- app_assoc.
Qed.

Lemma X7_list_networks_all_or_nothing_witness :
  let c := VStr Mock.tenancy in
  let subnets_of := fun v : Vcn => ListSubnets c (Some (vcn_id v)) in
  (exists result st',
     VanillaOracleMCP.list_networks (Mock.world Mock.healthy) ∅ (Mock.ready (Mock.world Mock.healthy))
       = Some (Ok (json_dumps (Mock.world Mock.healthy)
                     (JObj [ ("total_vcns", JInt 1); ("networks", JArr result) ])), st')
     /\ length result = 1
     /\ calls st' = [ListVcns c; subnets_of Mock.vcn])
  /\ (exists st',
     VanillaOracleMCP.list_networks Mock.second_vcn_fails ∅ (Mock.ready Mock.second_vcn_fails)
       = Some (Raise Mock.conflict, st')
     /\ calls st' = [ListVcns c; subnets_of Mock.vcn; subnets_of Mock.broken_vcn]).
Proof.
  cbv zeta. split.
  - destruct (X7_list_networks_all_or_nothing (Mock.world Mock.healthy) ∅
                (list_to_map (VanillaOracleMCP.env_config (Mock.world Mock.healthy)))
                (VStr Mock.tenancy) [Mock.vcn] (Mock.ready (Mock.world Mock.healthy))
                eq_refl (env_config_tenancy _) eq_refl eq_refl) as [Hall _].
    destruct Hall as (result & st' & Hrun & Hlen & Hcalls).
    { intros v Hv. eexists. reflexivity. }
    exists result, st'. repeat split; assumption.
  - destruct (X7_list_networks_all_or_nothing Mock.second_vcn_fails ∅
                (list_to_map (VanillaOracleMCP.env_config Mock.second_vcn_fails))
                (VStr Mock.tenancy) [Mock.vcn; Mock.broken_vcn; Mock.vcn]
                (Mock.ready Mock.second_vcn_fails)
                eq_refl (env_config_tenancy _) eq_refl eq_refl) as [_ Hnone].
    destruct (Hnone [Mock.vcn] Mock.broken_vcn [Mock.vcn] Mock.conflict eq_refl)
      as (st' & Hrun & Hcalls).
    { intros x Hx. apply list_elem_of_singleton in Hx as ->. eexists. reflexivity. }
    { reflexivity. }
    exists st'. split; assumption.
Defined.

(** ** The command line of oci-control.py *)

Section Commands.
Variable w : World.

Lemma print_instances_lines (instances : list Instance) : forall st,
  exists st',
    OciControl.print_instances instances st = Some (Ok tt, st')
    /\ calls st' = calls st
    /\ length (stdout st') = length (stdout st) + 5 * length instances
    /\ (forall i, i ∈ instances -> ("  ID: " +:+ id i) ∈ stdout st')
    /\ (forall line, line ∈ stdout st -> line ∈ stdout st').
Proof.
  induction instances as [|i rest IH]; intros st; cbn [OciControl.print_instances].
  - exists st. split; [reflexivity|]. split; [reflexivity|]. split; [cbn; lia|].
    split; [intros i Hi; now apply elem_of_nil in Hi|auto].
  - destruct (IH (emit "" (emit ("  Shape: " +:+ shape i)
                 (emit ("  State: " +:+ lifecycle_state i)
                 (emit ("  ID: " +:+ id i) (emit ("• " +:+ display_name i) st))))))
      as (st' & Hrun & Hcalls & Hlen & Hids & Hkeep).
    exists st'. split; [run; exact Hrun|]. split; [exact Hcalls|]. split; [|split].
    + rewrite Hlen. cbn [stdout emit length]. rewrite !length_app. cbn. lia.
    + intros x Hx. apply elem_of_cons in Hx as [->|Hx]; [|now apply Hids].
      apply Hkeep. cbn [stdout emit]. set_solver.
    + intros line Hl. apply Hkeep. cbn [stdout emit]. set_solver.
Qed.

Lemma list_all_adds : adds (fun c => is_mutation c = false) 0 (OciControl.list_all w).
Proof.
  unfold OciControl.list_all. adds_all.
  match goal with |- adds _ _ (OciControl.print_instances ?l) =>
    intros s1 r s2 Hrun; destruct (print_instances_lines l s1) as (st' & Hp & Hcalls & _)
  end.
  rewrite Hp in Hrun. injection Hrun as <- <-. exists []. rewrite app_nil_r.
  split; [exact Hcalls|]. split; [constructor|cbn; lia].
Qed.

Lemma script_terminate_adds (i : string) :
  adds (fun c => is_launch c = false) 1 (OciControl.terminate w i).
Proof. unfold OciControl.terminate. adds_all. Qed.

End Commands.

(** X8.  [list_all] of oci-control.py asks the provider for the instances
    once and nothing else; it prints the heading and five lines per instance,
    the id of every instance among them. *)
Theorem X8_list_all (w : World) (listed : list Instance) (st : state) :
  compute_list_instances w (OciControl.compartment_id w) None = Ok listed ->
  exists st',
    OciControl.list_all w st = Some (Ok tt, st')
    /\ calls st' = calls st ++ [ListInstances (OciControl.compartment_id w) None]
    /\ length (stdout st') = length (stdout st) + 1 + 5 * length listed
    /\ (forall i, i ∈ listed -> ("  ID: " +:+ id i) ∈ stdout st').
Proof.
  intros Hl.
  destruct (print_instances_lines listed
              (log (ListInstances (OciControl.compartment_id w) None)
                 (emit ("📋 Your instances:" +:+ nl) st)))
    as (st' & Hrun & Hcalls & Hlen & Hids & _).
  exists st'. split; [|split; [exact Hcalls|split; [|exact Hids]]].
  - unfold OciControl.list_all. run. rewrite Hl. exact Hrun.
  - rewrite Hlen. cbn [stdout emit log]. rewrite length_app. cbn. lia.
Qed.

Lemma X8_list_all_witness :
  let w := Mock.world Mock.healthy in
  exists st',
    OciControl.list_all w initial = Some (Ok tt, st')
    /\ calls st' = [ListInstances (VStr Mock.tenancy) None]
    /\ length (stdout st') = 11
    /\ "  ID: ocid1.instance.oc1..old" ∈ stdout st'.
Proof.
  cbv zeta.
  destruct (X8_list_all (Mock.world Mock.healthy)
              [Mock.instance "test-1" "RUNNING"; Mock.instance "old" "STOPPED"] initial eq_refl)
    as (st' & Hrun & Hcalls & Hlen & Hids).
  exists st'. split; [exact Hrun|]. split; [exact Hcalls|]. split; [exact Hlen|].
  apply (Hids (Mock.instance "old" "STOPPED")). set_solver.
Defined.

(** X9.  [terminate] of oci-control.py sends the termination request without
    looking the instance up, and never raises: it prints "Termination
    started" when the provider accepts the request and the provider's error
    when it does not. *)
Theorem X9_script_terminate (w : World) (instance_id : string) (st : state) :
  OciControl.terminate w instance_id st =
    Some (Ok tt,
          emit (match compute_terminate_instance w (VStr instance_id) with
                | Ok _ => "✓ Termination started"
                | Raise e => "❌ Failed: " +:+ str_exn e
                end)
            (log (TerminateInstance (VStr instance_id))
               (emit ("🗑️  Terminating " +:+ instance_id +:+ "...") st))).
Proof.
  unfold OciControl.terminate. run.
  destruct (compute_terminate_instance w (VStr instance_id)) as [[]|e]; reflexivity.
Qed.

(** X10.  The command line of oci-control.py.  An instance is launched only
    when the script is run without arguments: with any argument no launch
    request is sent.  [--list] lists, [--terminate <id>] terminates [<id>], and
    anything else, [--terminate] without an id included, prints the usage line
    and calls nothing. *)
Theorem X10_command_line (w : World) (script arg : string) (rest : list string)
    (fuel : nat) (st : state) :
  let usage := "Usage: python3 oci-simple.py [--list | --terminate <id>]" in
  adds (fun c => is_launch c = false) 1 (OciControl.main w (script :: arg :: rest) fuel)
  /\ OciControl.main w [script; "--list"] fuel st = OciControl.list_all w st
  /\ OciControl.main w [script; "--terminate"] fuel st = Some (Ok tt, emit usage st)
  /\ OciControl.main w (script :: "--terminate" :: arg :: rest) fuel st
       = OciControl.terminate w arg st
  /\ (arg <> "--list" -> arg <> "--terminate" ->
      OciControl.main w (script :: arg :: rest) fuel st = Some (Ok tt, emit usage st))
  /\ OciControl.main w [script] fuel st = OciControl.launch_ubuntu w fuel st.
Proof.
  cbv zeta. split; [|split; [|split; [|split; [|split]]]]; try reflexivity.
  - unfold OciControl.main. cbn [length Nat.ltb Nat.leb nth].
    destruct (String.eqb arg "--list"); [|destruct (_ && _)].
    + intros s r s' Hrun. destruct (list_all_adds w s r s' Hrun) as (new & H1 & H2 & H3).
      exists new. split; [exact H1|]. split; [|lia].
      eapply Forall_impl; [exact H2|]. intros [] Hc; cbn in *; congruence.
    + apply script_terminate_adds.
    + apply adds_print.
  - intros Hl Ht. apply String.eqb_neq in Hl, Ht.
    unfold OciControl.main. cbn [length Nat.ltb Nat.leb nth]. now rewrite Hl, Ht.
Qed.

Lemma X10_command_line_witness :
  let w := Mock.world Mock.healthy in
  exists st',
    OciControl.main w ["oci-control.py"; "--launch"; "now"] 5 initial = Some (Ok tt, st')
    /\ calls st' = []
    /\ stdout st' = ["Usage: python3 oci-simple.py [--list | --terminate <id>]"].
Proof.
  cbv zeta.
  destruct (X10_command_line (Mock.world Mock.healthy) "oci-control.py" "--launch" ["now"]
              5 initial) as (_ & _ & _ & _ & Husage & _).
  eexists. split; [apply Husage; discriminate|]. split; reflexivity.
Defined.

(** ** The subnet and the SSH key of a launch *)

Lemma find_public_listed (subnets : list Subnet) (subnet : Subnet) :
  LaunchStaging.find_public subnets = Some subnet ->
  subnet ∈ subnets /\ contains_ci "public" (subnet_display_name subnet) = true.
Proof.
  induction subnets as [|s rest IH]; cbn [LaunchStaging.find_public]; [discriminate|].
  destruct (contains "public" (lower (subnet_display_name s))) eqn:Hs.
  - intros [= <-]. split; [left|exact Hs].
  - intros H. destruct (IH H) as [Hin Hm]. split; [now right|exact Hm].
Qed.

(** X11.  The subnet [launch_staging_server] launches into is always one of
    the listed subnets, and there is none only when the provider lists no
    subnet at all.  Among several subnets whose name contains "public" the one
    listed first wins, and a subnet without "public" in its name is chosen only
    when no listed subnet has it. *)
Theorem X11_subnet_choice (listed : list Subnet) :
  (LaunchStaging.public_subnet listed = None <-> listed = [])
  /\ (forall subnet, LaunchStaging.public_subnet listed = Some subnet -> subnet ∈ listed)
  /\ (forall before subnet after,
        listed = before ++ subnet :: after ->
        contains_ci "public" (subnet_display_name subnet) = true ->
        (forall s, s ∈ before -> contains_ci "public" (subnet_display_name s) = false) ->
        LaunchStaging.public_subnet listed = Some subnet)
  /\ (forall subnet,
        LaunchStaging.public_subnet listed = Some subnet ->
        contains_ci "public" (subnet_display_name subnet) = false ->
        forall s, s ∈ listed -> contains_ci "public" (subnet_display_name s) = false).
Proof.
  unfold LaunchStaging.public_subnet. split; [|split; [|split]].
  - destruct (LaunchStaging.find_public listed) eqn:Hf.
    + split; [discriminate|]. intros ->. discriminate Hf.
    + destruct listed; split; congruence.
  - intros subnet. destruct (LaunchStaging.find_public listed) eqn:Hf.
    + intros [= <-]. now apply find_public_listed.
    + destruct listed; [discriminate|]. intros [= <-]. left.
  - intros before subnet after -> Hm Hb. now rewrite find_public_split.
  - intros subnet. destruct (LaunchStaging.find_public listed) as [found|] eqn:Hf.
    + intros [= <-] Hno. apply find_public_listed in Hf as [_ Hyes]. congruence.
    + intros _ _ s Hs. destruct (contains_ci "public" (subnet_display_name s)) eqn:Hc;
        [|reflexivity].
      apply list_elem_of_split in Hs as (b & a & ->).
      assert (Hex : exists x, LaunchStaging.find_public (b ++ s :: a) = Some x).
      { clear Hf. induction b as [|y b IH]; cbn [app LaunchStaging.find_public].
        - change (contains "public" (lower (subnet_display_name s))) with
            (contains_ci "public" (subnet_display_name s)).
          rewrite Hc. eauto.
        - destruct (contains "public" (lower (subnet_display_name y))); eauto. }
      destruct Hex as [x Hx]. congruence.
Qed.

Lemma X11_subnet_choice_witness :
  let dmz : Subnet :=
    {| subnet_id := "ocid1.subnet.oc1..dmz"; subnet_display_name := "public-dmz";
       subnet_cidr_block := "10.0.2.0/24"; subnet_availability_domain := "AD-3" |} in
  LaunchStaging.public_subnet [Mock.private_subnet; Mock.public_subnet; dmz]
    = Some Mock.public_subnet.
Proof.
  cbv zeta.
  destruct (X11_subnet_choice
              [Mock.private_subnet; Mock.public_subnet;
               {| subnet_id := "ocid1.subnet.oc1..dmz"; subnet_display_name := "public-dmz";
                  subnet_cidr_block := "10.0.2.0/24"; subnet_availability_domain := "AD-3" |}])
    as (_ & _ & Hfirst & _).
  apply (Hfirst [Mock.private_subnet] Mock.public_subnet
           [{| subnet_id := "ocid1.subnet.oc1..dmz"; subnet_display_name := "public-dmz";
               subnet_cidr_block := "10.0.2.0/24"; subnet_availability_domain := "AD-3" |}]);
    [reflexivity|reflexivity|].
  intros s Hs. apply list_elem_of_singleton in Hs as ->. reflexivity.
Defined.

Lemma invoke_ok {A} (c : call) (r : res A) (x : A) (s s' : state) :
  invoke c r s = Some (Ok x, s') -> r = Ok x.
Proof. now intros [= -> _]. Qed.

Lemma answer_ok {A} (r : res A) (x : A) (s s' : state) :
  answer r s = Some (Ok x, s') -> r = Ok x.
Proof. now intros [= -> _]. Qed.

(** The key file was asked for and read in the same run: impossible when it
    cannot be read. *)
Ltac key_was_read :=
  match goal with
  | Hkey : key_unreadable _ _,
    Hpath : answer (os_path_expanduser _ _) _ = Some (Ok ?p, _),
    Hread : invoke (ReadText ?p) _ _ = Some (Ok _, _) |- _ =>
      apply answer_ok in Hpath; apply invoke_ok in Hread;
      destruct (Hkey _ Hpath) as [? Hno]; congruence
  end.

Section NoKey.
Variable w : World.

Lemma staging_without_key (c : value) (fuel : nat) :
  path_exists w (home w +:+ "/.ssh/staging_deploy.pub") = false ->
  adds (fun c => is_query c = true) 0 (LaunchStaging.launch_staging_server w c fuel).
Proof.
  intros Hkey. unfold LaunchStaging.launch_staging_server, LaunchStaging.launch_with.
  cbv zeta. rewrite Hkey. cbn [negb]. adds_all.
Qed.

Lemma ubuntu_without_key (fuel : nat) :
  key_unreadable w (VStr "~/.ssh/id_rsa.pub") ->
  adds (fun c => is_mutation c = false) 0 (OciControl.launch_ubuntu w fuel).
Proof.
  intros Hkey. unfold OciControl.launch_ubuntu, OciControl.find_images, OciControl.launch_with.
  adds_all; key_was_read.
Qed.

End NoKey.

Lemma tool_without_key (w : World) (args : gmap string value) :
  key_unreadable w (VanillaOracleMCP.get args "ssh_key_path" (VStr "~/.ssh/id_rsa.pub")) ->
  adds (fun c => is_mutation c = false) 0 (VanillaOracleMCP.launch_instance w args).
Proof.
  intros Hkey. unfold VanillaOracleMCP.launch_instance.
  adds_all.
  all: match goal with
       | Hpath : answer (os_path_expanduser _ _) _ = Some (Ok ?p, _),
         Hread : try_except _ _ _ = Some (Ok (Some _), _) |- _ =>
           apply answer_ok in Hpath; destruct (Hkey _ Hpath) as [e Hno];
           unfold try_except, mbind, M_bind, invoke in Hread; rewrite Hno in Hread;
           discriminate Hread
       end.
Qed.

(** X12.  No program launches an instance it could not log into.  When
    [~/.ssh/staging_deploy.pub] does not exist, [launch_staging_server] only
    queries the provider: it reads no file and sends no request.  When the
    public key cannot be read, neither [launch_ubuntu] nor the tool handler
    [launch_instance] sends a launch request. *)
Theorem X12_no_key_no_launch (w : World) (c : value) (args : gmap string value) (fuel : nat) :
  (path_exists w (home w +:+ "/.ssh/staging_deploy.pub") = false ->
   adds (fun c => is_query c = true) 0 (LaunchStaging.launch_staging_server w c fuel))
  /\ (key_unreadable w (VStr "~/.ssh/id_rsa.pub") ->
      adds (fun c => is_mutation c = false) 0 (OciControl.launch_ubuntu w fuel))
  /\ (key_unreadable w (VanillaOracleMCP.get args "ssh_key_path" (VStr "~/.ssh/id_rsa.pub")) ->
      adds (fun c => is_mutation c = false) 0 (VanillaOracleMCP.launch_instance w args)).
Proof.
  split; [apply staging_without_key|].
  split; [apply ubuntu_without_key|apply tool_without_key].
Qed.

Lemma X12_no_key_no_launch_witness :
  let w := Mock.unreadable (Mock.world Mock.healthy) in
  let args : gmap string value := {[ "name" := VStr "test-1" ]} in
  (exists st,
     LaunchStaging.launch_staging_server w (VStr Mock.tenancy) 5 initial = Some (Ok None, st)
     /\ Forall (fun c => is_query c = true) (calls st))
  /\ (exists st,
     OciControl.launch_ubuntu w 5 initial
       = Some (Raise (Error "FileNotFoundError" "No such file or directory"), st)
     /\ List.filter is_mutation (calls st) = [])
  /\ (exists st,
     VanillaOracleMCP.launch_instance w args (Mock.ready w)
       = Some (Ok "Error: Cannot read SSH key from /home/demo/.ssh/id_rsa.pub", st)
     /\ List.filter is_mutation (calls st) = []).
Proof.
  cbv zeta.
  destruct (X12_no_key_no_launch (Mock.unreadable (Mock.world Mock.healthy))
              (VStr Mock.tenancy) {[ "name" := VStr "test-1" ]} 5) as (Hs & Hu & Ht).
  assert (Hkey : forall p, key_unreadable (Mock.unreadable (Mock.world Mock.healthy)) p).
  { intros p expanded _. eexists. reflexivity. }
  split; [|split].
  - destruct (LaunchStaging.launch_staging_server _ _ _ _) as [[r st]|] eqn:Hrun;
      [|vm_compute in Hrun; discriminate Hrun].
    destruct (Hs eq_refl initial r st Hrun) as (new & Hnew & HP & _).
    exists st. split; [vm_compute in Hrun; injection Hrun as <- _; reflexivity|].
    cbn [calls initial app] in Hnew. rewrite Hnew. exact HP.
  - destruct (OciControl.launch_ubuntu _ _ _) as [[r st]|] eqn:Hrun;
      [|vm_compute in Hrun; discriminate Hrun].
    destruct (Hu (Hkey _) initial r st Hrun) as (new & Hnew & _ & Hk).
    exists st. split; [vm_compute in Hrun; injection Hrun as <- _; reflexivity|].
    cbn [calls initial app] in Hnew. rewrite Hnew.
    destruct (List.filter is_mutation new); [reflexivity|cbn in Hk; lia].
  - destruct (VanillaOracleMCP.launch_instance _ _ _) as [[r st]|] eqn:Hrun;
      [|vm_compute in Hrun; discriminate Hrun].
    destruct (Ht (Hkey _) _ r st Hrun) as (new & Hnew & _ & Hk).
    exists st. split; [vm_compute in Hrun; injection Hrun as <- _; reflexivity|].
    cbn [calls Mock.ready app] in Hnew. rewrite Hnew.
    destruct (List.filter is_mutation new); [reflexivity|cbn in Hk; lia].
Defined.

(** ** What the launch requests ask for *)

(** A program that sends no launch or termination request sends no launch
    request. *)
Lemma adds_launches {A} (P : call -> Prop) (Q : LaunchInstanceDetails -> Prop) (m : M A) :
  adds P 0 m -> launches Q m.
Proof.
  intros Hm s r s' Hrun d Hd. destruct (Hm s r s' Hrun) as (new & Hnew & _ & Hk).
  rewrite Hnew in Hd. apply elem_of_app in Hd as [Hd|Hd]; [now left|].
  exfalso. assert (Hin : In (LaunchInstance d) (List.filter is_mutation new)).
  { apply List.filter_In. split; [now apply list_elem_of_In|reflexivity]. }
  destruct (List.filter is_mutation new); [destruct Hin|cbn in Hk; lia].
Qed.

(** Walks a program up to its launch call, keeping what the run has shown
    about the answers on the way. *)
Ltac request_step :=
  lazymatch goal with
  | |- launches _ (mbind _ _) => apply launches_bind; [|intros ? ? ? ?]
  | |- launches _ (try_except _ _) => apply launches_try; [|intros ?]
  | |- launches _ (VanillaOracleMCP.via_compute _ (invoke (LaunchInstance _) _)) => fail
  | |- launches _ (VanillaOracleMCP.via_compute _ _) => apply launches_via_compute
  | |- launches _ (VanillaOracleMCP.via_network _ _) => apply launches_via_network
  | |- launches _ (invoke (LaunchInstance _) _) => fail
  | |- launches _ (invoke _ _) =>
      apply launches_invoke; let d := fresh "d" in let Hd := fresh "Hd" in
      intros d Hd; discriminate Hd
  | |- launches _ (match ?x with _ => _ end) =>
      first [is_var x; destruct x | destruct x eqn:?]
  | |- launches _ (let _ := _ in _) => cbv zeta
  | |- _ =>
      solve [eauto using launches_ret, launches_raise, launches_answer,
               launches_get_instance, launches_config_item, launches_item, launches_first]
  end.

Ltac request_walk :=
  unfold Sdk.list_images, Sdk.launch_instance, Sdk.list_instances,
    Sdk.list_vnic_attachments, Sdk.terminate_instance, Sdk.list_vcns, Sdk.list_subnets,
    Sdk.get_vnic, Sdk.list_availability_domains, Sdk.sleep, Sdk.read, Sdk.write;
  repeat request_step.

Lemma launches_print (P : LaunchInstanceDetails -> Prop) (line : string) :
  launches P (print line).
Proof. intros s r s' [= <- <-] d Hd. now left. Qed.

Lemma first_ok {A} (l : list A) (x : A) (s s' : state) :
  Sdk.first l s = Some (Ok x, s') -> exists rest, l = x :: rest.
Proof. destruct l as [|y rest]; [discriminate|]. intros [= <- _]. eauto. Qed.

Section Requests.
Variable w : World.

Lemma find_images_ok (images : list Image) (s s' : state) :
  let c := OciControl.compartment_id w in
  let images_of := compute_list_images w c (VStr "Canonical Ubuntu") (VStr "22.04") in
  OciControl.find_images w s = Some (Ok images, s') ->
  (images <> [] /\ images_of (Some (VStr "VM.Standard.A1.Flex")) = Ok images)
  \/ (images_of (Some (VStr "VM.Standard.A1.Flex")) = Ok [] /\ images_of None = Ok images).
Proof.
  cbv zeta. unfold OciControl.find_images. run.
  destruct (compute_list_images w _ _ _ (Some _)) as [[|image rest]|e]; [| |discriminate].
  - run. intros [= -> _]. now right.
  - intros [= <- _]. left. split; [discriminate|reflexivity].
Qed.

Lemma ubuntu_request_sent (fuel : nat) :
  launches (ubuntu_request w) (OciControl.launch_ubuntu w fuel).
Proof.
  unfold OciControl.launch_ubuntu, OciControl.launch_with,
    OciControl.launch_and_report, OciControl.on_service_error.
  request_walk.
  all: try apply launches_print.
  all: try (apply (adds_launches (fun c => is_terminate c = false)); apply ubuntu_wait_adds).
  - apply (adds_launches (fun c => is_terminate c = false)).
    unfold OciControl.find_images. adds_all.
  - apply launches_invoke. intros d [= <-].
    repeat match goal with
           | H : invoke _ _ _ = Some (Ok _, _) |- _ => apply invoke_ok in H
           | H : answer _ _ = Some (Ok _, _) |- _ => apply answer_ok in H
           | H : Sdk.first _ _ = Some (Ok _, _) |- _ => apply first_ok in H as [? ->]
           | H : OciControl.find_images _ _ = Some (Ok _, _) |- _ =>
               apply find_images_ok in H; cbv zeta in H
           end.
    unfold ubuntu_request. cbv zeta.
    do 9 eexists. split; [|repeat (split; [eassumption|]); reflexivity].
    match goal with
    | H : _ \/ _ |- _ =>
        let He := fresh "He" in let Hi := fresh "Hi" in
        destruct H as [[_ Hi]|[He Hi]]; [left|right; split; [exact He|]]; eauto
    end.
Qed.

End Requests.

Ltac answers :=
  repeat match goal with
         | H : invoke _ _ _ = Some (Ok _, _) |- _ => apply invoke_ok in H
         | H : answer _ _ = Some (Ok _, _) |- _ => apply answer_ok in H
         | H : Sdk.first _ _ = Some (Ok _, _) |- _ => apply first_ok in H as [? ->]
         end.

Lemma staging_request_sent (w : World) (c : value) (fuel : nat) :
  launches (staging_request w c) (LaunchStaging.launch_staging_server w c fuel).
Proof.
  unfold LaunchStaging.launch_staging_server, LaunchStaging.launch_with,
    LaunchStaging.launch_and_report, LaunchStaging.on_service_error,
    LaunchStaging.wait_running, LaunchStaging.discover_ip.
  request_walk.
  all: try apply launches_print.
  all: try (apply (adds_launches (fun c => is_terminate c = false)); apply staging_poll_adds).
  apply launches_invoke. intros d [= <-]. answers.
  apply negb_false_iff in Heqb.
  unfold staging_request. do 5 eexists. repeat (split; [eassumption|]). reflexivity.
Qed.

Lemma read_key_ok (w : World) (path key : string) (s s' : state) :
  try_except (text ← Sdk.read w path; mret (Some (strip text))) (fun _ => mret None) s
    = Some (Ok (Some key), s') ->
  exists text, read_text w path = Ok text /\ key = strip text.
Proof.
  unfold try_except, Sdk.read. run.
  destruct (read_text w path) as [text|e]; run; intros [= <- _]; eauto.
Qed.

Lemma via_compute_ok {A} (attr : string) (c : call) (r : res A) (x : A) (s s' : state) :
  VanillaOracleMCP.via_compute attr (invoke c r) s = Some (Ok x, s') -> r = Ok x.
Proof.
  unfold VanillaOracleMCP.via_compute. destruct (compute_client s); [apply invoke_ok|].
  discriminate.
Qed.

Lemma via_network_ok {A} (attr : string) (c : call) (r : res A) (x : A) (s s' : state) :
  VanillaOracleMCP.via_network attr (invoke c r) s = Some (Ok x, s') -> r = Ok x.
Proof.
  unfold VanillaOracleMCP.via_network. destruct (network_client s); [apply invoke_ok|].
  discriminate.
Qed.

Lemma item_ok (args : gmap string value) (key : string) (v : value) (s s' : state) :
  VanillaOracleMCP.item args key s = Some (Ok v, s') -> args !! key = Some v.
Proof.
  unfold VanillaOracleMCP.item. destruct (args !! key); [|discriminate].
  now intros [= -> _].
Qed.

Lemma launch_details_ok (w : World) (name shape ocpus memory_gb c : value)
    (ad image : string) (subnets : list Subnet) (key : string)
    (s s' : state) (d : LaunchInstanceDetails) :
  VanillaOracleMCP.launch_details w name shape ocpus memory_gb c ad image subnets key s
    = Some (Ok d, s') ->
  exists subnet rest,
    subnets = subnet :: rest
    /\ ld_display_name d = name /\ ld_compartment_id d = c /\ ld_availability_domain d = ad
    /\ ld_image_id d = Some image
    /\ ld_create_vnic_details d = {| cv_subnet_id := subnet_id subnet; assign_public_ip := true |}
    /\ ld_metadata d = [("ssh_authorized_keys", key)].
Proof.
  unfold VanillaOracleMCP.launch_details. run.
  destruct (VanillaOracleMCP.str_endswith shape ".Flex") as [[|]|e]; [| |discriminate].
  - destruct (VanillaOracleMCP.float w ocpus) as [o|e]; [|discriminate].
    destruct (VanillaOracleMCP.float w memory_gb) as [m|e]; [|discriminate].
    destruct subnets as [|subnet rest]; [discriminate|].
    intros [= <- _]. exists subnet, rest. repeat split.
  - destruct subnets as [|subnet rest]; [discriminate|].
    intros [= <- _]. exists subnet, rest. repeat split.
Qed.

Lemma tool_request_sent (w : World) (args : gmap string value) :
  launches (tool_request w args) (VanillaOracleMCP.launch_instance w args).
Proof.
  unfold VanillaOracleMCP.launch_instance, VanillaOracleMCP.wait_until.
  request_walk.
  all: try (apply launches_wait_until_loop; request_walk).
  - unfold VanillaOracleMCP.launch_details. request_walk.
  - apply launches_via_compute, launches_invoke. intros d [= <-].
    repeat match goal with
           | H : VanillaOracleMCP.item _ _ _ = Some (Ok _, _) |- _ => apply item_ok in H
           | H : VanillaOracleMCP.via_compute _ _ _ = Some (Ok _, _) |- _ =>
               apply via_compute_ok in H
           | H : VanillaOracleMCP.via_network _ _ _ = Some (Ok _, _) |- _ =>
               apply via_network_ok in H
           | H : try_except _ _ _ = Some (Ok (Some _), _) |- _ =>
               apply (read_key_ok w) in H as (? & ? & ->)
           | H : VanillaOracleMCP.launch_details _ _ _ _ _ _ _ _ _ _ _ = Some (Ok _, _) |- _ =>
               apply launch_details_ok in H as (? & ? & [= <- <-] & ? & ? & ? & ? & ? & ?)
           end.
    answers.
    unfold tool_request. do 12 eexists. repeat (split; [eassumption|]). eassumption.
Qed.

(** X13.  Every launch request of a run of [launch_ubuntu] that ends asks
    for the first image the provider listed, in the first subnet of the first
    VCN and the first availability domain, with the content of
    [~/.ssh/id_rsa.pub] (stripped) as the authorised key and a public
    address.  The image is the first of the ARM query, or the first of the
    query without [shape] when the ARM query came back empty; in both cases
    the request asks for the ARM shape VM.Standard.A1.Flex with 1 OCPU and
    6 GB. *)
Theorem X13_ubuntu_request (w : World) (fuel : nat) (st st' : state) (r : res unit)
    (d : LaunchInstanceDetails) :
  OciControl.launch_ubuntu w fuel st = Some (r, st') ->
  LaunchInstance d ∈ calls st' ->
  LaunchInstance d ∉ calls st ->
  let c := OciControl.compartment_id w in
  let images_of := compute_list_images w c (VStr "Canonical Ubuntu") (VStr "22.04") in
  exists image vcn vcns subnet subnets ad ads path text,
    ((exists images, images_of (Some (VStr "VM.Standard.A1.Flex")) = Ok (image :: images))
     \/ (images_of (Some (VStr "VM.Standard.A1.Flex")) = Ok []
         /\ exists images, images_of None = Ok (image :: images)))
    /\ network_list_vcns w c = Ok (vcn :: vcns)
    /\ network_list_subnets w c (Some (vcn_id vcn)) = Ok (subnet :: subnets)
    /\ identity_list_availability_domains w c = Ok (ad :: ads)
    /\ os_path_expanduser w (VStr "~/.ssh/id_rsa.pub") = Ok path
    /\ read_text w path = Ok text
    /\ ld_image_id d = Some (image_id image)
    /\ ld_subnet_id d = Some (subnet_id subnet)
    /\ cv_subnet_id (ld_create_vnic_details d) = subnet_id subnet
    /\ assign_public_ip (ld_create_vnic_details d) = true
    /\ ld_availability_domain d = ad
    /\ ld_compartment_id d = c
    /\ ld_metadata d = [("ssh_authorized_keys", strip text)]
    /\ ld_shape d = VStr "VM.Standard.A1.Flex"
    /\ ld_shape_config d = Some {| ocpus := Qmake 1 1; memory_in_gbs := Qmake 6 1 |}
    /\ ld_display_name d = VStr "ubuntu-vanilla-test".
Proof.
  intros Hrun Hin Hnew. cbv zeta.
  destruct (ubuntu_request_sent w fuel st r st' Hrun d Hin) as [Hold|Hreq]; [contradiction|].
  destruct Hreq as (image & vcn & vcns & subnet & subnets & ad & ads & path & text & Hd).
  destruct Hd as (H1 & H2 & H3 & H4 & H5 & H6 & ->).
  exists image, vcn, vcns, subnet, subnets, ad, ads, path, text.
  repeat (split; [assumption|]). repeat split.
Qed.

Lemma X13_ubuntu_request_witness :
  let w := Mock.world Mock.arm_missing in
  exists r st d,
    OciControl.launch_ubuntu w 5 initial = Some (r, st)
    /\ List.filter is_mutation (calls st) = [LaunchInstance d]
    /\ ld_image_id d = Some (image_id Mock.x86_image)
    /\ ld_shape d = VStr "VM.Standard.A1.Flex".
Proof.
  cbv zeta.
  destruct (OciControl.launch_ubuntu (Mock.world Mock.arm_missing) 5 initial)
    as [[r st]|] eqn:Hrun; [|vm_compute in Hrun; discriminate Hrun].
  assert (Hcalls : exists d, List.filter is_mutation (calls st) = [LaunchInstance d]
                             /\ ld_image_id d = Some (image_id Mock.x86_image)).
  { vm_compute in Hrun. injection Hrun as <- <-. eexists. split; reflexivity. }
  destruct Hcalls as (d & Hcalls & Himage).
  assert (Hin : LaunchInstance d ∈ calls st).
  { apply list_elem_of_In. apply (List.filter_In is_mutation). rewrite Hcalls. now left. }
  destruct (X13_ubuntu_request _ _ _ _ _ d Hrun Hin (not_elem_of_nil _))
    as (image & vcn & vcns & subnet & subnets & ad & ads & path & text & Hd).
  destruct Hd as (_ & _ & _ & _ & _ & _ & _ & _ & _ & _ & _ & _ & _ & Hshape & _).
  exists r, st, d. repeat split; assumption.
Defined.

(** X14.  Every launch request of [launch_staging_server] asks for the first
    image of the ARM query, in the subnet chosen among all subnets of the
    compartment and in that subnet's availability domain, with the content
    of [~/.ssh/staging_deploy.pub] (stripped) as the authorised key, the
    cloud-init script as user data and a public address; the shape is
    VM.Standard.A1.Flex with 2 OCPUs and 12 GB. *)
Theorem X14_staging_request (w : World) (c : value) (fuel : nat) (st st' : state)
    (r : res (option string)) (d : LaunchInstanceDetails) :
  LaunchStaging.launch_staging_server w c fuel st = Some (r, st') ->
  LaunchInstance d ∈ calls st' ->
  LaunchInstance d ∉ calls st ->
  exists image images subnets subnet text,
    compute_list_images w c (VStr "Canonical Ubuntu") (VStr "22.04")
      (Some (VStr "VM.Standard.A1.Flex")) = Ok (image :: images)
    /\ network_list_subnets w c None = Ok subnets
    /\ LaunchStaging.public_subnet subnets = Some subnet
    /\ read_text w (home w +:+ "/.ssh/staging_deploy.pub") = Ok text
    /\ ld_source_image_id d = Some (image_id image)
    /\ cv_subnet_id (ld_create_vnic_details d) = subnet_id subnet
    /\ assign_public_ip (ld_create_vnic_details d) = true
    /\ ld_availability_domain d = subnet_availability_domain subnet
    /\ ld_metadata d = [("ssh_authorized_keys", strip text);
                        ("user_data", b64encode w (LaunchStaging.cloud_init))]
    /\ ld_shape d = VStr "VM.Standard.A1.Flex"
    /\ ld_shape_config d = Some {| ocpus := Qmake 2 1; memory_in_gbs := Qmake 12 1 |}
    /\ ld_display_name d = VStr "staging-server".
Proof.
  intros Hrun Hin Hnew.
  destruct (staging_request_sent w c fuel st r st' Hrun d Hin) as [Hold|Hreq];
    [contradiction|].
  destruct Hreq as (image & images & subnets & subnet & text & H1 & H2 & H3 & _ & H4 & ->).
  exists image, images, subnets, subnet, text. repeat split; assumption.
Qed.

Lemma X14_staging_request_witness :
  let w := Mock.world Mock.healthy in
  exists r st d,
    LaunchStaging.launch_staging_server w (VStr Mock.tenancy) 5 initial = Some (r, st)
    /\ List.filter is_mutation (calls st) = [LaunchInstance d]
    /\ cv_subnet_id (ld_create_vnic_details d) = subnet_id Mock.public_subnet
    /\ ld_availability_domain d = "AD-2".
Proof.
  cbv zeta.
  destruct (LaunchStaging.launch_staging_server (Mock.world Mock.healthy) (VStr Mock.tenancy)
              5 initial) as [[r st]|] eqn:Hrun; [|vm_compute in Hrun; discriminate Hrun].
  assert (Hcalls : exists d, List.filter is_mutation (calls st) = [LaunchInstance d]).
  { vm_compute in Hrun. injection Hrun as <- <-. eexists. reflexivity. }
  destruct Hcalls as (d & Hcalls).
  assert (Hin : LaunchInstance d ∈ calls st).
  { apply list_elem_of_In. apply (List.filter_In is_mutation). rewrite Hcalls. now left. }
  destruct (X14_staging_request _ _ _ _ _ _ d Hrun Hin (not_elem_of_nil _))
    as (image & images & subnets & subnet & text & _ & Hs & Hc & _ & _ & Hsub & _ & Had & _).
  injection Hs as <-. vm_compute in Hc. injection Hc as <-.
  exists r, st, d. repeat split; assumption.
Defined.

(** X15.  Every launch request of the tool handler [launch_instance] carries
    the [name] argument as display name and asks for the first image the
    provider listed for the requested operating system, version and shape,
    in the first availability domain and the first subnet of the first VCN,
    with a public address and the content of the key file (stripped) as the
    authorised key. *)
Theorem X15_tool_request (w : World) (args : gmap string value) (st st' : state)
    (r : res string) (d : LaunchInstanceDetails) :
  VanillaOracleMCP.launch_instance w args st = Some (r, st') ->
  LaunchInstance d ∈ calls st' ->
  LaunchInstance d ∉ calls st ->
  tool_request w args d.
Proof.
  intros Hrun Hin Hnew.
  destruct (tool_request_sent w args st r st' Hrun d Hin) as [Hold|Hreq];
    [contradiction|exact Hreq].
Qed.

Lemma X15_tool_request_witness :
  let w := Mock.world Mock.quick in
  let args : gmap string value := {[ "name" := VStr "test-1" ]} in
  exists r st d,
    VanillaOracleMCP.launch_instance w args (Mock.ready w) = Some (r, st)
    /\ List.filter is_mutation (calls st) = [LaunchInstance d]
    /\ tool_request w args d.
Proof.
  cbv zeta.
  destruct (VanillaOracleMCP.launch_instance (Mock.world Mock.quick)
              {[ "name" := VStr "test-1" ]} (Mock.ready (Mock.world Mock.quick)))
    as [[r st]|] eqn:Hrun; [|vm_compute in Hrun; discriminate Hrun].
  assert (Hcalls : exists d, List.filter is_mutation (calls st) = [LaunchInstance d]).
  { vm_compute in Hrun. injection Hrun as <- <-. eexists. reflexivity. }
  destruct Hcalls as (d & Hcalls).
  assert (Hin : LaunchInstance d ∈ calls st).
  { apply list_elem_of_In. apply (List.filter_In is_mutation). rewrite Hcalls. now left. }
  exists r, st, d. split; [reflexivity|]. split; [exact Hcalls|].
  exact (X15_tool_request _ _ _ _ _ d Hrun Hin (not_elem_of_nil _)).
Defined.

(** ** Failures after the launch *)

(** X16.  A provider error while the scripts wait for the instance is handled
    by the handler of the launch: after an accepted launch, a [ServiceError]
    from the first status query makes [launch_ubuntu] print "Failed to
    launch" and [launch_staging_server] print "Error launching instance" and
    return [None].  The instance is neither polled again nor terminated. *)
Theorem X16_poll_failure (w : World) (c : value) (fuel : nat)
    (d : LaunchInstanceDetails) (launched : Instance) (st : state)
    (status : Z) (code message text : string) :
  compute_launch_instance w d = Ok launched ->
  compute_get_instance w (polls (calls st)) (VStr (id launched))
    = Raise (ServiceError status code message text) ->
  (lifecycle_state launched <> "RUNNING" ->
   exists st',
     OciControl.launch_and_report w (S fuel) d st = Some (Ok tt, st')
     /\ calls st' = calls st ++ [LaunchInstance d; Sleep 5; GetInstance (VStr (id launched))]
     /\ stdout st' = stdout st ++
          ["   ✓ Instance created: " +:+ id launched;
           nl +:+ "5️⃣  Waiting for instance to start...";
           nl +:+ "❌ Failed to launch: " +:+ message;
           "   Status: " +:+ Sdk.str w (VInt status);
           "   Code: " +:+ code] ++ ubuntu_hint status message)
  /\ (exists st',
     LaunchStaging.launch_and_report w c fuel d st = Some (Ok None, st')
     /\ calls st' = calls st ++ [LaunchInstance d; GetInstance (VStr (id launched))]
     /\ stdout st' = stdout st ++
          ["   ✅ Instance launching: " +:+ id launched;
           nl +:+ "4️⃣  Waiting for instance to start...";
           "❌ Error launching instance: " +:+ message] ++ staging_hint text).
Proof.
  intros Hl Hg. split.
  - intros Hstate. apply String.eqb_neq in Hstate.
    unfold OciControl.launch_and_report, OciControl.on_service_error, ubuntu_hint.
    cbn [OciControl.wait_running]. run. rewrite Hl, Hstate. cbv beta iota.
    cbn [calls emit log]. rewrite !polls_app. cbn [polls List.filter is_get_instance length].
    rewrite !Nat.add_0_r, Hg.
    destruct (Z.eqb status 404); [|destruct (contains "quota" (lower message));
      [|destruct (contains "shape" (lower message))]];
      (eexists; split; [reflexivity|]; split);
      cbn [stdout calls emit log]; now rewrite <- ?app_assoc.
  - unfold LaunchStaging.launch_and_report, LaunchStaging.on_service_error,
      LaunchStaging.wait_running, staging_hint.
    run. rewrite Hl. cbv beta iota.
    cbn [calls emit log]. rewrite !polls_app. cbn [polls List.filter is_get_instance length].
    rewrite !Nat.add_0_r, Hg. cbn [str_exn].
    destruct (contains "QuotaExceeded" text);
      (eexists; split; [reflexivity|]; split);
      cbn [stdout calls emit log]; now rewrite <- ?app_assoc.
Qed.

Lemma X16_poll_failure_witness :
  let w := Mock.world Mock.lost in
  let d := LaunchStaging.instance_details w (VStr Mock.tenancy) Mock.arm_image
             Mock.public_subnet "ssh-rsa AAAA demo@host" in
  exists st,
    LaunchStaging.launch_and_report w (VStr Mock.tenancy) 5 d initial = Some (Ok None, st)
    /\ calls st = [LaunchInstance d; GetInstance (VStr "ocid1.instance.oc1..lost")]
    /\ stdout st = ["   ✅ Instance launching: ocid1.instance.oc1..lost";
                    nl +:+ "4️⃣  Waiting for instance to start...";
                    "❌ Error launching instance: instance not found"].
Proof.
  cbv zeta.
  destruct (X16_poll_failure (Mock.world Mock.lost) (VStr Mock.tenancy) 5
              (LaunchStaging.instance_details (Mock.world Mock.lost) (VStr Mock.tenancy)
                 Mock.arm_image Mock.public_subnet "ssh-rsa AAAA demo@host")
              (Mock.instance "lost" "PROVISIONING") initial
              404 "NotAuthorizedOrNotFound" "instance not found"
              "{'status': 404, 'code': 'NotAuthorizedOrNotFound', 'message': 'instance not found'}"
              eq_refl eq_refl) as (_ & st & Hrun & Hcalls & Hout).
  exists st. split; [exact Hrun|]. split; [exact Hcalls|exact Hout].
Defined.

(** ** Which errors the scripts handle *)

Lemma no_mutation (new : list call) :
  length (List.filter is_mutation new) <= 0 -> Forall (fun c => is_mutation c = false) new.
Proof.
  induction new as [|c new IH]; [constructor|]. cbn [List.filter].
  destruct (is_mutation c) eqn:Hc; cbn [length]; [lia|]. intros H. constructor; auto.
Qed.

Section Handled.

Lemma handled_of_adds {A} (P : call -> Prop) (m : M A) :
  adds P 0 m -> handled_after_launch m.
Proof.
  intros Hm s s' status code message text Hrun.
  destruct (Hm s _ s' Hrun) as (new & Hnew & _ & Hk).
  exists new. split; [exact Hnew|now apply no_mutation].
Qed.

Lemma handled_bind {A B} (P : call -> Prop) (m : M A) (f : A -> M B) :
  adds P 0 m ->
  (forall a s s', m s = Some (Ok a, s') -> handled_after_launch (f a)) ->
  handled_after_launch (m ≫= f).
Proof.
  intros Hm Hf s s' status code message text Hrun. unfold mbind, M_bind in Hrun.
  destruct (m s) as [[[a|e] s1]|] eqn:Hms; [| |discriminate].
  - destruct (Hm s _ s1 Hms) as (n1 & H1 & _ & Hk).
    destruct (Hf a s s1 Hms s1 s' _ _ _ _ Hrun) as (n2 & H2 & HP2).
    exists (n1 ++ n2). split; [now rewrite H2, H1, app_assoc|].
    apply Forall_app. split; [now apply no_mutation|exact HP2].
  - injection Hrun as -> <-. destruct (Hm s _ s1 Hms) as (n1 & H1 & _ & Hk).
    exists n1. split; [exact H1|now apply no_mutation].
Qed.

Lemma handled_never {A} (m : M A) :
  (forall s e s', m s = Some (Raise e, s') -> exists cls msg, e = Error cls msg) ->
  handled_after_launch m.
Proof.
  intros Hm s s' status code message text Hrun.
  destruct (Hm s _ s' Hrun) as (cls & msg & He). discriminate He.
Qed.

End Handled.

Section Boundary.
Variable w : World.

Lemma ubuntu_handler_contains (fuel : nat) (d : LaunchInstanceDetails) (s : state) (e : exn)
    (s' : state) :
  OciControl.launch_and_report w fuel d s = Some (Raise e, s') ->
  exists cls msg, e = Error cls msg.
Proof.
  unfold OciControl.launch_and_report, try_except.
  match goal with |- context [match ?m s with _ => _ end] => destruct (m s) as [[[x|e0] s1]|] end;
    [discriminate| |discriminate].
  destruct e0 as [status code message text|cls msg]; cbn [OciControl.on_service_error].
  - run. destruct (Z.eqb status 404); [discriminate|].
    destruct (contains "quota" (lower message)); [discriminate|].
    destruct (contains "shape" (lower message)); discriminate.
  - intros [= <- _]. eauto.
Qed.

Lemma staging_handler_contains (c : value) (fuel : nat) (d : LaunchInstanceDetails)
    (s : state) (e : exn) (s' : state) :
  LaunchStaging.launch_and_report w c fuel d s = Some (Raise e, s') ->
  exists cls msg, e = Error cls msg.
Proof.
  unfold LaunchStaging.launch_and_report, try_except.
  match goal with |- context [match ?m s with _ => _ end] => destruct (m s) as [[[x|e0] s1]|] end;
    [discriminate| |discriminate].
  destruct e0 as [status code message text|cls msg]; cbn [LaunchStaging.on_service_error].
  - run. destruct (contains "QuotaExceeded" _); discriminate.
  - intros [= <- _]. eauto.
Qed.

Ltac handled_step :=
  lazymatch goal with
  | |- handled_after_launch (OciControl.launch_and_report _ _ _) =>
      apply handled_never; apply ubuntu_handler_contains
  | |- handled_after_launch (LaunchStaging.launch_and_report _ _ _ _) =>
      apply handled_never; apply staging_handler_contains
  | |- handled_after_launch (mbind _ _) =>
      apply (handled_bind (fun c => is_mutation c = false)); [adds_all|intros ? ? ? ?]
  | |- handled_after_launch (match ?x with _ => _ end) => destruct x
  | |- handled_after_launch (let _ := _ in _) => cbv zeta
  | |- handled_after_launch _ =>
      apply (handled_of_adds (fun c => is_mutation c = false)); adds_all
  end.

Lemma launch_ubuntu_handled (fuel : nat) : handled_after_launch (OciControl.launch_ubuntu w fuel).
Proof.
  unfold OciControl.launch_ubuntu, OciControl.launch_with.
  repeat handled_step. unfold OciControl.find_images. adds_all.
Qed.

Lemma launch_staging_server_handled (c : value) (fuel : nat) :
  handled_after_launch (LaunchStaging.launch_staging_server w c fuel).
Proof.
  unfold LaunchStaging.launch_staging_server, LaunchStaging.launch_with.
  repeat handled_step.
Qed.

End Boundary.

(** X17.  Provider errors crash the scripts only before anything is launched.
    When [launch_ubuntu] or [launch_staging_server] ends by raising a
    [ServiceError], the run has sent no launch request: the queries that
    precede the [try] block are unprotected, and every [ServiceError] raised
    after the launch request was sent is caught and reported.  An error of the
    first image query, for one, is raised to the caller as it is. *)
Theorem X17_provider_errors (w : World) (c : value) (fuel : nat) (st : state) :
  (forall st' status code message text,
     OciControl.launch_ubuntu w fuel st
       = Some (Raise (ServiceError status code message text), st') ->
     List.filter is_mutation (calls st') = List.filter is_mutation (calls st))
  /\ (forall st' status code message text,
     LaunchStaging.launch_staging_server w c fuel st
       = Some (Raise (ServiceError status code message text), st') ->
     List.filter is_mutation (calls st') = List.filter is_mutation (calls st))
  /\ (forall e,
     compute_list_images w (OciControl.compartment_id w) (VStr "Canonical Ubuntu")
       (VStr "22.04") (Some (VStr "VM.Standard.A1.Flex")) = Raise e ->
     exists st', OciControl.launch_ubuntu w fuel st = Some (Raise e, st')
                 /\ List.filter is_mutation (calls st') = List.filter is_mutation (calls st))
  /\ (forall e,
     compute_list_images w c (VStr "Canonical Ubuntu") (VStr "22.04")
       (Some (VStr "VM.Standard.A1.Flex")) = Raise e ->
     exists st', LaunchStaging.launch_staging_server w c fuel st = Some (Raise e, st')
                 /\ List.filter is_mutation (calls st') = List.filter is_mutation (calls st)).
Proof.
  assert (Hquiet : forall (s s' : state) new,
            calls s' = calls s ++ new -> Forall (fun c => is_mutation c = false) new ->
            List.filter is_mutation (calls s') = List.filter is_mutation (calls s)).
  { intros s s' new -> Hnew. rewrite List.filter_app.
    replace (List.filter is_mutation new) with (@nil call); [now rewrite app_nil_r|].
    induction Hnew as [|x l Hx _ IH]; [reflexivity|]. cbn [List.filter]. now rewrite Hx. }
  split; [|split; [|split]].
  - intros st' status code message text Hrun.
    destruct (launch_ubuntu_handled w fuel st st' _ _ _ _ Hrun) as (new & Hnew & HP).
    eapply Hquiet; eassumption.
  - intros st' status code message text Hrun.
    destruct (launch_staging_server_handled w c fuel st st' _ _ _ _ Hrun) as (new & Hnew & HP).
    eapply Hquiet; eassumption.
  - intros e He. unfold OciControl.launch_ubuntu, OciControl.find_images. run. rewrite He.
    eexists. split; [reflexivity|quiet].
  - intros e He. unfold LaunchStaging.launch_staging_server. run. rewrite He.
    eexists. split; [reflexivity|quiet].
Qed.

Lemma X17_provider_errors_witness :
  let w := Mock.unauthenticated (Mock.world Mock.healthy) in
  exists st,
    OciControl.launch_ubuntu w 5 initial = Some (Raise Mock.not_authenticated, st)
    /\ List.filter is_mutation (calls st) = [].
Proof.
  cbv zeta.
  destruct (X17_provider_errors (Mock.unauthenticated (Mock.world Mock.healthy))
              (VStr Mock.tenancy) 5 initial) as (Hcrash & _ & Hfirst & _).
  destruct (Hfirst Mock.not_authenticated eq_refl) as (st & Hrun & _).
  exists st. split; [exact Hrun|].
  exact (Hcrash st _ _ _ _ Hrun).
Defined.

(** ** What launch_staging.py reports once the instance runs *)

Lemma calls_polled (line : Instance -> string) (pending : list Instance) :
  forall current st,
    calls (polled line current pending st) = calls st ++ poll_calls current pending.
Proof.
  induction pending as [|r rest IH]; intros current st; cbn [polled poll_calls].
  - now rewrite app_nil_r.
  - rewrite IH. cbn [calls emit log]. now rewrite <- !app_assoc.
Qed.

Lemma staging_wait_stops (w : World) (launched first : Instance) (rest : list Instance)
    (st : state) (fuel : nat) :
  served w (polls (calls st)) launched (first :: rest) ->
  Forall (fun i => lifecycle_state i <> "RUNNING") (removelast (first :: rest)) ->
  lifecycle_state (List.last rest first) = "RUNNING" ->
  length rest <= fuel ->
  LaunchStaging.wait_running w fuel launched st
    = Some (Ok (List.last rest first),
            polled staging_line first rest (log (GetInstance (VStr (id launched))) st)).
Proof.
  intros [Hget Hs] Hn Hr Hf. unfold LaunchStaging.wait_running. run. rewrite Hget.
  apply staging_loop_stops; try assumption.
  now rewrite polls_log_get.
Qed.

(** X18.  Suppose the staging launch goes through: image, subnet and key are
    found, the provider accepts the request, the instance is seen RUNNING
    after any number of status queries (the first fetch and the polls that
    follow it) and it has a network interface.  Then the script writes the
    deployment record for the instance and its address, which names the
    shape VM.Standard.E2.1.Micro although the request asked for
    VM.Standard.A1.Flex, and prints "STAGING SERVER READY"; its last line
    says success exactly when the interface has a non-empty public address,
    so for an instance without one it ends with "Failed to launch staging
    server".  When the record cannot be written, the error is raised to the
    caller after the launch, and neither READY nor a verdict is printed. *)
Theorem X18_staging_outcome (w : World) (c : value) (fuel : nat) (st : state)
    (image : Image) (images : list Image) (subnets : list Subnet) (subnet : Subnet)
    (text : string) (launched first : Instance) (pending : list Instance)
    (a : VnicAttachment) (more : list VnicAttachment) (vnic : Vnic) :
  let key := home w +:+ "/.ssh/staging_deploy.pub" in
  let d := LaunchStaging.instance_details w c image subnet (strip text) in
  let current := List.last pending first in
  let record := home w +:+ "/namespaces/oci/staging_deployment.json" in
  let doc := LaunchStaging.deployment_info current (public_ip vnic) in
  let sent :=
    [ListImages c (VStr "Canonical Ubuntu") (VStr "22.04") (Some (VStr "VM.Standard.A1.Flex"));
     ListSubnets c None; ReadText key; LaunchInstance d;
     GetInstance (VStr (id launched))]
    ++ poll_calls first pending
    ++ [ListVnicAttachments c (VStr (id current)); GetVnic (vnic_id a);
        WriteText record doc] in
  compute_list_images w c (VStr "Canonical Ubuntu") (VStr "22.04")
    (Some (VStr "VM.Standard.A1.Flex")) = Ok (image :: images) ->
  network_list_subnets w c None = Ok subnets ->
  LaunchStaging.public_subnet subnets = Some subnet ->
  path_exists w key = true ->
  read_text w key = Ok text ->
  compute_launch_instance w d = Ok launched ->
  served w (polls (calls st)) launched (first :: pending) ->
  Forall (fun i => lifecycle_state i <> "RUNNING") (removelast (first :: pending)) ->
  lifecycle_state current = "RUNNING" ->
  length pending <= fuel ->
  compute_list_vnic_attachments w c (VStr (id current)) = Ok (a :: more) ->
  network_get_vnic w (vnic_id a) = Ok vnic ->
  (write_text w record doc = Ok tt ->
   exists st',
     LaunchStaging.main w c fuel st = Some (Ok tt, st')
     /\ calls st' = calls st ++ sent
     /\ (nl +:+ "✅ STAGING SERVER READY!") ∈ stdout st'
     /\ last (stdout st') =
          Some (if truthy (of_option (public_ip vnic))
                then nl +:+ "🎉 Success! Your staging server is at: " +:+ str_opt (public_ip vnic)
                else nl +:+ "❌ Failed to launch staging server"))
  /\ (forall cls msg,
      write_text w record doc = Raise (Error cls msg) ->
      exists st',
        LaunchStaging.main w c fuel st = Some (Raise (Error cls msg), st')
        /\ calls st' = calls st ++ sent
        /\ last (stdout st') = Some ("   ✅ Public IP: " +:+ str_opt (public_ip vnic)))
  /\ ld_shape d = VStr "VM.Standard.A1.Flex"
  /\ field "shape" doc = Some (JStr "VM.Standard.E2.1.Micro")
  /\ field "instance_id" doc = Some (JStr (id current))
  /\ field "public_ip" doc = Some (JVal (of_option (public_ip vnic))).
Proof.
  cbv zeta.
  intros Himages Hsubnets Hchosen Hexists Hread Hlaunch Hserved Hnot Hrunning Hfuel Hatt Hvnic.
  set (d := LaunchStaging.instance_details w c image subnet (strip text)) in *.
  set (current := List.last pending first) in *.
  set (ready_to_launch := emit (nl +:+ "3️⃣  Launching instance...")
                (emit "   ✅ SSH key loaded"
                  (log (ReadText (home w +:+ "/.ssh/staging_deploy.pub"))
                    (emit ("   ✅ Using subnet: " +:+ subnet_display_name subnet)
                      (log (ListSubnets c None)
                        (emit (nl +:+ "2️⃣  Finding subnet...")
                          (emit ("   ✅ Found: " +:+ image_display_name image)
                            (after_query c st)))))))).
  set (pre := emit (nl +:+ "4️⃣  Waiting for instance to start...")
                (emit ("   ✅ Instance launching: " +:+ id launched)
                   (log (LaunchInstance d) ready_to_launch))).
  set (running := emit (nl +:+ "5️⃣  Getting public IP...")
                    (emit "   ✅ Instance is running!"
                       (polled staging_line first pending
                          (log (GetInstance (VStr (id launched))) pre)))).
  assert (Hcalls : calls running
            = calls st ++
              [ListImages c (VStr "Canonical Ubuntu") (VStr "22.04")
                 (Some (VStr "VM.Standard.A1.Flex"));
               ListSubnets c None; ReadText (home w +:+ "/.ssh/staging_deploy.pub");
               LaunchInstance d; GetInstance (VStr (id launched))]
              ++ poll_calls first pending).
  { unfold running. cbn [calls emit log]. rewrite calls_polled.
    unfold pre, ready_to_launch, after_query. cbn [calls emit log]. now rewrite <- !app_assoc. }
  assert (Hwait : LaunchStaging.wait_running w fuel launched pre
            = Some (Ok current,
                    polled staging_line first pending
                      (log (GetInstance (VStr (id launched))) pre))).
  { apply staging_wait_stops; try assumption.
    replace (polls (calls pre)) with (polls (calls st)); [exact Hserved|].
    unfold pre, ready_to_launch, after_query. cbn [calls emit log]. rewrite !polls_app. cbn. lia. }
  assert (Hprefix : LaunchStaging.launch_staging_server w c fuel st
                    = LaunchStaging.launch_and_report w c fuel d ready_to_launch).
  { unfold LaunchStaging.launch_staging_server, LaunchStaging.launch_with.
    run. rewrite Himages. cbv beta iota. rewrite Hsubnets. cbv beta iota.
    rewrite Hchosen. cbv beta iota zeta. rewrite Hexists. cbn [negb]. cbv beta iota.
    rewrite Hread. reflexivity. }
  assert (Hreach : forall r s',
            LaunchStaging.discover_ip w c current running = Some (r, s') ->
            LaunchStaging.launch_and_report w c fuel d ready_to_launch
            = match r with
              | Raise e => LaunchStaging.on_service_error e s'
              | Ok _ => Some (r, s')
              end).
  { intros r s' Hd. unfold LaunchStaging.launch_and_report, try_except.
    erewrite bind_ok by (unfold Sdk.launch_instance, invoke; rewrite Hlaunch; reflexivity).
    cbv zeta. erewrite bind_ok by reflexivity. erewrite bind_ok by reflexivity.
    erewrite bind_ok by exact Hwait. erewrite bind_ok by reflexivity.
    erewrite bind_ok by reflexivity. fold running. rewrite Hd.
    now destruct r. }
  split; [|split; [|split; [reflexivity|split; [reflexivity|split; reflexivity]]]].
  - intros Hwrite. unfold LaunchStaging.main.
    erewrite bind_ok.
    2:{ rewrite Hprefix. erewrite Hreach.
        2:{ unfold LaunchStaging.discover_ip. run. rewrite Hatt. cbv beta iota.
            rewrite Hvnic. cbv beta iota zeta. rewrite Hwrite. reflexivity. }
        reflexivity. }
    run.
    destruct (truthy (of_option (public_ip vnic)));
      (eexists; split; [reflexivity|];
       split; [cbn [calls emit log]; rewrite Hcalls; rewrite <- !app_assoc; reflexivity|];
       split; [cbn [stdout emit log];
               repeat (apply elem_of_app;
                       first [solve [right; apply list_elem_of_here] | left])
              |cbn [stdout emit log]; apply last_snoc]).
  - intros cls msg Hwrite. unfold LaunchStaging.main.
    erewrite bind_raise.
    2:{ rewrite Hprefix. erewrite Hreach.
        2:{ unfold LaunchStaging.discover_ip. run. rewrite Hatt. cbv beta iota.
            rewrite Hvnic. cbv beta iota zeta. rewrite Hwrite. reflexivity. }
        cbn [LaunchStaging.on_service_error]. reflexivity. }
    eexists; split; [reflexivity|];
      split; [cbn [calls emit log]; rewrite Hcalls; rewrite <- !app_assoc; reflexivity
             |cbn [stdout emit log]; apply last_snoc].
Qed.

Lemma X18_staging_outcome_witness :
  let w := Mock.with_vnic (Ok {| public_ip := None; private_ip := Some "10.0.0.5" |})
             (Mock.world Mock.healthy) in
  exists st,
    LaunchStaging.main w (VStr Mock.tenancy) 5 initial = Some (Ok tt, st)
    /\ List.filter is_mutation (calls st)
       = [LaunchInstance (LaunchStaging.instance_details w (VStr Mock.tenancy) Mock.arm_image
                            Mock.public_subnet "ssh-rsa AAAA demo@host")]
    /\ polls (calls st) = 3
    /\ (nl +:+ "✅ STAGING SERVER READY!") ∈ stdout st
    /\ last (stdout st) = Some (nl +:+ "❌ Failed to launch staging server").
Proof.
  intros w.
  assert (Hserved : served w (polls (calls initial)) (Mock.instance "test-1" "PROVISIONING")
                      [Mock.instance "test-1" "PROVISIONING";
                       Mock.instance "test-1" "PROVISIONING";
                       Mock.instance "test-1" "RUNNING"])
    by (repeat split).
  assert (Hnot : Forall (fun i => lifecycle_state i <> "RUNNING")
                   (removelast [Mock.instance "test-1" "PROVISIONING";
                                Mock.instance "test-1" "PROVISIONING";
                                Mock.instance "test-1" "RUNNING"]))
    by (repeat constructor; discriminate).
  destruct (X18_staging_outcome w (VStr Mock.tenancy) 5 initial Mock.arm_image []
              (Mock.subnets Mock.healthy) Mock.public_subnet ("ssh-rsa AAAA demo@host" +:+ nl)
              (Mock.instance "test-1" "PROVISIONING") (Mock.instance "test-1" "PROVISIONING")
              [Mock.instance "test-1" "PROVISIONING"; Mock.instance "test-1" "RUNNING"]
              {| vnic_id := "ocid1.vnic.oc1..demo" |} []
              {| public_ip := None; private_ip := Some "10.0.0.5" |}
              eq_refl eq_refl eq_refl eq_refl eq_refl eq_refl Hserved Hnot eq_refl
              ltac:(cbn; lia) eq_refl eq_refl)
    as (Hok & _).
  destruct (Hok eq_refl) as (st & Hrun & Hcalls & Hready & Hlast).
  exists st. split; [exact Hrun|].
  split; [rewrite Hcalls; reflexivity|].
  split; [rewrite Hcalls; reflexivity|].
  split; [exact Hready|exact Hlast].
Defined.

(** ** The advertised tools and the handlers behind them *)

Lemma get_insert_default (args : gmap string value) (key key' : string) (d d' : value) :
  args !! key = None -> (key' = key -> d' = d) ->
  VanillaOracleMCP.get (<[key := d]> args) key' d' = VanillaOracleMCP.get args key' d'.
Proof.
  intros Hnone Hd. unfold VanillaOracleMCP.get. destruct (decide (key' = key)) as [->|Hne].
  - rewrite lookup_insert_eq, Hnone. cbn. symmetry. now apply Hd.
  - now rewrite lookup_insert_ne by congruence.
Qed.

Lemma item_insert_other (args : gmap string value) (key key' : string) (d : value) :
  key' <> key ->
  VanillaOracleMCP.item (<[key := d]> args) key' = VanillaOracleMCP.item args key'.
Proof.
  intros Hne. unfold VanillaOracleMCP.item. now rewrite lookup_insert_ne by congruence.
Qed.

(** Passing an optional argument of [launch_instance] with the value the code
    falls back to is the same as leaving it out. *)
Lemma launch_instance_default (w : World) (args : gmap string value) (key : string)
    (d : value) :
  args !! key = None ->
  (key, d) ∈ [("shape", VStr "VM.Standard.A1.Flex"); ("ocpus", VInt 1); ("memory_gb", VInt 6);
              ("image_os", VStr "Canonical Ubuntu"); ("image_version", VStr "22.04");
              ("ssh_key_path", VStr "~/.ssh/id_rsa.pub")] ->
  VanillaOracleMCP.launch_instance w (<[key := d]> args) = VanillaOracleMCP.launch_instance w args.
Proof.
  intros Hnone Hin. unfold VanillaOracleMCP.launch_instance.
  repeat (apply elem_of_cons in Hin as [[= -> ->]|Hin]);
    [..|now apply elem_of_nil in Hin];
    (rewrite item_insert_other by discriminate;
     rewrite !get_insert_default by
       (first [exact Hnone | intros Hk; first [discriminate Hk | reflexivity]]);
     reflexivity).
Qed.

Lemma initialize_oci_no_call (w : World) (st : state) (r : res unit) (st1 : state) :
  VanillaOracleMCP.initialize_oci w st = Some (r, st1) -> calls st1 = calls st.
Proof.
  unfold VanillaOracleMCP.initialize_oci, VanillaOracleMCP.load_config. run.
  destruct (VanillaOracleMCP.missing w) as [|k ks].
  - cbv beta iota. destruct (new_compute_client w _) as [[]|e]; cbv beta iota.
    + destruct (new_network_client w _) as [[]|e]; intros [= _ <-]; reflexivity.
    + intros [= _ <-]; reflexivity.
  - destruct (config_from_file w) as [cfg|e]; run.
    + destruct (new_compute_client w _) as [[]|e]; cbv beta iota.
      * destruct (new_network_client w _) as [[]|e]; intros [= _ <-]; reflexivity.
      * intros [= _ <-]; reflexivity.
    + intros [= _ <-]; reflexivity.
Qed.

(** A handler asked without a required argument raises KeyError for it
    before it does anything else. *)
Lemma missing_required (w : World) (tool : VanillaOracleMCP.Tool) (key : string)
    (args : gmap string value) (st : state) :
  tool ∈ VanillaOracleMCP.list_tools ->
  key ∈ VanillaOracleMCP.required (VanillaOracleMCP.inputSchema tool) ->
  args !! key = None ->
  exists handler,
    VanillaOracleMCP.handlers w (VanillaOracleMCP.tool_name tool) = Some handler
    /\ handler args st = Some (Raise (Error "KeyError" ("'" +:+ key +:+ "'")), st).
Proof.
  intros Htool Hkey Hnone.
  repeat (apply elem_of_cons in Htool as [->|Htool]);
    [..|now apply elem_of_nil in Htool]; cbn in Hkey;
    repeat (apply elem_of_cons in Hkey as [->|Hkey]); try (now apply elem_of_nil in Hkey);
    (eexists; split; [reflexivity|]);
    unfold VanillaOracleMCP.launch_instance, VanillaOracleMCP.terminate_instance,
      VanillaOracleMCP.get_instance, VanillaOracleMCP.item; rewrite Hnone; reflexivity.
Qed.

(** X19.  The tools [list_tools] advertises are exactly the names [call_tool]
    has a handler for.  A call that leaves out an argument its tool's schema
    lists as required sends nothing to the provider.  On an initialised
    server it is answered with "Error executing <tool>: '<key>'" and leaves
    the server as it was; on a fresh server it is answered the same once the
    initialisation has succeeded, and with the initialisation error when the
    initialisation fails. *)
Theorem X19_tools_and_handlers (w : World) :
  (forall name,
     name ∈ VanillaOracleMCP.tool_name <$> VanillaOracleMCP.list_tools
     <-> VanillaOracleMCP.handlers w name <> None)
  /\ (forall tool key args st,
       tool ∈ VanillaOracleMCP.list_tools ->
       key ∈ VanillaOracleMCP.required (VanillaOracleMCP.inputSchema tool) ->
       args !! key = None ->
       let answer :=
         VanillaOracleMCP.text_content
           ("Error executing " +:+ VanillaOracleMCP.tool_name tool +:+ ": '" +:+ key +:+ "'") in
       (compute_client st = true ->
        VanillaOracleMCP.call_tool w true (VanillaOracleMCP.tool_name tool) args st
          = Some (Ok answer, st))
       /\ (compute_client st = false ->
           forall st1,
             VanillaOracleMCP.initialize_oci w st = Some (Ok tt, st1) ->
             VanillaOracleMCP.call_tool w true (VanillaOracleMCP.tool_name tool) args st
               = Some (Ok answer, st1)
             /\ calls st1 = calls st)
       /\ (compute_client st = false ->
           forall e st1,
             VanillaOracleMCP.initialize_oci w st = Some (Raise e, st1) ->
             VanillaOracleMCP.call_tool w true (VanillaOracleMCP.tool_name tool) args st
               = Some (Ok (VanillaOracleMCP.text_content
                             ("Error initializing OCI: " +:+ str_exn e)), st1)
             /\ calls st1 = calls st)).
Proof.
  split.
  - intros name. split.
    + intros Hin. cbn in Hin.
      repeat (apply elem_of_cons in Hin as [->|Hin]); try discriminate.
      now apply elem_of_nil in Hin.
    + unfold VanillaOracleMCP.handlers. intros Hh.
      repeat match type of Hh with
             | context [String.eqb name ?n] =>
                 let Heq := fresh "Heq" in
                 destruct (String.eqb name n) eqn:Heq;
                 [apply String.eqb_eq in Heq; subst name; cbn;
                  repeat first [apply list_elem_of_here | apply list_elem_of_further]|]
             end.
      congruence.
  - intros tool key args st Htool Hkey Hnone. cbv zeta.
    split; [|split].
    + intros Hready.
      destruct (missing_required w tool key args st Htool Hkey Hnone) as (h & Hh & Hrun).
      unfold VanillaOracleMCP.call_tool. cbn [negb]. rewrite Hh.
      unfold gets. unfold mbind at 1, M_bind at 1. rewrite Hready.
      run. rewrite Hrun. reflexivity.
    + intros Hfresh st1 Hinit.
      destruct (missing_required w tool key args st1 Htool Hkey Hnone) as (h & Hh & Hrun).
      split; [|exact (initialize_oci_no_call w st (Ok tt) st1 Hinit)].
      unfold VanillaOracleMCP.call_tool. cbn [negb]. rewrite Hh.
      unfold gets. unfold mbind at 1, M_bind at 1. rewrite Hfresh.
      run. rewrite Hinit. cbv beta iota. rewrite Hrun. reflexivity.
    + intros Hfresh e st1 Hinit.
      split; [|exact (initialize_oci_no_call w st (Raise e) st1 Hinit)].
      unfold VanillaOracleMCP.call_tool. cbn [negb].
      unfold gets. unfold mbind at 1, M_bind at 1. rewrite Hfresh.
      run. rewrite Hinit. reflexivity.
Qed.

Lemma X19_tools_and_handlers_witness :
  let w := Mock.world Mock.healthy in
  let tool :=
    {| VanillaOracleMCP.tool_name := "oci_instance_terminate";
       VanillaOracleMCP.tool_description := "Terminate an OCI compute instance";
       VanillaOracleMCP.inputSchema := JObj
         [ ("type", JStr "object");
           ("properties", JObj
              [ ("instance_id",
                 VanillaOracleMCP.property "string" "Instance OCID to terminate") ]);
           ("required", JArr [JStr "instance_id"]) ] |} in
  VanillaOracleMCP.call_tool w true (VanillaOracleMCP.tool_name tool) ∅ initial
    = Some (Ok (VanillaOracleMCP.text_content
                  ("Error executing " +:+ VanillaOracleMCP.tool_name tool +:+ ": '"
                   +:+ "instance_id" +:+ "'")),
            Mock.ready w)
  /\ VanillaOracleMCP.call_tool w true (VanillaOracleMCP.tool_name tool) ∅ (Mock.ready w)
    = Some (Ok (VanillaOracleMCP.text_content
                  ("Error executing " +:+ VanillaOracleMCP.tool_name tool +:+ ": '"
                   +:+ "instance_id" +:+ "'")),
            Mock.ready w).
Proof.
  intros w tool.
  destruct (X19_tools_and_handlers w) as [_ Hrequired].
  assert (Htool : tool ∈ VanillaOracleMCP.list_tools).
  { unfold VanillaOracleMCP.list_tools. do 2 apply list_elem_of_further.
    apply list_elem_of_here. }
  assert (Hkey : "instance_id" ∈ VanillaOracleMCP.required (VanillaOracleMCP.inputSchema tool))
    by apply list_elem_of_here.
  split.
  - destruct (Hrequired tool "instance_id" ∅ initial Htool Hkey (lookup_empty _))
      as (_ & Hfresh & _).
    apply (Hfresh eq_refl (Mock.ready w)). vm_compute. reflexivity.
  - destruct (Hrequired tool "instance_id" ∅ (Mock.ready w) Htool Hkey (lookup_empty _))
      as (Hready & _).
    apply Hready. reflexivity.
Defined.

(** X20.  The defaults the launch tool advertises are the defaults its handler
    applies: for every argument whose schema entry has a [default], a call
    that passes that value behaves exactly like a call that leaves the
    argument out.  The schema advertises no default for [shape], for which
    the handler falls back to VM.Standard.A1.Flex. *)
Theorem X20_advertised_defaults (w : World) (args : gmap string value) (schema : json) :
  schema_of "oci_instance_launch" = Some schema ->
  (forall key dflt,
     (key, dflt) ∈ advertised_defaults schema ->
     args !! key = None ->
     VanillaOracleMCP.launch_instance w (<[key := argument_of dflt]> args)
       = VanillaOracleMCP.launch_instance w args)
  /\ (advertised_defaults schema).*1
       = ["ocpus"; "memory_gb"; "image_os"; "image_version"; "ssh_key_path"]
  /\ (args !! "shape" = None ->
      VanillaOracleMCP.launch_instance w (<["shape" := VStr "VM.Standard.A1.Flex"]> args)
        = VanillaOracleMCP.launch_instance w args).
Proof.
  intros [= <-]. split; [|split; [vm_compute; reflexivity|]].
  - intros key dflt Hd Hnone. apply launch_instance_default; [exact Hnone|].
    vm_compute advertised_defaults in Hd.
    repeat (apply elem_of_cons in Hd as [[= -> ->]|Hd];
            [cbn [argument_of];
             repeat first [apply list_elem_of_here | apply list_elem_of_further]|]).
    now apply elem_of_nil in Hd.
  - intros Hnone. apply launch_instance_default; [exact Hnone|apply list_elem_of_here].
Qed.

Lemma X20_advertised_defaults_witness :
  let w := Mock.world Mock.quick in
  let args : gmap string value := {[ "name" := VStr "test-1" ]} in
  VanillaOracleMCP.launch_instance w (<["memory_gb" := argument_of (JInt 6)]> args)
    = VanillaOracleMCP.launch_instance w args.
Proof.
  intros w args.
  destruct (X20_advertised_defaults w args _ eq_refl) as (Hdefault & _ & _).
  apply (Hdefault "memory_gb" (JInt 6)).
  - vm_compute advertised_defaults. do 1 apply list_elem_of_further. apply list_elem_of_here.
  - apply lookup_singleton_ne. discriminate.
Defined.

(** ** Failed lookups of the tool server *)

(** X21.  [get_instance] and [terminate_instance] of the tool server report
    every failure of the instance lookup as "not found": whatever exception
    the provider raises for the lookup (an outage as much as an unknown id),
    and also when the server has no compute client, the answer is
    "Error: Instance <id> not found", nothing is raised, and no termination
    request is sent. *)
Theorem X21_lookup_failures (w : World) (args : gmap string value) (instance_id : value)
    (st : state) :
  args !! "instance_id" = Some instance_id ->
  compute_client st = false
  \/ (exists e, compute_get_instance w (polls (calls st)) instance_id = Raise e) ->
  let not_found := "Error: Instance " +:+ Sdk.str w instance_id +:+ " not found" in
  (exists st',
     VanillaOracleMCP.get_instance w args st = Some (Ok not_found, st')
     /\ List.filter is_mutation (calls st') = List.filter is_mutation (calls st))
  /\ (exists st',
     VanillaOracleMCP.terminate_instance w args st = Some (Ok not_found, st')
     /\ List.filter is_mutation (calls st') = List.filter is_mutation (calls st)).
Proof.
  intros Hid Hfail. cbv zeta.
  unfold VanillaOracleMCP.get_instance, VanillaOracleMCP.terminate_instance,
    VanillaOracleMCP.item, VanillaOracleMCP.via_compute.
  rewrite Hid. run.
  destruct (compute_client st) eqn:Hclient.
  - destruct Hfail as [Hno|[e He]]; [discriminate Hno|]. rewrite He.
    split; (eexists; split; [reflexivity|quiet]).
  - split; (eexists; split; [reflexivity|reflexivity]).
Qed.

Lemma X21_lookup_failures_witness :
  let w := Mock.world Mock.healthy in
  let args : gmap string value := {[ "instance_id" := VStr "ocid1.instance.oc1..test-1" ]} in
  exists st',
    VanillaOracleMCP.get_instance w args initial
      = Some (Ok "Error: Instance ocid1.instance.oc1..test-1 not found", st')
    /\ List.filter is_mutation (calls st') = [].
Proof.
  intros w args.
  destruct (X21_lookup_failures w args (VStr "ocid1.instance.oc1..test-1") initial
              (lookup_singleton_eq _ _) (or_introl eq_refl)) as ((st' & Hrun & Hcalls) & _).
  exists st'. split; [exact Hrun|exact Hcalls].
Defined.
